(** * SelfLayer terminal client: a shallow embedding and its contract

    The development follows the layout of the Python package:
    - [PyStr]      the [str] operations the package relies on
    - [Json]       the values [json.loads] builds, and a reference reader
    - [Config]     [selflayer/config.py]: the configuration and its manager
    - [Document] .. [Notification], [Models]
                   [selflayer/models.py]: the records and [AppState]
    - [Http], [Client]
                   [selflayer/client.py]: the gateway and its stream reader
    - [Renderers]  the two panels of [selflayer/renderers.py] the commands use
    - [Tui]        [selflayer/tui.py]: the dispatcher and the commands that
                   work by index
    - [PyText], [CommandLine]
                   the [str] operations of the command line, and
                   [parse_command]
    - [Endpoints]  more of the endpoint methods of [selflayer/client.py]
    - [Commands]   [selflayer/tui.py]: the subcommands, the other handlers
                   and the loop
    - [Startup]    the constructor of the client, the global client and the
                   start of the interface
    - [NoteDisplay]
                   the preview of a note

    A method is a function of the object it runs on, returning a value or
    a raised exception together with the object as the call leaves it.  The
    network, the user and the libraries underneath are parameters.

    Python [str] values are modelled as [string], one element per code
    point, for texts whose code points are below 256.  Literals of the
    source that contain other characters appear as their UTF-8 bytes; the
    code never inspects them. *)

From Stdlib Require Import ZArith Ascii String List Bool Lia.
From stdpp Require Import base option list strings gmap pretty.

Open Scope string_scope.
Open Scope Z_scope.
Open Scope list_scope.

Set Warnings "-register-all".

(** ** Python string operations *)

Module PyStr.

(** [bool(s)] for a [str]: the empty string is falsy. *)
Definition truthy (s : string) : bool :=
  match s with
  | EmptyString => false
  | String _ _ => true
  end.

(** [c.isspace()] on the code points below 256: TAB..CR, FS..US, SPACE,
    NEL and NBSP. *)
Definition isspace (c : ascii) : bool :=
  let n := N_of_ascii c in
  ((9 <=? n) && (n <=? 13) || (28 <=? n) && (n <=? 32)
   || (n =? 133) || (n =? 160))%N.

(** [s.lstrip()], [s.rstrip()] and [s.strip()] with no argument. *)
Fixpoint lstrip (s : string) : string :=
  match s with
  | EmptyString => EmptyString
  | String c s' => if isspace c then lstrip s' else s
  end.

Definition rstrip (s : string) : string :=
  String.rev (lstrip (String.rev s)).

Definition strip (s : string) : string := rstrip (lstrip s).

(** [s.startswith(p)]. *)
Definition startswith (s p : string) : bool := String.prefix p s.

(** Texts that contain double quotes are written with single quotes in
    their place; [qq] puts the double quotes back. *)
Definition dquote : ascii := ascii_of_N 34.

Fixpoint qq (s : string) : string :=
  match s with
  | EmptyString => EmptyString
  | String c s' => String (if (N_of_ascii c =? 39)%N then dquote else c) (qq s')
  end.

(** [s.lstrip(c)] and [s.rstrip(c)] for a one-character argument. *)
Fixpoint lstrip_char (c : ascii) (s : string) : string :=
  match s with
  | EmptyString => EmptyString
  | String c' s' => if Ascii.eqb c c' then lstrip_char c s' else s
  end.

Definition rstrip_char (c : ascii) (s : string) : string :=
  String.rev (lstrip_char c (String.rev s)).

(** [s.strip(chars)] for a set of characters. *)
Fixpoint lstrip_set (chars : list ascii) (s : string) : string :=
  match s with
  | EmptyString => EmptyString
  | String c s' => if existsb (Ascii.eqb c) chars then lstrip_set chars s' else s
  end.

Definition strip_set (chars : list ascii) (s : string) : string :=
  String.rev (lstrip_set chars (String.rev (lstrip_set chars s))).

(** [s.replace(a, b)] for one-character [a] and [b]. *)
Fixpoint replace_char (a b : ascii) (s : string) : string :=
  match s with
  | EmptyString => EmptyString
  | String c s' => String (if Ascii.eqb c a then b else c) (replace_char a b s')
  end.

(** [sub in s]. *)
Fixpoint contains (sub s : string) : bool :=
  String.prefix sub s
  || match s with
     | EmptyString => false
     | String _ s' => contains sub s'
     end.

(** ['.'.join(s.split('.')[:-1])] when ['.' in s], else [s]: the text
    before the last dot. *)
Fixpoint before_last_dot (s : string) : option string :=
  match s with
  | EmptyString => None
  | String c s' =>
      match before_last_dot s' with
      | Some r => Some (String c r)
      | None => if Ascii.eqb c "."%char then Some EmptyString else None
      end
  end.

Definition is_ascii_digit (c : ascii) : bool :=
  let n := N_of_ascii c in ((48 <=? n) && (n <=? 57))%N.

(** The digits of an [int] literal: digits, with single underscores
    between them. *)
Fixpoint int_digits (acc : Z) (after_digit : bool) (s : string) : option Z :=
  match s with
  | EmptyString => if after_digit then Some acc else None
  | String c s' =>
      if is_ascii_digit c then
        int_digits (10 * acc + (Z.of_N (N_of_ascii c) - 48)) true s'
      else if (N_of_ascii c =? 95)%N && after_digit then
        match s' with
        | String c' _ => if is_ascii_digit c' then int_digits acc false s' else None
        | EmptyString => None
        end
      else None
  end.

(** [int(s)] for a [str]; [None] stands for [ValueError]. *)
Definition int (s : string) : option Z :=
  match strip s with
  | String c s' =>
      if (N_of_ascii c =? 45)%N then Z.opp <$> int_digits 0 false s'
      else if (N_of_ascii c =? 43)%N then int_digits 0 false s'
      else int_digits 0 false (String c s')
  | EmptyString => None
  end.

(** [len(s)] as a Python integer. *)
Definition len (s : string) : Z := Z.of_nat (String.length s).

Fixpoint drop (n : nat) (s : string) : string :=
  match n, s with
  | O, _ => s
  | S _, EmptyString => EmptyString
  | S n', String _ s' => drop n' s'
  end.

Fixpoint take (n : nat) (s : string) : string :=
  match n, s with
  | O, _ => EmptyString
  | S _, EmptyString => EmptyString
  | S n', String c s' => String c (take n' s')
  end.

(** A slice bound [i] clamped the way Python clamps it: a negative bound
    counts from the end, and both are cut to [0 .. len s]. *)
Definition clamp (i : Z) (s : string) : nat :=
  Z.to_nat (Z.min (len s) (if i <? 0 then Z.max 0 (len s + i) else i)).

(** [s[i:]] and [s[:j]]. *)
Definition slice_from (i : Z) (s : string) : string := drop (clamp i s) s.
Definition slice_to (j : Z) (s : string) : string := take (clamp j s) s.

End PyStr.

(** ** JSON values *)

Module Json.

(** What [json.loads] builds: [None], [bool], [int], [float], [str],
    [list] and [dict].  A [dict] keeps its keys in insertion order, so it
    is an association list with distinct keys.  A [float] is kept as the
    literal it was read from. *)
Inductive json : Type :=
| JNull
| JBool (b : bool)
| JInt (n : Z)
| JFloat (lit : string)
| JStr (s : string)
| JArr (items : list json)
| JObj (members : list (string * json)).

Definition dict : Type := list (string * json).

(** [d.get(k)]. *)
Fixpoint dict_get (k : string) (d : dict) : option json :=
  match d with
  | [] => None
  | (k', v) :: d' => if String.eqb k k' then Some v else dict_get k d'
  end.

(** [k in d]. *)
Definition dict_contains (k : string) (d : dict) : bool :=
  match dict_get k d with Some _ => true | None => false end.

(** [d[k] = v]: an existing key keeps its place, a new one goes last. *)
Fixpoint dict_set (k : string) (v : json) (d : dict) : dict :=
  match d with
  | [] => [(k, v)]
  | (k', v') :: d' =>
      if String.eqb k k' then (k, v) :: d' else (k', v') :: dict_set k v d'
  end.

(** [d.pop(k)] on a key that is present: the value and the rest. *)
Fixpoint dict_remove (k : string) (d : dict) : dict :=
  match d with
  | [] => []
  | (k', v') :: d' =>
      if String.eqb k k' then d' else (k', v') :: dict_remove k d'
  end.

(** *** A reference reader

    [loads] reads the part of JSON that needs no floating point and no
    [\u] escape: literals, integers, strings with the two-character
    escapes, arrays and objects.  The gateway is stated over any reader;
    this one makes the statements run on concrete texts. *)

Definition is_ws (c : ascii) : bool :=
  let n := N_of_ascii c in ((n =? 32) || (n =? 9) || (n =? 10) || (n =? 13))%N.

Fixpoint skip_ws (cs : list ascii) : list ascii :=
  match cs with
  | c :: cs' => if is_ws c then skip_ws cs' else cs
  | [] => []
  end.

Definition digit_of (c : ascii) : option Z :=
  let n := N_of_ascii c in
  if ((48 <=? n) && (n <=? 57))%N then Some (Z.of_N n - 48) else None.

Fixpoint read_digits (acc : Z) (cs : list ascii) : Z * list ascii :=
  match cs with
  | c :: cs' =>
      match digit_of c with
      | Some d => read_digits (10 * acc + d) cs'
      | None => (acc, cs)
      end
  | [] => (acc, [])
  end.

(** After the digits of an integer nothing of a fraction or an exponent
    may follow. *)
Definition no_fraction (cs : list ascii) : bool :=
  match cs with
  | c :: _ => negb (Ascii.eqb c "." || Ascii.eqb c "e" || Ascii.eqb c "E")%char
  | [] => true
  end.

(** The digits of a number: a lone [0], or a non-zero digit and more. *)
Definition read_nat (cs : list ascii) : option (Z * list ascii) :=
  match cs with
  | c :: cs' =>
      match digit_of c with
      | Some 0 => if no_fraction cs' then Some (0, cs') else None
      | Some d =>
          let '(n, rest) := read_digits d cs' in
          if no_fraction rest then Some (n, rest) else None
      | None => None
      end
  | [] => None
  end.

Definition unescape (c : ascii) : option ascii :=
  let n := N_of_ascii c in
  if (n =? 34)%N then Some c
  else if (n =? 92)%N then Some c
  else if (n =? 47)%N then Some c
  else if (n =? 98)%N then Some (ascii_of_N 8)
  else if (n =? 102)%N then Some (ascii_of_N 12)
  else if (n =? 110)%N then Some (ascii_of_N 10)
  else if (n =? 114)%N then Some (ascii_of_N 13)
  else if (n =? 116)%N then Some (ascii_of_N 9)
  else None.

(** The characters of a string up to its closing quote. *)
Fixpoint read_string (cs : list ascii) : option (string * list ascii) :=
  match cs with
  | [] => None
  | c :: cs' =>
      let n := N_of_ascii c in
      if (n =? 34)%N then Some (EmptyString, cs')
      else if (n =? 92)%N then
        match cs' with
        | e :: cs'' =>
            match unescape e, read_string cs'' with
            | Some c', Some (s, rest) => Some (String c' s, rest)
            | _, _ => None
            end
        | [] => None
        end
      else if (n <? 32)%N then None
      else
        match read_string cs' with
        | Some (s, rest) => Some (String c s, rest)
        | None => None
        end
  end.

Definition expect (lit : string) (v : json) (cs : list ascii)
  : option (json * list ascii) :=
  let l := list_ascii_of_string lit in
  if bool_decide (take (length l) cs = l)
  then Some (v, drop (length l) cs) else None.

Fixpoint read_value (fuel : nat) (cs : list ascii) {struct fuel}
  : option (json * list ascii) :=
  match fuel with
  | O => None
  | S fuel' =>
      match cs with
      | [] => None
      | c :: cs' =>
          let n := N_of_ascii c in
          if (n =? 110)%N then expect "null" JNull cs
          else if (n =? 116)%N then expect "true" (JBool true) cs
          else if (n =? 102)%N then expect "false" (JBool false) cs
          else if (n =? 34)%N then
            match read_string cs' with
            | Some (s, rest) => Some (JStr s, rest)
            | None => None
            end
          else if (n =? 45)%N then
            match read_nat cs' with
            | Some (k, rest) => Some (JInt (- k), rest)
            | None => None
            end
          else if (n =? 91)%N then
            match skip_ws cs' with
            | c' :: rest =>
                if (N_of_ascii c' =? 93)%N then Some (JArr [], rest)
                else
                  match read_items fuel' (skip_ws cs') with
                  | Some (l, rest') => Some (JArr l, rest')
                  | None => None
                  end
            | [] => None
            end
          else if (n =? 123)%N then
            match skip_ws cs' with
            | c' :: rest =>
                if (N_of_ascii c' =? 125)%N then Some (JObj [], rest)
                else
                  match read_members fuel' (skip_ws cs') [] with
                  | Some (d, rest') => Some (JObj d, rest')
                  | None => None
                  end
            | [] => None
            end
          else
            match read_nat cs with
            | Some (k, rest) => Some (JInt k, rest)
            | None => None
            end
      end
  end

(** The items of an array after its bracket, up to the closing one. *)
with read_items (fuel : nat) (cs : list ascii) {struct fuel}
  : option (list json * list ascii) :=
  match fuel with
  | O => None
  | S fuel' =>
      match read_value fuel' cs with
      | Some (v, rest) =>
          match skip_ws rest with
          | c :: rest' =>
              if (N_of_ascii c =? 93)%N then Some ([v], rest')
              else if (N_of_ascii c =? 44)%N then
                match read_items fuel' (skip_ws rest') with
                | Some (l, rest'') => Some (v :: l, rest'')
                | None => None
                end
              else None
          | [] => None
          end
      | None => None
      end
  end

(** The members of an object after its brace; a repeated key keeps its
    place and takes the later value. *)
with read_members (fuel : nat) (cs : list ascii) (acc : dict) {struct fuel}
  : option (dict * list ascii) :=
  match fuel with
  | O => None
  | S fuel' =>
      match cs with
      | q :: cs' =>
          if (N_of_ascii q =? 34)%N then
            match read_string cs' with
            | Some (k, rest) =>
                match skip_ws rest with
                | colon :: rest' =>
                    if (N_of_ascii colon =? 58)%N then
                      match read_value fuel' (skip_ws rest') with
                      | Some (v, rest'') =>
                          let acc' := dict_set k v acc in
                          match skip_ws rest'' with
                          | c :: rest3 =>
                              if (N_of_ascii c =? 125)%N then Some (acc', rest3)
                              else if (N_of_ascii c =? 44)%N then
                                read_members fuel' (skip_ws rest3) acc'
                              else None
                          | [] => None
                          end
                      | None => None
                      end
                    else None
                | [] => None
                end
            | None => None
            end
          else None
      | [] => None
      end
  end.

(** [json.loads(s)]: one value, with white space around it and nothing
    else; [None] stands for [JSONDecodeError]. *)
Definition loads (s : string) : option json :=
  let cs := list_ascii_of_string s in
  match read_value (S (length cs)) (skip_ws cs) with
  | Some (v, rest) =>
      match skip_ws rest with
      | [] => Some v
      | _ :: _ => None
      end
  | None => None
  end.

End Json.
Export Json.

(** ** Exceptions *)

(** The exception classes the package raises itself carry their message.
    The ones raised by the runtime and by the libraries carry their cause. *)
Inductive exn : Type :=
| ValueError (msg : string)
| APIError (msg : string)
| JSONDecodeError (doc : string)
| AttributeError (type_name attr : string)
| NotIterable (type_name : string)
| NotAMapping (callee type_name : string)
| ValidationError (model : string) (data : Json.dict)
| ResponseNotRead.

(** The outcome of a call: a returned value or a raised exception. *)
Inductive outcome (A : Type) : Type :=
| Return (a : A)
| Raise (e : exn).
Arguments Return {A} a.
Arguments Raise {A} e.

(** A method as a function of the object it runs on: it yields the outcome
    and the object as the call leaves it. *)
Definition M (S A : Type) : Type := S -> outcome A * S.

Definition ret {S A} (a : A) : M S A := fun s => (Return a, s).
Definition raise {S A} (e : exn) : M S A := fun s => (Raise e, s).
Definition bind {S A B} (m : M S A) (k : A -> M S B) : M S B :=
  fun s => match m s with
           | (Return a, s') => k a s'
           | (Raise e, s') => (Raise e, s')
           end.
Definition get_self {S} : M S S := fun s => (Return s, s).
Definition put_self {S} (s : S) : M S unit := fun _ => (Return tt, s).
(** [try: m  except Exception as e: h e]. *)
Definition try_except {S A} (m : M S A) (h : exn -> M S A) : M S A :=
  fun s => match m s with
           | (Return a, s') => (Return a, s')
           | (Raise e, s') => h e s'
           end.

Notation "x <- m ;; k" := (bind m (fun x => k))
  (at level 100, m at next level, right associativity).
Notation "m ;;; k" := (bind m (fun _ => k))
  (at level 100, right associativity).

(** ** The libraries underneath *)

(** What the package takes from the Python runtime and its libraries and
    this development does not fix: [json_loads] is [json.loads], with [None]
    for [JSONDecodeError]; [str_of] is [str] on a value that is not already
    a string; [str_title] is [str.title]; [exn_text] is the text of an
    exception raised by a library. *)
Record Platform : Type := mkPlatform {
  json_loads : string -> option json;
  str_of : json -> string;
  str_title : string -> string;
  exn_text : exn -> string
}.

(** [f"{v}"]. *)
Definition format (P : Platform) (v : json) : string :=
  match v with
  | JStr s => s
  | _ => str_of P v
  end.

(** [str(e)]. *)
Definition str_exn (P : Platform) (e : exn) : string :=
  match e with
  | ValueError msg | APIError msg => msg
  | AttributeError type_name attr =>
      "'" +:+ type_name +:+ "' object has no attribute '" +:+ attr +:+ "'"
  | NotIterable type_name => "'" +:+ type_name +:+ "' object is not iterable"
  | _ => exn_text P e
  end.

(** A platform to evaluate on: the reference reader of [Json], and fixed
    texts where the real ones depend on the library version. *)
Definition reference_platform : Platform :=
  mkPlatform Json.loads (fun _ => "<value>") (fun s => s) (fun _ => "<library error>").

(** ** [selflayer/config.py] *)

(** The records of the module's logger are not kept. *)
Module Config.

Record SelfLayerConfig : Type := mkConfig {
  api_key : option string;
  base_url : string;
  log_level : string;
  created_at : option string;
  updated_at : option string
}.

Definition with_api_key (k : option string) (c : SelfLayerConfig) :=
  mkConfig k (base_url c) (log_level c) (created_at c) (updated_at c).
Definition with_updated_at (t : option string) (c : SelfLayerConfig) :=
  mkConfig (api_key c) (base_url c) (log_level c) (created_at c) t.

(** The field defaults of the model, with [created_at] as given. *)
Definition default_config (created : option string) : SelfLayerConfig :=
  mkConfig None "https://api.selflayer.com/api/v1" "INFO" created None.

Definition has_api_key (self : SelfLayerConfig) : bool :=
  match api_key self with
  | None => false
  | Some k => 0 <? PyStr.len (PyStr.strip k)
  end.

Definition set_api_key (key : string) : M SelfLayerConfig unit :=
  if negb (PyStr.truthy key) || negb (PyStr.truthy (PyStr.strip key)) then
    raise (ValueError "API key cannot be empty")
  else
    let key := PyStr.strip key in
    if negb (PyStr.startswith key "sl_live_" || PyStr.startswith key "sl_test_") then
      raise (ValueError
        "Invalid API key format. SelfLayer API keys must start with 'sl_live_' or 'sl_test_'")
    else
      self <- get_self ;;
      put_self (with_api_key (Some key) self).

Definition clear_api_key : M SelfLayerConfig unit :=
  self <- get_self ;; put_self (with_api_key None self).

Definition get_masked_api_key (self : SelfLayerConfig) : string :=
  match api_key self with
  | None => "Not set"
  | Some k =>
      if negb (PyStr.truthy k) then "Not set"
      else if PyStr.len k <? 12 then "***"
      else PyStr.slice_to 8 k +:+ "..." +:+ PyStr.slice_from (-4) k
  end.

(** *** The configuration file

    The file is kept at the level of the JSON value it holds: what
    [json.dump] writes, [json.load] reads back.  [Unreadable] is a file
    whose text is not JSON; [writable] is cleared when opening the file
    for writing fails. *)
Inductive config_file : Type :=
| NoFile
| Unreadable
| Holds (data : json).

Record disk : Type := mkDisk {
  file : config_file;
  mode : Z;
  writable : bool
}.

(** The manager, the file it owns and the process environment. *)
Record World : Type := mkWorld {
  _config : option SelfLayerConfig;
  storage : disk;
  environ : gmap string string
}.

Definition with_config (c : option SelfLayerConfig) (w : World) : World :=
  mkWorld c (storage w) (environ w).
Definition with_storage (d : disk) (w : World) : World :=
  mkWorld (_config w) d (environ w).

(** A [str] field of the model: absent takes the default, a string is
    taken as it is, anything else is refused. *)
Definition str_field (k : string) (default : string) (d : dict) : option string :=
  match dict_get k d with
  | None => Some default
  | Some (JStr s) => Some s
  | Some _ => None
  end.

(** An [Optional[str]] field: absent and [null] give [None]. *)
Definition opt_str_field (k : string) (d : dict) : option (option string) :=
  match dict_get k d with
  | None | Some JNull => Some None
  | Some (JStr s) => Some (Some s)
  | Some _ => None
  end.

(** The model built from the keyword arguments [config_data]; [None]
    stands for the validation error.  Keys that name no field are ignored. *)
Definition validate (d : dict) : option SelfLayerConfig :=
  k ← opt_str_field "api_key" d;
  u ← str_field "base_url" "https://api.selflayer.com/api/v1" d;
  l ← str_field "log_level" "INFO" d;
  c ← opt_str_field "created_at" d;
  t ← opt_str_field "updated_at" d;
  Some (mkConfig k u l c t).

Definition opt_json (o : option string) : json :=
  match o with Some s => JStr s | None => JNull end.

(** [self.model_dump(exclude_none=False)]. *)
Definition model_dump (self : SelfLayerConfig) : json :=
  JObj [("api_key", opt_json (api_key self));
        ("base_url", JStr (base_url self));
        ("log_level", JStr (log_level self));
        ("created_at", opt_json (created_at self));
        ("updated_at", opt_json (updated_at self))].

(** The body of the [try] in [load_config] for a file that exists;
    [None] is any exception, which the caller turns into the defaults. *)
Definition read_config (now : string) (f : config_file) : option SelfLayerConfig :=
  match f with
  | Holds (JObj config_data) =>
      let config_data :=
        if negb (dict_contains "created_at" config_data)
        then dict_set "created_at" (JStr now) config_data
        else config_data in
      let config_data :=
        if dict_contains "gemini_api_key" config_data
           && negb (dict_contains "api_key" config_data)
        then
          match dict_get "gemini_api_key" config_data with
          | Some v => dict_set "api_key" v (dict_remove "gemini_api_key" config_data)
          | None => config_data
          end
        else config_data in
      validate config_data
  | Holds _ => None
  | Unreadable => None
  | NoFile => Some (default_config (Some now))
  end.

(** [now] is the reading of [datetime.utcnow().isoformat()]. *)
Definition load_config (now : string) : M World SelfLayerConfig :=
  fun w =>
    match _config w with
    | Some c => (Return c, w)
    | None =>
        let c := match read_config now (file (storage w)) with
                 | Some c => c
                 | None => default_config (Some now)
                 end in
        (Return c, with_config (Some c) w)
    end.

Definition save_config (now : string) (config : option SelfLayerConfig)
  : M World bool :=
  fun w =>
    let w := match config with
             | Some c => with_config (Some c) w
             | None => w
             end in
    match _config w with
    | None => (Return false, w)
    | Some c =>
        let c := with_updated_at (Some now) c in
        let w := with_config (Some c) w in
        if writable (storage w) then
          (Return true,
           with_storage (mkDisk (Holds (model_dump c)) 384 true) w)
        else (Return false, w)
    end.

Definition get_config (now : string) : M World SelfLayerConfig :=
  fun w =>
    match _config w with
    | None => load_config now w
    | Some c => (Return c, w)
    end.

(** A method of the configuration object run on the object the manager
    holds: [config] and [self._config] are one object, so what the method
    leaves is what the manager holds afterwards. *)
Definition on_config {A} (config : SelfLayerConfig) (m : M SelfLayerConfig A)
  : M World (A * SelfLayerConfig) :=
  fun w =>
    match m config with
    | (Return a, c') => (Return (a, c'), with_config (Some c') w)
    | (Raise e, c') => (Raise e, with_config (Some c') w)
    end.

Definition update_api_key (now : string) (key : string) : M World bool :=
  try_except
    (config <- get_config now ;;
     r <- on_config config (set_api_key key) ;;
     save_config now (Some (snd r)))
    (fun _ => ret false).

Definition manager_clear_api_key (now : string) : M World bool :=
  try_except
    (config <- get_config now ;;
     r <- on_config config clear_api_key ;;
     save_config now (Some (snd r)))
    (fun _ => ret false).

Definition get_api_key (now : string) : M World (option string) :=
  config <- get_config now ;; ret (api_key config).

Definition manager_has_api_key (now : string) : M World bool :=
  config <- get_config now ;; ret (has_api_key config).

Definition reset_config (now : string) : M World bool :=
  try_except
    (fun w => save_config now None
                (with_config (Some (default_config (Some now))) w))
    (fun _ => ret false).

(** [os.getenv(name)]. *)
Definition getenv (name : string) : M World (option string) :=
  fun w => (Return (environ w !! name), w).

Definition get_effective_api_key (now : string) : M World (option string) :=
  env_key <- getenv "SELFLAYER_API_KEY" ;;
  match env_key with
  | Some v => if PyStr.truthy v then ret (Some (PyStr.strip v)) else get_api_key now
  | None => get_api_key now
  end.

Definition get_effective_base_url (now : string) : M World string :=
  env_url <- getenv "SELFLAYER_BASE_URL" ;;
  match env_url with
  | Some v =>
      if PyStr.truthy v then ret (PyStr.strip v)
      else (config <- get_config now ;; ret (base_url config))
  | None => config <- get_config now ;; ret (base_url config)
  end.

End Config.

(** ** [selflayer/models.py] *)

(** Building a model from keyword arguments is the work of the validation
    library; a model class is taken with its validator, [None] standing for
    the validation error. *)
Class Model (A : Type) : Type := {
  model_name : string;
  model_validate : Json.dict -> option A
}.

Module Document.
Record t : Type := mk {
  id : string;
  file_name : string;
  status : string;
  summary : option string;
  keywords : option string;
  created_at : string;
  updated_at : string;
  file_size : option Z;
  visibility : string;
  content_type : option string
}.

(** The [title] property; [str_title] is [str.title]. *)
Definition title (str_title : string -> string) (self : t) : string :=
  let name := file_name self in
  let name := match PyStr.before_last_dot name with
              | Some stem => stem
              | None => name
              end in
  str_title (PyStr.replace_char "-" " " (PyStr.replace_char "_" " " name)).
End Document.

Module Note.
Record t : Type := mk {
  id : string;
  user_id : string;
  title : string;
  content : string;
  status : string;
  processing_error : option string;
  created_at : string;
  updated_at : string;
  tags : list string;
  visibility : string
}.
End Note.

Module Integration.
Record t : Type := mk {
  id : string;
  provider : string;
  display_name : string;
  account_identifier : string;
  is_default : bool;
  scopes : list string;
  created_at : string;
  is_sync_enabled : bool;
  is_retrieval_enabled : bool;
  is_syncable : bool;
  sync_status : string;
  last_synced_at : option string;
  last_sync_error : option string;
  summary : string;
  tags : list string
}.
End Integration.

Module Automation.
Record t : Type := mk {
  id : string;
  user_id : string;
  title : string;
  description : string;
  prompt : string;
  type : string;
  trigger_slug : option string;
  cron_schedule : option string;
  is_enabled : bool;
  last_run_at : option string;
  last_run_status : option string;
  last_run_message : option string;
  created_at : string;
  updated_at : string
}.
End Automation.

Module Notification.
Record t : Type := mk {
  id : string;
  title : string;
  message : string;
  type : string;
  read : bool;
  datetime : string
}.
End Notification.

Module Models.

(** The name Python gives the type of a JSON value. *)
Definition type_name (v : json) : string :=
  match v with
  | JNull => "NoneType"
  | JBool _ => "bool"
  | JInt _ => "int"
  | JFloat _ => "float"
  | JStr _ => "str"
  | JArr _ => "list"
  | JObj _ => "dict"
  end.

Fixpoint chars (s : string) : list json :=
  match s with
  | EmptyString => []
  | String c s' => JStr (String c EmptyString) :: chars s'
  end.

(** [for x in data]: the items of a list, the keys of a dict, the
    characters of a string; anything else is not iterable. *)
Definition iterate {S} (data : json) : M S (list json) :=
  match data with
  | JArr items => ret items
  | JObj members => ret (map (fun kv => JStr (fst kv)) members)
  | JStr s => ret (chars s)
  | _ => raise (NotIterable (type_name data))
  end.

(** [cls] called with the keyword arguments [doc]. *)
Definition construct {S A} `{Model A} (doc : json) : M S A :=
  match doc with
  | JObj kwargs =>
      match model_validate kwargs with
      | Some a => ret a
      | None => raise (ValidationError model_name kwargs)
      end
  | _ => raise (NotAMapping model_name (type_name doc))
  end.

(** The list comprehension that calls [cls] on each item of [data], left
    to right; the first failure ends it. *)
Fixpoint construct_all {S A} `{Model A} (items : list json) : M S (list A) :=
  match items with
  | [] => ret []
  | doc :: rest =>
      a <- construct doc ;;
      l <- construct_all rest ;;
      ret (a :: l)
  end.

(** [enumerate(items)], counting from [start]. *)
Fixpoint enumerate_from {A} (start : Z) (items : list A) : list (Z * A) :=
  match items with
  | [] => []
  | x :: rest => (start, x) :: enumerate_from (start + 1) rest
  end.

(** The dict comprehension [{i + 1: x.id for i, x in enumerate(items)}]:
    the entries are stored one after the other. *)
Definition index_of {A} (id_of : A -> string) (items : list A) : gmap Z string :=
  fold_left (fun m ix => <[fst ix + 1 := id_of (snd ix)]> m)
            (enumerate_from 0 items) ∅.

(** The state of the application.  [user_profile], [search_results] and
    [session_start] hold values that no operation below reads; they are
    left out. *)
Record AppState : Type := mkAppState {
  api_key_set : bool;
  current_search_query : string;
  documents : list Document.t;
  notes : list Note.t;
  notifications : list Notification.t;
  integrations : list Integration.t;
  automations : list Automation.t;
  last_error : string;
  document_index : gmap Z string;
  note_index : gmap Z string;
  notification_index : gmap Z string;
  integration_index : gmap Z string;
  automation_index : gmap Z string
}.

Definition initial : AppState :=
  mkAppState false EmptyString [] [] [] [] [] EmptyString ∅ ∅ ∅ ∅ ∅.

Definition set_documents (l : list Document.t) (ix : gmap Z string) (s : AppState) :=
  mkAppState (api_key_set s) (current_search_query s) l (notes s) (notifications s)
    (integrations s) (automations s) (last_error s) ix (note_index s)
    (notification_index s) (integration_index s) (automation_index s).
Definition set_notes (l : list Note.t) (ix : gmap Z string) (s : AppState) :=
  mkAppState (api_key_set s) (current_search_query s) (documents s) l (notifications s)
    (integrations s) (automations s) (last_error s) (document_index s) ix
    (notification_index s) (integration_index s) (automation_index s).
Definition set_notifications (l : list Notification.t) (ix : gmap Z string) (s : AppState) :=
  mkAppState (api_key_set s) (current_search_query s) (documents s) (notes s) l
    (integrations s) (automations s) (last_error s) (document_index s) (note_index s)
    ix (integration_index s) (automation_index s).
Definition set_integrations (l : list Integration.t) (ix : gmap Z string) (s : AppState) :=
  mkAppState (api_key_set s) (current_search_query s) (documents s) (notes s)
    (notifications s) l (automations s) (last_error s) (document_index s) (note_index s)
    (notification_index s) ix (automation_index s).
Definition set_automations (l : list Automation.t) (ix : gmap Z string) (s : AppState) :=
  mkAppState (api_key_set s) (current_search_query s) (documents s) (notes s)
    (notifications s) (integrations s) l (last_error s) (document_index s) (note_index s)
    (notification_index s) (integration_index s) ix.

Section Updates.
Context `{Model Document.t, Model Note.t, Model Notification.t,
          Model Integration.t, Model Automation.t}.

(** [self.documents] is assigned first and the index is built from it;
    when the comprehension raises, nothing has been assigned. *)
Definition update_documents (documents_data : json) : M AppState unit :=
  items <- iterate documents_data ;;
  docs <- construct_all items ;;
  self <- get_self ;;
  put_self (set_documents docs (index_of Document.id docs) self).

Definition update_notes (notes_data : json) : M AppState unit :=
  items <- iterate notes_data ;;
  l <- construct_all items ;;
  self <- get_self ;;
  put_self (set_notes l (index_of Note.id l) self).

Definition update_notifications (notifications_data : json) : M AppState unit :=
  items <- iterate notifications_data ;;
  l <- construct_all items ;;
  self <- get_self ;;
  put_self (set_notifications l (index_of Notification.id l) self).

Definition update_integrations (integrations_data : json) : M AppState unit :=
  items <- iterate integrations_data ;;
  l <- construct_all items ;;
  self <- get_self ;;
  put_self (set_integrations l (index_of Integration.id l) self).

Definition update_automations (automations_data : json) : M AppState unit :=
  items <- iterate automations_data ;;
  l <- construct_all items ;;
  self <- get_self ;;
  put_self (set_automations l (index_of Automation.id l) self).
End Updates.

(** [next((x for x in items if x.id == wanted), None)] behind the
    truthiness test on the looked-up identifier. *)
Definition by_index {A} (id_of : A -> string) (index : gmap Z string)
    (items : list A) (i : Z) : option A :=
  match index !! i with
  | Some wanted =>
      if PyStr.truthy wanted
      then List.find (fun x => String.eqb (id_of x) wanted) items
      else None
  | None => None
  end.

Definition get_document_by_index (self : AppState) (index : Z) : option Document.t :=
  by_index Document.id (document_index self) (documents self) index.
Definition get_note_by_index (self : AppState) (index : Z) : option Note.t :=
  by_index Note.id (note_index self) (notes self) index.
Definition get_notification_by_index (self : AppState) (index : Z)
  : option Notification.t :=
  by_index Notification.id (notification_index self) (notifications self) index.
Definition get_integration_by_index (self : AppState) (index : Z)
  : option Integration.t :=
  by_index Integration.id (integration_index self) (integrations self) index.
Definition get_automation_by_index (self : AppState) (index : Z)
  : option Automation.t :=
  by_index Automation.id (automation_index self) (automations self) index.

Definition clear_all_data : M AppState unit :=
  self <- get_self ;;
  put_self (mkAppState (api_key_set self) EmptyString [] [] [] [] [] EmptyString
              ∅ ∅ ∅ ∅ ∅).

Definition set_error (error : string) : M AppState unit :=
  self <- get_self ;;
  put_self (mkAppState (api_key_set self) (current_search_query self) (documents self)
              (notes self) (notifications self) (integrations self) (automations self)
              error (document_index self) (note_index self) (notification_index self)
              (integration_index self) (automation_index self)).

End Models.

(** ** Terminal, log and network *)

Module Rich.
(** A panel: its text, its title and its border style. *)
Record Panel : Type := mkPanel {
  renderable : string;
  title : string;
  border_style : string
}.
End Rich.
Export Rich.

(** What [console.print] and the prompts put on the terminal.  The list
    and card renderers are kept as the call that was made. *)
Inductive printed : Type :=
| PPanel (p : Panel)
| PText (s : string)
| PBlank
| PDocumentsList (l : list Document.t)
| PDocumentCard (d : Document.t) (index : option Z)
| PNotesList (l : list Note.t)
| PNoteCard (n : Note.t) (index : option Z)
| PConfirm (question : string).

Module Http.

Record Request : Type := mkRequest {
  method : string;
  url : string;
  params : option json;
  json_body : option json;
  files : option string;
  headers : list (string * string);
  request_headers : option (list (string * string))
}.

(** A response as the code sees it: [content] is [None] while the body
    has not been read, which is how a streamed response arrives. *)
Record Response : Type := mkResponse {
  status_code : Z;
  content : option string
}.

Definition is_success (r : Response) : bool :=
  (200 <=? status_code r) && (status_code r <=? 299).

(** What awaiting a request gives: a response with its body read, a
    timeout, or another transport failure with its text. *)
Inductive reply : Type :=
| Responds (status : Z) (text : string)
| TimesOut
| Fails (e : string).

(** How the lines of a streamed body end. *)
Inductive stream_end : Type :=
| Exhausted
| ReadTimesOut
| ReadFails (e : string).

(** What opening a stream gives: the status, the body when it is already
    at hand, the lines [aiter_lines] will deliver and how they end. *)
Inductive stream_reply : Type :=
| Streams (status : Z) (body : option string) (lines : list string)
          (ending : stream_end)
| ConnectTimesOut
| ConnectFails (e : string).

(** The remote service: its answer may depend on what was sent before. *)
Record Remote : Type := mkRemote {
  server : list Request -> Request -> reply;
  stream_server : list Request -> Request -> stream_reply
}.

End Http.
Export Http.

(** The process as the gateway sees it: the requests sent, the terminal and
    the warnings logged.  Records below warning level are not kept. *)
Record Process : Type := mkProcess {
  sent : list Request;
  screen : list printed;
  warnings : list string
}.

Definition print {A} (lift : (Process -> Process) -> A -> A) (x : printed) : M A unit :=
  fun w => (Return tt, lift (fun p => mkProcess (sent p) (screen p ++ [x]) (warnings p)) w).

Definition console_print (x : printed) : M Process unit := print (fun f => f) x.

Definition log_warning (msg : string) (p : Process) : Process :=
  mkProcess (sent p) (screen p) (warnings p ++ [msg]).

(** ** [selflayer/client.py] *)

Module Client.

Record SelfLayerAPIClient : Type := mkClient {
  api_key : string;
  base_url : string
}.

Definition client_headers (self : SelfLayerAPIClient) : list (string * string) :=
  [("Authorization", "Bearer " +:+ api_key self);
   ("Content-Type", "application/json");
   ("User-Agent", "SelfTUI/2.0.0 (SelfLayer Terminal Client)")].

Section Gateway.
Variable P : Platform.
Variable remote : Remote.

Definition send (req : Request) : M Process reply :=
  fun w => (Return (server remote (sent w) req),
            mkProcess (sent w ++ [req]) (screen w) (warnings w)).

Definition endpoint_url (self : SelfLayerAPIClient) (endpoint : string) : string :=
  base_url self +:+ "/" +:+ PyStr.lstrip_char "/" endpoint.

(** [response.json()] and [response.text] need the body. *)
Definition _handle_error (response : Response) : M Process Panel :=
  match content response with
  | None => raise ResponseNotRead
  | Some text =>
      let status := pretty (status_code response) in
      let error_msg :=
        match json_loads P text with
        | Some (JObj error_data) =>
            match dict_get "detail" error_data with
            | Some detail => format P detail
            | None => "HTTP " +:+ status
            end
        | _ => "HTTP " +:+ status +:+ ": " +:+ text
        end in
      let nl := String (ascii_of_N 10) EmptyString in
      let '(title, message) :=
        if status_code response =? 401 then
          ("[red]Authentication Error[/red]",
           "[red]" +:+ error_msg +:+ "[/red]" +:+ nl +:+ nl +:+
           "Check your SELFLAYER_API_KEY environment variable.")
        else if status_code response =? 403 then
          ("[red]Permission Denied[/red]",
           "[red]" +:+ error_msg +:+ "[/red]" +:+ nl +:+ nl +:+
           "Your API key may not have sufficient permissions.")
        else if status_code response =? 404 then
          ("[yellow]Not Found[/yellow]",
           "[yellow]" +:+ error_msg +:+ "[/yellow]")
        else if status_code response =? 422 then
          ("[red]Validation Error[/red]", "[red]" +:+ error_msg +:+ "[/red]")
        else if status_code response =? 429 then
          ("[yellow]Rate Limited[/yellow]",
           "[yellow]" +:+ error_msg +:+ "[/yellow]" +:+ nl +:+ nl +:+
           "Please wait and try again.")
        else ("[red]API Error[/red]", "[red]" +:+ error_msg +:+ "[/red]") in
      ret (mkPanel message title
             (if 500 <=? status_code response then "red" else "yellow"))
  end.

(** The part the five request methods share after the reply is in:
    the error path, and the two transport failures. *)
Definition fail_request (response : Response) : M Process json :=
  error_panel <- _handle_error response ;;
  console_print (PPanel error_panel) ;;;
  raise (APIError ("API request failed: " +:+ pretty (status_code response))).

Definition response_json (response : Response) : M Process json :=
  match content response with
  | None => raise ResponseNotRead
  | Some text =>
      match json_loads P text with
      | Some v => ret v
      | None => raise (JSONDecodeError text)
      end
  end.

Definition get (self : SelfLayerAPIClient) (endpoint : string)
    (params : option json) : M Process json :=
  let url := endpoint_url self endpoint in
  r <- send (mkRequest "GET" url params None None (client_headers self) None) ;;
  match r with
  | Responds status text =>
      let response := mkResponse status (Some text) in
      if negb (is_success response) then fail_request response
      else response_json response
  | TimesOut => raise (APIError ("Request timeout for " +:+ endpoint))
  | Fails e => raise (APIError ("Request error for " +:+ endpoint +:+ ": " +:+ e))
  end.

Definition post (self : SelfLayerAPIClient) (endpoint : string)
    (json_data : option json) (files : option string) : M Process json :=
  let url := endpoint_url self endpoint in
  r <- (match files with
        | Some _ =>
            let headers :=
              List.filter (fun kv => negb (String.eqb (fst kv) "Content-Type"))
                     (client_headers self) in
            send (mkRequest "POST" url None json_data files (client_headers self)
                    (Some headers))
        | None =>
            send (mkRequest "POST" url None json_data None (client_headers self) None)
        end) ;;
  match r with
  | Responds status text =>
      let response := mkResponse status (Some text) in
      if negb (is_success response) then fail_request response
      else response_json response
  | TimesOut => raise (APIError ("Request timeout for " +:+ endpoint))
  | Fails e => raise (APIError ("Request error for " +:+ endpoint +:+ ": " +:+ e))
  end.

Definition put (self : SelfLayerAPIClient) (endpoint : string)
    (json_data : option json) : M Process json :=
  let url := endpoint_url self endpoint in
  r <- send (mkRequest "PUT" url None json_data None (client_headers self) None) ;;
  match r with
  | Responds status text =>
      let response := mkResponse status (Some text) in
      if negb (is_success response) then fail_request response
      else response_json response
  | TimesOut => raise (APIError ("Request timeout for " +:+ endpoint))
  | Fails e => raise (APIError ("Request error for " +:+ endpoint +:+ ": " +:+ e))
  end.

Definition patch (self : SelfLayerAPIClient) (endpoint : string)
    (json_data : option json) : M Process json :=
  let url := endpoint_url self endpoint in
  r <- send (mkRequest "PATCH" url None json_data None (client_headers self) None) ;;
  match r with
  | Responds status text =>
      let response := mkResponse status (Some text) in
      if negb (is_success response) then fail_request response
      else response_json response
  | TimesOut => raise (APIError ("Request timeout for " +:+ endpoint))
  | Fails e => raise (APIError ("Request error for " +:+ endpoint +:+ ": " +:+ e))
  end.

(** [None] is returned as [JNull], the value [null] is read to. *)
Definition delete (self : SelfLayerAPIClient) (endpoint : string)
  : M Process json :=
  let url := endpoint_url self endpoint in
  r <- send (mkRequest "DELETE" url None None None (client_headers self) None) ;;
  match r with
  | Responds status text =>
      let response := mkResponse status (Some text) in
      if negb (is_success response) then fail_request response
      else if status_code response =? 204 then ret JNull
      else response_json response
  | TimesOut => raise (APIError ("Request timeout for " +:+ endpoint))
  | Fails e => raise (APIError ("Request error for " +:+ endpoint +:+ ": " +:+ e))
  end.

(** The loop over the lines of a stream: the chunks it yields, in
    order, and whether it left through [break]. *)
Fixpoint read_lines (lines : list string) (w : Process)
  : (list json * bool) * Process :=
  match lines with
  | [] => (([], false), w)
  | line :: rest =>
      if PyStr.truthy (PyStr.strip line) then
        if PyStr.startswith line "data: " then
          let json_str := PyStr.slice_from 6 line in
          if String.eqb (PyStr.strip json_str) "[DONE]" then (([], true), w)
          else
            match json_loads P json_str with
            | Some chunk =>
                let '((chunks, broke), w') := read_lines rest w in
                ((chunk :: chunks, broke), w')
            | None =>
                read_lines rest (log_warning ("Failed to parse JSON: " +:+ line) w)
            end
        else
          match json_loads P line with
          | Some chunk =>
              let '((chunks, broke), w') := read_lines rest w in
              ((chunk :: chunks, broke), w')
          | None =>
              read_lines rest (log_warning ("Failed to parse JSON: " +:+ line) w)
          end
      else read_lines rest w
  end.

Definition send_stream (req : Request) : M Process stream_reply :=
  fun w => (Return (stream_server remote (sent w) req),
            mkProcess (sent w ++ [req]) (screen w) (warnings w)).

(** The generator run to its end: the chunks yielded, and how the
    iteration finished. *)
Definition stream (self : SelfLayerAPIClient) (endpoint : string)
    (json_data : Json.dict) (w : Process)
  : (list json * outcome unit) * Process :=
  let url := endpoint_url self endpoint in
  let stream_data := JObj (dict_set "stream" (JBool true) json_data) in
  match send_stream (mkRequest "POST" url None (Some stream_data) None
                       (client_headers self) None) w with
  | (Return (Streams status body lines ending), w1) =>
      let response := mkResponse status body in
      if negb (is_success response) then
        let '(r, w2) :=
          (error_panel <- _handle_error response ;;
           console_print (PPanel error_panel) ;;;
           raise (APIError ("API stream failed: " +:+ pretty status))) w1 in
        (([], r), w2)
      else
        let '((chunks, broke), w2) := read_lines lines w1 in
        ((chunks,
          if broke then Return tt
          else match ending with
               | Exhausted => Return tt
               | ReadTimesOut => Raise (APIError ("Stream timeout for " +:+ endpoint))
               | ReadFails e =>
                   Raise (APIError ("Stream error for " +:+ endpoint +:+ ": " +:+ e))
               end), w2)
  | (Return ConnectTimesOut, w1) =>
      (([], Raise (APIError ("Stream timeout for " +:+ endpoint))), w1)
  | (Return (ConnectFails e), w1) =>
      (([], Raise (APIError ("Stream error for " +:+ endpoint +:+ ": " +:+ e))), w1)
  | (Raise e, w1) => (([], Raise e), w1)
  end.

(** [response if isinstance(response, list) else response.get(key, [])]. *)
Definition list_or_member (key : string) (response : json) : M Process json :=
  match response with
  | JArr _ => ret response
  | JObj d =>
      ret (match dict_get key d with Some v => v | None => JArr [] end)
  | _ => raise (AttributeError (Models.type_name response) "get")
  end.

Definition list_documents (self : SelfLayerAPIClient) : M Process json :=
  response <- get self "documents/" None ;;
  list_or_member "documents" response.

Definition delete_document (self : SelfLayerAPIClient) (doc_id : string)
  : M Process json :=
  delete self ("documents/" +:+ doc_id).

Definition list_notes (self : SelfLayerAPIClient) : M Process json :=
  response <- get self "notes/" None ;;
  list_or_member "notes" response.

Definition update_note (self : SelfLayerAPIClient) (note_id : string)
    (title content : option string) : M Process json :=
  let data := [] in
  let data := match title with
              | Some t => if PyStr.truthy t then dict_set "title" (JStr t) data else data
              | None => data
              end in
  let data := match content with
              | Some c => if PyStr.truthy c then dict_set "content" (JStr c) data else data
              | None => data
              end in
  put self ("notes/" +:+ note_id) (Some (JObj data)).

Definition delete_note (self : SelfLayerAPIClient) (note_id : string)
  : M Process json :=
  delete self ("notes/" +:+ note_id).

End Gateway.

End Client.

(** ** [selflayer/renderers.py] *)

Module Renderers.

Definition render_error_panel (error_message title : string) : Panel :=
  mkPanel ("[red]" +:+ error_message +:+ "[/red]")
          ("[bold red]❌ " +:+ title +:+ "[/bold red]")
          "red".

Definition render_success_panel (message title : string) : Panel :=
  mkPanel ("[green]" +:+ message +:+ "[/green]")
          ("[bold green]✅ " +:+ title +:+ "[/bold green]")
          "green".

End Renderers.

(** ** [selflayer/tui.py] *)

Module Tui.
Import Models Client Renderers.

Record SelfLayerCLI : Type := mkCLI {
  app_state : AppState;
  client : option SelfLayerAPIClient;
  running : bool;
  process : Process
}.

Definition with_process (f : Process -> Process) (self : SelfLayerCLI) : SelfLayerCLI :=
  mkCLI (app_state self) (client self) (running self) (f (process self)).

(** A gateway call made from the interface. *)
Definition in_process {A} (m : M Process A) : M SelfLayerCLI A :=
  fun self =>
    let '(r, p) := m (process self) in
    (r, mkCLI (app_state self) (client self) (running self) p).

(** A method of [self.app_state]. *)
Definition in_state {A} (m : M AppState A) : M SelfLayerCLI A :=
  fun self =>
    let '(r, st) := m (app_state self) in
    (r, mkCLI st (client self) (running self) (process self)).

Definition say (x : printed) : M SelfLayerCLI unit := print with_process x.

(** The commands that the guard of [_execute_command] lets through
    without a client, and the routing lists, as written. *)
Definition no_client_needed : list string :=
  ["/help"; "/h"; "help"; "/key"; "/k"; "key"; "/clear"; "/c"; "clear";
   "/quit"; "/q"; "quit"; "exit"].

Definition among (command : string) (l : list string) : bool :=
  existsb (String.eqb command) l.

(** The handler a command is routed to, with the arguments it is given. *)
Inductive call : Type :=
| cmd_help
| cmd_key (args : list string)
| cmd_ask (args : list string)
| cmd_search (args : list string)
| cmd_documents (args : list string)
| cmd_notes (args : list string)
| cmd_integrations (args : list string)
| cmd_automations (args : list string)
| cmd_notifications (args : list string)
| cmd_rms (args : list string)
| cmd_clear
| cmd_quit.

(** What [_execute_command] does with a command: it prints a panel and
    returns, or it awaits a handler. *)
Inductive routed : Type :=
| Printed (p : Panel)
| Awaits (c : call).

Definition _execute_command (self : SelfLayerCLI) (command : string)
    (args : list string) : routed :=
  if negb (among command no_client_needed)
     && negb (match client self with Some _ => true | None => false end)
  then
    Printed (render_error_panel
      "SelfLayer API key required. Use /key to set it or set SELFLAYER_API_KEY environment variable."
      "API Error")
  else if among command ["/help"; "help"; "/h"] then Awaits cmd_help
  else if among command ["/key"; "key"; "/k"] then Awaits (cmd_key args)
  else if among command ["/ask"; "ask"; "/a"] then Awaits (cmd_ask args)
  else if among command ["/search"; "search"; "/s"] then Awaits (cmd_search args)
  else if among command ["/documents"; "documents"; "/d"] then Awaits (cmd_documents args)
  else if among command ["/notes"; "notes"; "/n"] then Awaits (cmd_notes args)
  else if among command ["/integrations"; "integrations"; "/i"]
    then Awaits (cmd_integrations args)
  else if among command ["/automations"; "automations"; "/auto"]
    then Awaits (cmd_automations args)
  else if among command ["/notifications"; "notifications"; "/notifs"]
    then Awaits (cmd_notifications args)
  else if among command ["/rms"; "rms"; "/r"] then Awaits (cmd_rms args)
  else if among command ["/clear"; "clear"; "/c"] then Awaits cmd_clear
  else if among command ["/quit"; "/exit"; "quit"; "exit"; "/q"] then Awaits cmd_quit
  else
    Printed (render_error_panel
      ("Unknown command: " +:+ command +:+ ". Type /help for available commands.")
      "Invalid Command").

Section Handlers.
Variable P : Platform.
Variable remote : Remote.
(** The answer the user gives to a [Confirm.ask]. *)
Variable answer : string -> bool.
Context `{MD : Model Document.t, MN : Model Note.t}.

(** [self.client.name(...)]: the attribute is looked up on the client,
    which may be [None]. *)
Definition on_client {A} (name : string)
    (m : SelfLayerAPIClient -> M Process A) : M SelfLayerCLI A :=
  self <- get_self ;;
  match client self with
  | Some c => in_process (m c)
  | None => raise (AttributeError "NoneType" name)
  end.

(** [Confirm.ask(question, default=False)]. *)
Definition confirm (question : string) : M SelfLayerCLI bool :=
  say (PConfirm question) ;;; ret (answer question).

Definition error_panel (e : exn) (title : string) : printed :=
  PPanel (render_error_panel (str_exn P e) title).

(** The progress spinners are transient and leave nothing on the
    terminal; they are not modelled. *)
Definition _list_documents : M SelfLayerCLI unit :=
  try_except
    (documents_data <- on_client "list_documents" (list_documents P remote) ;;
     in_state (update_documents documents_data) ;;;
     self <- get_self ;;
     say (PDocumentsList (documents (app_state self))))
    (fun e => say (error_panel e "Documents Error")) ;;;
  say PBlank.

Definition _view_document (index : Z) : M SelfLayerCLI unit :=
  self <- get_self ;;
  match get_document_by_index (app_state self) index with
  | None =>
      say (PPanel (render_error_panel
        ("Document #" +:+ pretty index +:+ " not found. Use /d to list documents.")
        "Document Not Found"))
  | Some document =>
      say (PDocumentCard document (Some index)) ;;;
      say PBlank
  end.

Definition _delete_document (index_str : string) : M SelfLayerCLI unit :=
  match PyStr.int index_str with
  | None =>
      say (PPanel (render_error_panel
        ("Invalid document number: " +:+ index_str) "Invalid Input"))
  | Some index =>
      self <- get_self ;;
      match get_document_by_index (app_state self) index with
      | None =>
          say (PPanel (render_error_panel
            ("Document #" +:+ pretty index +:+ " not found. Use /d to list documents.")
            "Document Not Found"))
      | Some document =>
          let title := Document.title (str_title P) document in
          ok <- confirm ("Delete document '" +:+ title +:+ "'?") ;;
          if negb ok then say (PText "[yellow]Deletion cancelled.[/yellow]")
          else
            try_except
              (on_client "delete_document"
                 (fun c => delete_document P remote c (Document.id document)) ;;;
               say (PPanel (render_success_panel
                 ("Document '" +:+ title +:+ "' deleted successfully.") "Deleted")) ;;;
               _list_documents)
              (fun e => say (error_panel e "Delete Error"))
      end
  end.

Definition _list_notes : M SelfLayerCLI unit :=
  try_except
    (notes_data <- on_client "list_notes" (list_notes P remote) ;;
     in_state (update_notes notes_data) ;;;
     self <- get_self ;;
     say (PNotesList (notes (app_state self))))
    (fun e => say (error_panel e "Notes Error")) ;;;
  say PBlank.

Definition _view_note (index : Z) : M SelfLayerCLI unit :=
  self <- get_self ;;
  match get_note_by_index (app_state self) index with
  | None =>
      say (PPanel (render_error_panel
        ("Note #" +:+ pretty index +:+ " not found. Use /n to list notes.")
        "Note Not Found"))
  | Some note =>
      say (PNoteCard note (Some index)) ;;;
      say PBlank
  end.

Definition quotes : list ascii := [PyStr.dquote; "'"%char].

Definition _edit_note (index_str new_content : string) : M SelfLayerCLI unit :=
  match PyStr.int index_str with
  | None =>
      say (PPanel (render_error_panel
        ("Invalid note number: " +:+ index_str) "Invalid Input"))
  | Some index =>
      self <- get_self ;;
      match get_note_by_index (app_state self) index with
      | None =>
          say (PPanel (render_error_panel
            ("Note #" +:+ pretty index +:+ " not found. Use /n to list notes.")
            "Note Not Found"))
      | Some note =>
          let new_content := PyStr.strip_set quotes new_content in
          try_except
            (on_client "update_note"
               (fun c => update_note P remote c (Note.id note) None (Some new_content)) ;;;
             say (PPanel (render_success_panel
               ("Note '" +:+ Note.title note +:+ "' updated successfully.")
               "Note Updated")) ;;;
             _list_notes)
            (fun e => say (error_panel e "Update Error"))
      end
  end.

Definition _delete_note (index_str : string) : M SelfLayerCLI unit :=
  match PyStr.int index_str with
  | None =>
      say (PPanel (render_error_panel
        ("Invalid note number: " +:+ index_str) "Invalid Input"))
  | Some index =>
      self <- get_self ;;
      match get_note_by_index (app_state self) index with
      | None =>
          say (PPanel (render_error_panel
            ("Note #" +:+ pretty index +:+ " not found. Use /n to list notes.")
            "Note Not Found"))
      | Some note =>
          ok <- confirm ("Delete note '" +:+ Note.title note +:+ "'?") ;;
          if negb ok then say (PText "[yellow]Deletion cancelled.[/yellow]")
          else
            try_except
              (on_client "delete_note"
                 (fun c => delete_note P remote c (Note.id note)) ;;;
               say (PPanel (render_success_panel
                 ("Note '" +:+ Note.title note +:+ "' deleted successfully.")
                 "Deleted")) ;;;
               _list_notes)
              (fun e => say (error_panel e "Delete Error"))
      end
  end.

End Handlers.

End Tui.

(** *** Validators for evaluation

    These accept the JSON type that a field declares and nothing else: no
    coercion between types is modelled.  The statements below hold for any
    validator; these make them run. *)

Module Strict.

Definition req_str (k : string) (d : Json.dict) : option string :=
  match dict_get k d with
  | Some (JStr s) => Some s
  | _ => None
  end.

Definition str_or (k default : string) (d : Json.dict) : option string :=
  match dict_get k d with
  | None => Some default
  | Some (JStr s) => Some s
  | Some _ => None
  end.

Definition opt_str (k : string) (d : Json.dict) : option (option string) :=
  match dict_get k d with
  | None | Some JNull => Some None
  | Some (JStr s) => Some (Some s)
  | Some _ => None
  end.

Definition opt_int (k : string) (d : Json.dict) : option (option Z) :=
  match dict_get k d with
  | None | Some JNull => Some None
  | Some (JInt n) => Some (Some n)
  | Some _ => None
  end.

Definition bool_or (k : string) (default : bool) (d : Json.dict) : option bool :=
  match dict_get k d with
  | None => Some default
  | Some (JBool b) => Some b
  | Some _ => None
  end.

Definition as_str (v : json) : option string :=
  match v with JStr s => Some s | _ => None end.

Definition str_list (k : string) (d : Json.dict) : option (list string) :=
  match dict_get k d with
  | None => Some []
  | Some (JArr l) => mapM as_str l
  | Some _ => None
  end.

Definition document (d : Json.dict) : option Document.t :=
  id ← req_str "id" d;
  file_name ← req_str "file_name" d;
  status ← req_str "status" d;
  summary ← opt_str "summary" d;
  keywords ← opt_str "keywords" d;
  created_at ← req_str "created_at" d;
  updated_at ← req_str "updated_at" d;
  file_size ← opt_int "file_size" d;
  visibility ← str_or "visibility" "personal" d;
  content_type ← opt_str "content_type" d;
  Some (Document.mk id file_name status summary keywords created_at updated_at
          file_size visibility content_type).

Definition note (d : Json.dict) : option Note.t :=
  id ← req_str "id" d;
  user_id ← req_str "user_id" d;
  title ← req_str "title" d;
  content ← req_str "content" d;
  status ← req_str "status" d;
  processing_error ← opt_str "processing_error" d;
  created_at ← req_str "created_at" d;
  updated_at ← req_str "updated_at" d;
  tags ← str_list "tags" d;
  visibility ← str_or "visibility" "personal" d;
  Some (Note.mk id user_id title content status processing_error created_at
          updated_at tags visibility).

Definition integration (d : Json.dict) : option Integration.t :=
  id ← req_str "id" d;
  provider ← req_str "provider" d;
  display_name ← req_str "display_name" d;
  account_identifier ← req_str "account_identifier" d;
  is_default ← bool_or "is_default" false d;
  scopes ← str_list "scopes" d;
  created_at ← req_str "created_at" d;
  is_sync_enabled ← bool_or "is_sync_enabled" false d;
  is_retrieval_enabled ← bool_or "is_retrieval_enabled" false d;
  is_syncable ← bool_or "is_syncable" false d;
  sync_status ← req_str "sync_status" d;
  last_synced_at ← opt_str "last_synced_at" d;
  last_sync_error ← opt_str "last_sync_error" d;
  summary ← req_str "summary" d;
  tags ← str_list "tags" d;
  Some (Integration.mk id provider display_name account_identifier is_default scopes
          created_at is_sync_enabled is_retrieval_enabled is_syncable sync_status
          last_synced_at last_sync_error summary tags).

Definition automation (d : Json.dict) : option Automation.t :=
  id ← req_str "id" d;
  user_id ← req_str "user_id" d;
  title ← req_str "title" d;
  description ← req_str "description" d;
  prompt ← req_str "prompt" d;
  type ← req_str "type" d;
  trigger_slug ← opt_str "trigger_slug" d;
  cron_schedule ← opt_str "cron_schedule" d;
  is_enabled ← bool_or "is_enabled" false d;
  last_run_at ← opt_str "last_run_at" d;
  last_run_status ← opt_str "last_run_status" d;
  last_run_message ← opt_str "last_run_message" d;
  created_at ← req_str "created_at" d;
  updated_at ← req_str "updated_at" d;
  Some (Automation.mk id user_id title description prompt type trigger_slug
          cron_schedule is_enabled last_run_at last_run_status last_run_message
          created_at updated_at).

Definition notification (d : Json.dict) : option Notification.t :=
  id ← req_str "id" d;
  title ← req_str "title" d;
  message ← req_str "message" d;
  type ← req_str "type" d;
  read ← bool_or "read" false d;
  datetime ← req_str "datetime" d;
  Some (Notification.mk id title message type read datetime).

Definition document_model : Model Document.t := Build_Model _ "Document" document.
Definition note_model : Model Note.t := Build_Model _ "Note" note.
Definition integration_model : Model Integration.t :=
  Build_Model _ "Integration" integration.
Definition automation_model : Model Automation.t :=
  Build_Model _ "Automation" automation.
Definition notification_model : Model Notification.t :=
  Build_Model _ "Notification" notification.

End Strict.

(** ** More Python string operations

    The [str] methods that the command line of [tui.py] relies on, on the
    code points below 256. *)

Module PyText.

(** [c.lower()]: the capitals of ASCII and of Latin-1 (all of 192..222 but
    the multiplication sign) move up by 32. *)
Definition lower_char (c : ascii) : ascii :=
  let n := N_of_ascii c in
  if ((65 <=? n) && (n <=? 90)
      || (192 <=? n) && (n <=? 222) && negb (n =? 215))%N
  then ascii_of_N (n + 32) else c.

Fixpoint lower (s : string) : string :=
  match s with
  | EmptyString => EmptyString
  | String c s' => String (lower_char c) (lower s')
  end.

(** [c.isdigit()]: the ten digits, and the superscripts two, three and
    one. *)
Definition isdigit_char (c : ascii) : bool :=
  let n := N_of_ascii c in
  ((48 <=? n) && (n <=? 57) || (n =? 178) || (n =? 179) || (n =? 185))%N.

Fixpoint all (p : ascii -> bool) (s : string) : bool :=
  match s with
  | EmptyString => true
  | String c s' => p c && all p s'
  end.

(** [s.isdigit()]: false on the empty string. *)
Definition isdigit (s : string) : bool := PyStr.truthy s && all isdigit_char s.

(** [s.split()] with no argument: the maximal runs of characters that are
    not white space, in order.  [cur] is the run being read. *)
Fixpoint split_from (cur : option string) (s : string) : list string :=
  match s with
  | EmptyString => match cur with Some w => [w] | None => [] end
  | String c s' =>
      if PyStr.isspace c then
        match cur with
        | Some w => w :: split_from None s'
        | None => split_from None s'
        end
      else
        split_from (Some (match cur with
                          | Some w => w +:+ String c EmptyString
                          | None => String c EmptyString
                          end)) s'
  end.

Definition split (s : string) : list string := split_from None s.

(** [sep.join(l)]. *)
Fixpoint join (sep : string) (l : list string) : string :=
  match l with
  | [] => EmptyString
  | [x] => x
  | x :: rest => x +:+ sep +:+ join sep rest
  end.

(** [s.endswith(p)]. *)
Definition endswith (s p : string) : bool :=
  String.prefix (String.rev p) (String.rev s).

End PyText.

(** ** [selflayer/tui.py]: the command line *)

Module CommandLine.

(** [parse_command]: the first word in lower case, and the other words as
    they are. *)
Definition parse_command (raw : string) : string * list string :=
  match PyText.split (PyStr.strip raw) with
  | [] => (EmptyString, [])
  | command :: args => (PyText.lower command, args)
  end.

End CommandLine.

(** ** [selflayer/client.py]: more of the endpoints *)

Module Endpoints.
Import Client.

Section Calls.
Variable P : Platform.
Variable remote : Remote.

(** [tags or []]: no tags and an empty list both give the empty list. *)
Definition create_note (self : SelfLayerAPIClient) (title content : string)
    (tags : option (list string)) : M Process json :=
  let data := [("title", JStr title);
               ("content", JStr content);
               ("tags", JArr (map JStr (match tags with Some l => l | None => [] end)));
               ("visibility", JStr "personal")] in
  post P remote self "notes/" (Some (JObj data)) None.

Definition list_notifications (self : SelfLayerAPIClient) : M Process json :=
  response <- get P remote self "notifications/" None ;;
  list_or_member "notifications" response.

Definition mark_notification_read (self : SelfLayerAPIClient)
    (notification_id : string) : M Process json :=
  post P remote self ("notifications/" +:+ notification_id +:+ "/read") None None.

Definition mark_all_notifications_read (self : SelfLayerAPIClient) : M Process json :=
  post P remote self "notifications/read-all" None None.

Definition list_integrations (self : SelfLayerAPIClient) : M Process json :=
  response <- get P remote self "integrations/connections" None ;;
  list_or_member "connections" response.

Definition disconnect_integration (self : SelfLayerAPIClient)
    (connection_id : string) : M Process json :=
  delete P remote self ("integrations/connections/" +:+ connection_id).

(** Each field is kept when it is given and not empty; with no field
    left nothing is sent. *)
Definition get_persona_briefing (self : SelfLayerAPIClient)
    (email name company title : option string) : M Process json :=
  let data := [] in
  let data := match email with
              | Some v => if PyStr.truthy v then dict_set "email" (JStr v) data else data
              | None => data
              end in
  let data := match name with
              | Some v => if PyStr.truthy v then dict_set "name" (JStr v) data else data
              | None => data
              end in
  let data := match company with
              | Some v => if PyStr.truthy v then dict_set "company" (JStr v) data else data
              | None => data
              end in
  let data := match title with
              | Some v => if PyStr.truthy v then dict_set "title" (JStr v) data else data
              | None => data
              end in
  match data with
  | [] => raise (ValueError
                   "At least one of email, name, company, or title must be provided")
  | _ :: _ => post P remote self "agent/persona" (Some (JObj data)) None
  end.

End Calls.

End Endpoints.

(** ** [selflayer/tui.py]: the commands and the loop

    The handlers that need the file system, the stored configuration, the
    profile or the live display ([_upload_document], [cmd_key],
    [cmd_ask], [cmd_search], [cmd_clear], [_connect_integration]) and the
    panels of [renderers.py] are parameters.  [cmd_automations] is called
    by the dispatcher and is not defined by the class. *)

Module Commands.
Import Models Client Renderers Tui Endpoints CommandLine.

Section Handlers.
Variable P : Platform.
Variable remote : Remote.
Variable answer : string -> bool.
Context `{MD : Model Document.t, MN : Model Note.t, MF : Model Notification.t,
          MI : Model Integration.t}.
(** The record [PersonaAgentResponse] and its panel. *)
Context {Persona : Type} `{MP : Model Persona}.
Variable render_persona_briefing : Persona -> string -> Panel.
Variable render_notifications_list : list Notification.t -> Panel.
Variable render_integrations_list : list Integration.t -> Panel.
Variable render_help : Panel.
Variable _upload_document : string -> M SelfLayerCLI unit.
Variable _connect_integration : string -> M SelfLayerCLI unit.
Variable cmd_key : list string -> M SelfLayerCLI unit.
Variable cmd_ask : list string -> M SelfLayerCLI unit.
Variable cmd_search : list string -> M SelfLayerCLI unit.
Variable cmd_clear : M SelfLayerCLI unit.

Definition nl : string := String (ascii_of_N 10) EmptyString.

(** [int(s)] where the [ValueError] is not caught. *)
Definition int_or_raise {S} (s : string) : M S Z :=
  match PyStr.int s with
  | Some i => ret i
  | None => raise (ValueError ("invalid literal for int() with base 10: '" +:+ s +:+ "'"))
  end.

Definition cmd_documents (args : list string) : M SelfLayerCLI unit :=
  match args with
  | [] => _list_documents P remote
  | first :: _ =>
      let n := Z.of_nat (length args) in
      if String.eqb first "new" && (1 <? n) then
        _upload_document (List.nth 1 args EmptyString)
      else if String.eqb first "delete" && (1 <? n) then
        _delete_document P remote answer (List.nth 1 args EmptyString)
      else if PyText.isdigit first then
        index <- int_or_raise first ;;
        _view_document index
      else
        say (PPanel (render_error_panel
          "Usage: /d, /d new /path/to/file, /d 1, /d delete 1" "Invalid Arguments"))
  end.

Definition _create_note (title content : string) : M SelfLayerCLI unit :=
  let title := PyStr.strip_set quotes title in
  let content := PyStr.strip_set quotes content in
  if negb (PyStr.truthy title) || negb (PyStr.truthy content) then
    say (PPanel (render_error_panel "Both title and content are required"
                   "Invalid Input"))
  else
    try_except
      (on_client "create_note" (fun c => create_note P remote c title content None) ;;;
       say (PPanel (render_success_panel
         ("Note '" +:+ title +:+ "' created successfully.") "Note Created")) ;;;
       _list_notes P remote)
      (fun e => say (error_panel P e "Create Error")).

Definition cmd_notes (args : list string) : M SelfLayerCLI unit :=
  match args with
  | [] => _list_notes P remote
  | first :: _ =>
      let n := Z.of_nat (length args) in
      if String.eqb first "new" && (3 <=? n) then
        _create_note (List.nth 1 args EmptyString) (PyText.join " " (drop 2 args))
      else if String.eqb first "edit" && (3 <=? n) then
        _edit_note P remote (List.nth 1 args EmptyString) (PyText.join " " (drop 2 args))
      else if String.eqb first "delete" && (1 <? n) then
        _delete_note P remote answer (List.nth 1 args EmptyString)
      else if PyText.isdigit first then
        index <- int_or_raise first ;;
        _view_note index
      else
        say (PPanel (render_error_panel
          (PyStr.qq "Usage: /n, /n new 'Title' 'Content', /n 1, /n edit 1 'Content', /n delete 1")
          "Invalid Arguments"))
  end.

Definition _list_integrations : M SelfLayerCLI unit :=
  try_except
    (integrations_data <- on_client "list_integrations" (list_integrations P remote) ;;
     in_state (update_integrations integrations_data) ;;;
     self <- get_self ;;
     say (PPanel (render_integrations_list (integrations (app_state self)))))
    (fun e => say (error_panel P e "Integrations Error")) ;;;
  say PBlank.

Definition _disconnect_integration (index_str : string) : M SelfLayerCLI unit :=
  match PyStr.int index_str with
  | None =>
      say (PPanel (render_error_panel
        ("Invalid integration number: " +:+ index_str) "Invalid Input"))
  | Some index =>
      self <- get_self ;;
      match get_integration_by_index (app_state self) index with
      | None =>
          say (PPanel (render_error_panel
            ("Integration #" +:+ pretty index
             +:+ " not found. Use /i to list integrations.")
            "Integration Not Found"))
      | Some integration =>
          ok <- confirm answer
                  ("Disconnect " +:+ Integration.provider integration +:+ " ("
                   +:+ Integration.account_identifier integration +:+ ")?") ;;
          if negb ok then say (PText "[yellow]Disconnection cancelled.[/yellow]")
          else
            try_except
              (on_client "disconnect_integration"
                 (fun c => disconnect_integration P remote c (Integration.id integration)) ;;;
               say (PPanel (render_success_panel
                 (Integration.provider integration +:+ " disconnected successfully.")
                 "Disconnected")) ;;;
               _list_integrations)
              (fun e => say (error_panel P e "Disconnect Error"))
      end
  end.

Definition cmd_integrations (args : list string) : M SelfLayerCLI unit :=
  match args with
  | [] => _list_integrations
  | first :: _ =>
      let n := Z.of_nat (length args) in
      if String.eqb first "connect" && (1 <? n) then
        _connect_integration (List.nth 1 args EmptyString)
      else if String.eqb first "disconnect" && (1 <? n) then
        _disconnect_integration (List.nth 1 args EmptyString)
      else
        say (PPanel (render_error_panel
          "Usage: /i, /i connect gmail, /i disconnect 1" "Invalid Arguments"))
  end.

Definition _list_notifications : M SelfLayerCLI unit :=
  try_except
    (notifications_data <- on_client "list_notifications" (list_notifications P remote) ;;
     in_state (update_notifications notifications_data) ;;;
     self <- get_self ;;
     say (PPanel (render_notifications_list (notifications (app_state self)))))
    (fun e => say (error_panel P e "Notifications Error")) ;;;
  say PBlank.

Definition _mark_notification_read (index_str : string) : M SelfLayerCLI unit :=
  match PyStr.int index_str with
  | None =>
      say (PPanel (render_error_panel
        ("Invalid notification number: " +:+ index_str) "Invalid Input"))
  | Some index =>
      self <- get_self ;;
      match get_notification_by_index (app_state self) index with
      | None =>
          say (PPanel (render_error_panel
            ("Notification #" +:+ pretty index +:+ " not found.")
            "Notification Not Found"))
      | Some notification =>
          try_except
            (on_client "mark_notification_read"
               (fun c => mark_notification_read P remote c (Notification.id notification)) ;;;
             say (PPanel (render_success_panel "Notification marked as read." "Updated")) ;;;
             _list_notifications)
            (fun e => say (error_panel P e "Update Error"))
      end
  end.

Definition _mark_all_notifications_read : M SelfLayerCLI unit :=
  try_except
    (on_client "mark_all_notifications_read" (mark_all_notifications_read P remote) ;;;
     say (PPanel (render_success_panel "All notifications marked as read."
                    "All Updated")) ;;;
     _list_notifications)
    (fun e => say (error_panel P e "Update Error")).

Definition cmd_notifications (args : list string) : M SelfLayerCLI unit :=
  match args with
  | [] => _list_notifications
  | first :: _ =>
      let n := Z.of_nat (length args) in
      if String.eqb first "read" && (1 <? n) then
        _mark_notification_read (List.nth 1 args EmptyString)
      else if String.eqb first "clear" then _mark_all_notifications_read
      else
        say (PPanel (render_error_panel
          "Usage: /notifications, /notifications read 1, /notifications clear"
          "Invalid Arguments"))
  end.

Definition rms_usage : string :=
  "Usage: /rms <email|name|company>" +:+ nl +:+ nl +:+
  "Examples:" +:+ nl +:+
  "  /rms anton96vice@gmail.com" +:+ nl +:+
  "  /rms Anton Alice Vice" +:+ nl +:+
  PyStr.qq "  /rms 'SelfLayer'" +:+ nl +:+ nl +:+
  "Provide at least an email, name, or company to get a relationship summary.".

Definition cmd_rms (args : list string) : M SelfLayerCLI unit :=
  match args with
  | [] =>
      say (PPanel (render_error_panel rms_usage "RMS Usage")) ;;;
      say PBlank
  | _ :: _ =>
      let query := PyText.join " " args in
      let quote := String PyStr.dquote EmptyString in
      let '(email, name, company) :=
        if PyStr.contains "@" query then (Some query, None, None)
        else if PyStr.startswith query quote && PyText.endswith query quote then
          (None, None, Some (PyStr.strip_set [PyStr.dquote] query))
        else (None, Some query, None) in
      try_except
        (persona_data <- on_client "get_persona_briefing"
                           (fun c => get_persona_briefing P remote c email name company None) ;;
         persona_response <- construct (A:=Persona) persona_data ;;
         say (PPanel (render_persona_briefing persona_response query)))
        (fun e => say (error_panel P e "RMS Error")) ;;;
      say PBlank
  end.

Definition cmd_help : M SelfLayerCLI unit :=
  say (PPanel render_help) ;;;
  say PBlank.

(** Closing the client changes nothing that is modelled. *)
Definition cmd_quit : M SelfLayerCLI unit :=
  say (PText "[yellow]👋 Thanks for using SelfLayer![/yellow]") ;;;
  self <- get_self ;;
  put_self (mkCLI (app_state self) (client self) false (process self)).

(** The handler behind each routed call. *)
Definition handle (c : call) : M SelfLayerCLI unit :=
  match c with
  | Tui.cmd_help => cmd_help
  | Tui.cmd_key args => cmd_key args
  | Tui.cmd_ask args => cmd_ask args
  | Tui.cmd_search args => cmd_search args
  | Tui.cmd_documents args => cmd_documents args
  | Tui.cmd_notes args => cmd_notes args
  | Tui.cmd_integrations args => cmd_integrations args
  | Tui.cmd_automations args => raise (AttributeError "SelfLayerCLI" "cmd_automations")
  | Tui.cmd_notifications args => cmd_notifications args
  | Tui.cmd_rms args => cmd_rms args
  | Tui.cmd_clear => cmd_clear
  | Tui.cmd_quit => cmd_quit
  end.

(** [_execute_command], run. *)
Definition execute (command : string) (args : list string) : M SelfLayerCLI unit :=
  self <- get_self ;;
  match _execute_command self command args with
  | Printed p => say (PPanel p)
  | Awaits c => handle c
  end.

(** One turn of the loop of [run] on the line the prompt returned. *)
Definition turn (command_input : string) : M SelfLayerCLI unit :=
  try_except
    (if negb (PyStr.truthy (PyStr.strip command_input)) then ret tt
     else
       let '(command, args) := parse_command command_input in
       execute command args)
    (fun e =>
       (fun self => (Return tt,
                     with_process (log_warning "Unexpected error in command loop") self)) ;;;
       say (PPanel (render_error_panel ("Unexpected error: " +:+ str_exn P e) "Error"))).

(** The loop of [run] on the lines the prompt returns, one after the
    other, until the running flag is down or the lines are used up. *)
Fixpoint command_loop (inputs : list string) : M SelfLayerCLI unit :=
  match inputs with
  | [] => ret tt
  | command_input :: rest =>
      self <- get_self ;;
      if running self then turn command_input ;;; command_loop rest
      else ret tt
  end.

End Handlers.

End Commands.

(** ** [selflayer/client.py] and [selflayer/tui.py]: starting up *)

Module Startup.
Import Models Tui.

Definition DEFAULT_BASE_URL : string := "http://localhost:8001/api/v1".

Definition key_required : exn :=
  APIError ("SelfLayer API key required. Use /key command to set it, "
            +:+ "or set SELFLAYER_API_KEY environment variable.").

(** [SelfLayerAPIClient(api_key, base_url)]: the key given, when it is not
    empty, else the effective key of the configuration. *)
Definition new_client (now : string) (api_key : option string) (base_url : string)
  : M Config.World Client.SelfLayerAPIClient :=
  key <- match api_key with
         | Some k =>
             if PyStr.truthy k then ret (Some k) else Config.get_effective_api_key now
         | None => Config.get_effective_api_key now
         end ;;
  match key with
  | Some k =>
      if PyStr.truthy k then ret (Client.mkClient k (PyStr.rstrip_char "/" base_url))
      else raise key_required
  | None => raise key_required
  end.

(** The program: the configuration manager with its world, the global
    client of [client.py] and the interface. *)
Record Program : Type := mkProgram {
  manager : Config.World;
  _api_client : option Client.SelfLayerAPIClient;
  cli : SelfLayerCLI
}.

Definition in_manager {A} (m : M Config.World A) : M Program A :=
  fun p =>
    let '(r, w) := m (manager p) in
    (r, mkProgram w (_api_client p) (cli p)).

Definition in_cli {A} (m : M SelfLayerCLI A) : M Program A :=
  fun p =>
    let '(r, self) := m (cli p) in
    (r, mkProgram (manager p) (_api_client p) self).

(** [get_api_client]: the global client, made on first use. *)
Definition get_api_client (now : string) : M Program Client.SelfLayerAPIClient :=
  p <- get_self ;;
  match _api_client p with
  | Some c => ret c
  | None =>
      c <- in_manager (new_client now None DEFAULT_BASE_URL) ;;
      p <- get_self ;;
      put_self (mkProgram (manager p) (Some c) (cli p)) ;;;
      ret c
  end.

Definition set_client (c : option Client.SelfLayerAPIClient) : M SelfLayerCLI unit :=
  self <- get_self ;;
  put_self (mkCLI (app_state self) c (running self) (process self)).

(** [_initialize_client]: the effective key is read at [now], and the
    client made at [later].  Only an [APIError] is caught. *)
Definition _initialize_client (now later : string) : M Program unit :=
  try_except
    (api_key <- in_manager (Config.get_effective_api_key now) ;;
     match api_key with
     | Some k =>
         if PyStr.truthy k then
           c <- get_api_client later ;;
           in_cli (set_client (Some c))
         else in_cli (set_client None)
     | None => in_cli (set_client None)
     end)
    (fun e =>
       match e with
       | APIError msg =>
           in_cli (fun self =>
                     (Return tt,
                      with_process
                        (log_warning ("Failed to initialize API client: " +:+ msg))
                        self)) ;;;
           in_cli (set_client None)
       | _ => raise e
       end).

End Startup.

(** ** [selflayer/models.py]: what a note shows *)

Module NoteDisplay.

(** [Note.get_preview]. *)
Definition get_preview (self : Note.t) (max_length : Z) : string :=
  if PyStr.len (Note.content self) <=? max_length then Note.content self
  else PyStr.slice_to (max_length - 3) (Note.content self) +:+ "...".

End NoteDisplay.

(** * Statements

    The vocabulary of the theorems, and the sample data they are run on. *)

Section Statements.
Import Config Models Client Tui Renderers.
#[local] Existing Instances Strict.document_model Strict.note_model.

(** A world whose file holds a key, with nothing loaded yet. *)
Definition sample_world : World :=
  mkWorld None
    (mkDisk (Holds (JObj [("api_key", JStr "sl_live_stored_key")])) 384 true)
    ∅.

(** The sample world with both variables set. *)
Definition sample_env_world : World :=
  mkWorld (_config sample_world) (storage sample_world)
    (<["SELFLAYER_API_KEY" := " sl_live_from_env "]>
       (<["SELFLAYER_BASE_URL" := "http://localhost:9000/api/v1 "]> ∅)).

(** What it means for an index and a cache to have been rebuilt from the
    [items] of a response. *)
Definition index_rebuilt_from {A} `{Model A} (id_of : A -> string)
    (items : list json) (cache : list A) (index : gmap Z string) : Prop :=
  length cache = length items
  /\ size index = length items
  /\ (forall k, is_Some (index !! k) <-> 1 <= k <= Z.of_nat (length items))
  /\ (forall (i : nat) doc, items !! i = Some doc ->
        exists a, (forall (T : Type) (t : T), construct doc t = (Return a, t))
                  /\ cache !! i = Some a
                  /\ index !! (Z.of_nat i + 1) = Some (id_of a)).

(** Every item is a dict that the validator of [A] accepts. *)
Definition accepted (A : Type) `{Model A} (items : list json) : Prop :=
  Forall (fun doc => exists kwargs,
            doc = JObj kwargs /\ is_Some (model_validate (A:=A) kwargs)) items.

(** [update], given the [items] of a response in state [st], returns when
    the items are accepted, and whenever it returns it leaves the cache and
    the index rebuilt from them. *)
Definition refreshes {A} `{Model A} (update : json -> M AppState unit)
    (id_of : A -> string) (cache : AppState -> list A)
    (index : AppState -> gmap Z string) (items : list json) (st : AppState) : Prop :=
  (accepted A items -> exists st', update (JArr items) st = (Return tt, st'))
  /\ (forall st', update (JArr items) st = (Return tt, st') ->
        index_rebuilt_from id_of items (cache st') (index st')).

(** Sample listings, one of each kind. *)
Definition sample_documents : list json :=
  [JObj [("id", JStr "doc-a"); ("file_name", JStr "Plan_Q3.pdf");
         ("status", JStr "FULLY_PROCESSED"); ("created_at", JStr "2024-01-01");
         ("updated_at", JStr "2024-01-02")];
   JObj [("id", JStr "doc-b"); ("file_name", JStr "Notes.txt");
         ("status", JStr "PROCESSING"); ("created_at", JStr "2024-02-01");
         ("updated_at", JStr "2024-02-02"); ("file_size", JInt 12)]].

Definition sample_notes : list json :=
  [JObj [("id", JStr "note-a"); ("user_id", JStr "u1"); ("title", JStr "First");
         ("content", JStr "hello"); ("status", JStr "DONE");
         ("created_at", JStr "2024-01-01"); ("updated_at", JStr "2024-01-02")];
   JObj [("id", JStr "note-b"); ("user_id", JStr "u1"); ("title", JStr "Second");
         ("content", JStr "world"); ("status", JStr "DONE");
         ("created_at", JStr "2024-01-03"); ("updated_at", JStr "2024-01-04");
         ("tags", JArr [JStr "x"])]].

Definition sample_notifications : list json :=
  [JObj [("id", JStr "n1"); ("title", JStr "Done"); ("message", JStr "ok");
         ("type", JStr "info"); ("datetime", JStr "2024-01-01")]].

Definition sample_integrations : list json :=
  [JObj [("id", JStr "i1"); ("provider", JStr "GMAIL"); ("display_name", JStr "Mail");
         ("account_identifier", JStr "a@b.c"); ("created_at", JStr "2024-01-01");
         ("sync_status", JStr "SUCCESS"); ("summary", JStr "fine")]].

Definition sample_automations : list json :=
  [JObj [("id", JStr "a1"); ("user_id", JStr "u1"); ("title", JStr "Daily");
         ("description", JStr "d"); ("prompt", JStr "p"); ("type", JStr "manual");
         ("created_at", JStr "2024-01-01"); ("updated_at", JStr "2024-01-02")]].

(** A state that already holds an index, to be replaced. *)
Definition stale_state : AppState :=
  mkAppState false EmptyString [] [] [] [] [] EmptyString
    (<[7 := "old"]> ∅) (<[7 := "old"]> ∅) (<[7 := "old"]> ∅) (<[7 := "old"]> ∅)
    (<[7 := "old"]> ∅).

Definition credential_required : Panel :=
  render_error_panel
    "SelfLayer API key required. Use /key to set it or set SELFLAYER_API_KEY environment variable."
    "API Error".

Definition without_client (self : SelfLayerCLI) : SelfLayerCLI :=
  mkCLI (app_state self) None (running self) (process self).

(** The three lines of the example, and the two objects they carry. *)
Definition line_a : string := PyStr.qq "data: {'content':'a'}".
Definition line_b : string := PyStr.qq "data: {'content':'b'}".
Definition line_done : string := "data: [DONE]".
Definition object_a : json := JObj [("content", JStr "a")].
Definition object_b : json := JObj [("content", JStr "b")].

(** The payload of a line, once an optional ["data: "] prefix is off. *)
Definition payload (line : string) : string :=
  if PyStr.startswith line "data: " then PyStr.slice_from 6 line else line.

(** The sentinel: a ["data: "] line whose payload, stripped, is [[DONE]]. *)
Definition is_sentinel (line : string) : bool :=
  PyStr.startswith line "data: "
  && String.eqb (PyStr.strip (PyStr.slice_from 6 line)) "[DONE]".

Definition sample_client : Client.SelfLayerAPIClient :=
  Client.mkClient "sl_test_key" "http://localhost:8001/api/v1".

Definition idle : Process := mkProcess [] [] [].

(** A service that gives the same reply to every request. *)
Definition answering (r : reply) : Remote :=
  mkRemote (fun _ _ => r) (fun _ _ => ConnectTimesOut).

(** A service that opens the same stream for every request. *)
Definition streaming (r : stream_reply) : Remote :=
  mkRemote (fun _ _ => TimesOut) (fun _ _ => r).

(** The five request methods, as calls. *)
Inductive request_call : Type :=
| Get (endpoint : string) (params : option json)
| Post (endpoint : string) (json_data : option json) (files : option string)
| Put (endpoint : string) (json_data : option json)
| Patch (endpoint : string) (json_data : option json)
| Delete (endpoint : string).

Definition endpoint_of (c : request_call) : string :=
  match c with
  | Get e _ | Post e _ _ | Put e _ | Patch e _ | Delete e => e
  end.

Definition is_delete (c : request_call) : bool :=
  match c with Delete _ => true | _ => false end.

(** The request each of them sends. *)
Definition request_of (self : Client.SelfLayerAPIClient) (c : request_call) : Request :=
  let url := Client.endpoint_url self (endpoint_of c) in
  let h := Client.client_headers self in
  match c with
  | Get _ params => mkRequest "GET" url params None None h None
  | Post _ json_data (Some f) =>
      mkRequest "POST" url None json_data (Some f) h
        (Some [("Authorization", "Bearer " +:+ Client.api_key self);
               ("User-Agent", "SelfTUI/2.0.0 (SelfLayer Terminal Client)")])
  | Post _ json_data None => mkRequest "POST" url None json_data None h None
  | Put _ json_data => mkRequest "PUT" url None json_data None h None
  | Patch _ json_data => mkRequest "PATCH" url None json_data None h None
  | Delete _ => mkRequest "DELETE" url None None None h None
  end.

(** The request [stream] sends. *)
Definition stream_request (self : Client.SelfLayerAPIClient) (endpoint : string)
    (json_data : Json.dict) : Request :=
  mkRequest "POST" (Client.endpoint_url self endpoint) None
    (Some (JObj (dict_set "stream" (JBool true) json_data))) None
    (Client.client_headers self) None.

(** The process once a request has gone out, and once something more has
    been printed. *)
Definition after_send (req : Request) (w : Process) : Process :=
  mkProcess (sent w ++ [req]) (screen w) (warnings w).

Definition shows (x : printed) (w : Process) : Process :=
  mkProcess (sent w) (screen w ++ [x]) (warnings w).

(** A call run on a platform against a service. *)
Definition run (P : Platform) (remote : Remote) (self : SelfLayerAPIClient)
    (c : request_call) : M Process json :=
  match c with
  | Get e params => get P remote self e params
  | Post e json_data files => post P remote self e json_data files
  | Put e json_data => put P remote self e json_data
  | Patch e json_data => patch P remote self e json_data
  | Delete e => delete P remote self e
  end.

Definition not_found_body : string := PyStr.qq "{'detail': 'Document not found'}".

Definition deleted_body : string := PyStr.qq "{'deleted': true}".

(** Run from [s], the computation adds requests after those already sent. *)
Definition appends_at {S A} (proj : S -> list Request) (m : M S A) (s : S) : Prop :=
  exists tail, proj (snd (m s)) = proj s ++ tail.

Definition appends {S A} (proj : S -> list Request) (m : M S A) : Prop :=
  forall s, appends_at proj m s.

(** Run from [s], the first request it adds is [req]. *)
Definition starts_at {S A} (proj : S -> list Request) (req : Request) (m : M S A)
    (s : S) : Prop :=
  exists tail, proj (snd (m s)) = proj s ++ req :: tail.

(** The interface once something more is on the terminal. *)
Definition printing (x : printed) (self : Tui.SelfLayerCLI) : Tui.SelfLayerCLI :=
  Tui.with_process (shows x) self.

(** The requests the interface has sent. *)
Definition requests (self : Tui.SelfLayerCLI) : list Request :=
  sent (Tui.process self).

(** The panel of a failed lookup. *)
Definition not_found (kind : string) (index : Z) (hint : string) : printed :=
  PPanel (Renderers.render_error_panel
            (kind +:+ " #" +:+ pretty index +:+ " not found. " +:+ hint)
            (kind +:+ " Not Found")).

(** The body [update_note] sends for new content alone. *)
Definition content_body (new_content : string) : json :=
  let c := PyStr.strip_set quotes new_content in
  JObj (if PyStr.truthy c then [("content", JStr c)] else []).

(** A user who confirms whatever is asked. *)
Definition always_yes (q : string) : bool := true.

(** The interface right after listing the sample documents, and right
    after listing the sample notes. *)
Definition documents_listed : SelfLayerCLI :=
  mkCLI (snd (update_documents (JArr sample_documents) stale_state))
        (Some sample_client) true idle.

Definition notes_listed : SelfLayerCLI :=
  mkCLI (snd (update_notes (JArr sample_notes) stale_state))
        (Some sample_client) true idle.

(** A service that answers a [DELETE] with 204 and anything else with an
    empty list. *)
Definition no_content : Remote :=
  mkRemote (fun _ req => if String.eqb (method req) "DELETE"
                         then Responds 204 EmptyString
                         else Responds 200 "[]")
           (fun _ _ => ConnectTimesOut).

(** A listing whose only document has the empty identifier. *)
Definition nameless_documents : list json :=
  [JObj [("id", JStr EmptyString); ("file_name", JStr "Untitled.txt");
         ("status", JStr "PENDING"); ("created_at", JStr "2024-03-01");
         ("updated_at", JStr "2024-03-01")]].

End Statements.

(** * Further statements

    Vocabulary and sample data of the properties proved beyond the
    contract above. *)

Section ConfigStatements.
Import Config.

(** A new manager over the same file and environment: what the next run of
    the program starts from. *)
Definition restarted (w : World) : World := with_config None w.

(** The format test of [set_api_key]. *)
Definition key_accepted (key : string) : bool :=
  PyStr.startswith (PyStr.strip key) "sl_live_"
  || PyStr.startswith (PyStr.strip key) "sl_test_".

(** The file after a successful save of [c]. *)
Definition saved (c : SelfLayerConfig) : disk :=
  mkDisk (Holds (model_dump c)) 384 true.

(** A world with a configuration in memory, a writable file that holds an
    older key, and nothing in the environment. *)
Definition loaded_world : World :=
  mkWorld (Some (mkConfig (Some "sl_live_old_key") "https://api.selflayer.com/api/v1"
                   "DEBUG" (Some "2023-12-31T00:00:00") None))
          (mkDisk (Holds (JObj [("api_key", JStr "sl_live_old_key")])) 384 true)
          ∅.

(** The same with a file that cannot be written. *)
Definition read_only_world : World :=
  mkWorld (_config loaded_world)
          (mkDisk (Holds (JObj [("api_key", JStr "sl_live_old_key")])) 384 false)
          ∅.

End ConfigStatements.

(** [lstrip] on the list of characters. *)
Fixpoint lskip (l : list ascii) : list ascii :=
  match l with
  | c :: l' => if PyStr.isspace c then lskip l' else l
  | [] => []
  end.

Section ConfigStatements2.
Import Config.

(** The fields of the file other than the key are absent or of their
    declared type. *)
Definition other_fields_typed (d : Json.dict) : Prop :=
  is_Some (str_field "base_url" "https://api.selflayer.com/api/v1" d)
  /\ is_Some (str_field "log_level" "INFO" d)
  /\ is_Some (opt_str_field "created_at" d)
  /\ is_Some (opt_str_field "updated_at" d).

(** A world whose file is in the legacy format, with nothing loaded. *)
Definition legacy_world : World :=
  mkWorld None
    (mkDisk (Holds (JObj [("gemini_api_key", JStr "sl_live_legacy");
                          ("log_level", JStr "DEBUG")])) 384 true)
    ∅.

(** A world whose file holds a key and a base URL of the wrong type. *)
Definition damaged_world : World :=
  mkWorld None
    (mkDisk (Holds (JObj [("api_key", JStr "sl_live_stored_key");
                          ("base_url", JInt 8001)])) 384 true)
    ∅.

End ConfigStatements2.

Section ModelStatements.
Import Models.

(** [update] is all or nothing and local: when it raises, the state is what
    it was; a listing with an item the model does not accept raises; and
    when it returns, only its own cache and index (read by [cache] and
    [index], written by [set]) can differ from before. *)
Definition all_or_nothing {A} `{Model A} (update : json -> M AppState unit)
    (cache : AppState -> list A) (index : AppState -> gmap Z string)
    (set : list A -> gmap Z string -> AppState -> AppState) : Prop :=
  (forall data st e st', update data st = (Raise e, st') -> st' = st)
  /\ (forall items st, ~ accepted A items ->
        exists e, update (JArr items) st = (Raise e, st))
  /\ (forall data st st', update data st = (Return tt, st') ->
        st' = set (cache st') (index st') st).

(** The five indexes are the ones built from the five caches. *)
Definition consistent (st : AppState) : Prop :=
  document_index st = index_of Document.id (documents st)
  /\ note_index st = index_of Note.id (notes st)
  /\ notification_index st = index_of Notification.id (notifications st)
  /\ integration_index st = index_of Integration.id (integrations st)
  /\ automation_index st = index_of Automation.id (automations st).

(** The operations on the state. *)
Inductive state_op : Type :=
| UpdateDocuments (data : json)
| UpdateNotes (data : json)
| UpdateNotifications (data : json)
| UpdateIntegrations (data : json)
| UpdateAutomations (data : json)
| ClearAllData
| SetError (error : string).

Definition apply_op `{Model Document.t, Model Note.t, Model Notification.t,
                      Model Integration.t, Model Automation.t}
    (op : state_op) : M AppState unit :=
  match op with
  | UpdateDocuments data => update_documents data
  | UpdateNotes data => update_notes data
  | UpdateNotifications data => update_notifications data
  | UpdateIntegrations data => update_integrations data
  | UpdateAutomations data => update_automations data
  | ClearAllData => clear_all_data
  | SetError error => set_error error
  end.

(** The state after a sequence of operations, each run whether or not the
    one before it raised (its caller catches the exception). *)
Fixpoint after_ops `{Model Document.t, Model Note.t, Model Notification.t,
                     Model Integration.t, Model Automation.t}
    (ops : list state_op) (st : AppState) : AppState :=
  match ops with
  | [] => st
  | op :: rest => after_ops rest (snd (apply_op op st))
  end.

(** A document listing whose second item lacks its required fields. *)
Definition broken_documents : list json :=
  [JObj [("id", JStr "doc-c"); ("file_name", JStr "Fine.txt");
         ("status", JStr "PENDING"); ("created_at", JStr "2024-04-01");
         ("updated_at", JStr "2024-04-01")];
   JObj [("id", JStr "doc-d")]].

(** A note listing in which two notes bear the same identifier. *)
Definition twin_notes : list json :=
  [JObj [("id", JStr "twin"); ("user_id", JStr "u1"); ("title", JStr "Older");
         ("content", JStr "first"); ("status", JStr "DONE");
         ("created_at", JStr "2024-01-01"); ("updated_at", JStr "2024-01-02")];
   JObj [("id", JStr "twin"); ("user_id", JStr "u1"); ("title", JStr "Newer");
         ("content", JStr "second"); ("status", JStr "DONE");
         ("created_at", JStr "2024-01-03"); ("updated_at", JStr "2024-01-04")]].

End ModelStatements.

Section LookupStatements.
Import Models.

(** A by-index lookup that answers, answers with an item of the cache that
    bears the (non-empty) identifier of the item listed at that number. *)
Definition sound_lookup {A} (id_of : A -> string) (cache : AppState -> list A)
    (lookup : AppState -> Z -> option A) (st : AppState) : Prop :=
  forall k d, lookup st k = Some d ->
    1 <= k <= Z.of_nat (length (cache st))
    /\ In d (cache st)
    /\ id_of d <> EmptyString
    /\ exists a, cache st !! Z.to_nat (k - 1) = Some a /\ id_of a = id_of d.

(** The number under which an item with an identifier is listed resolves to
    the first item of the cache that bears its identifier: to the item
    itself when the identifiers of the cache are distinct. *)
Definition exact_lookup {A} (id_of : A -> string) (cache : AppState -> list A)
    (lookup : AppState -> Z -> option A) (st : AppState) : Prop :=
  forall (i : nat) a, cache st !! i = Some a -> id_of a <> EmptyString ->
    (exists (j : nat) d,
        (j <= i)%nat /\ cache st !! j = Some d /\ id_of d = id_of a
        /\ lookup st (Z.of_nat i + 1) = Some d
        /\ forall (j' : nat) x, (j' < j)%nat -> cache st !! j' = Some x ->
             id_of x <> id_of a)
    /\ (NoDup (map id_of (cache st)) -> lookup st (Z.of_nat i + 1) = Some a).

End LookupStatements.

Section StreamStatements.
Variable P : Platform.

(** The lines the loop of [stream] looks at: those that are not blank, up
    to the sentinel. *)
Fixpoint seen (lines : list string) : list string :=
  match lines with
  | [] => []
  | line :: rest =>
      if negb (PyStr.truthy (PyStr.strip line)) then seen rest
      else if is_sentinel line then []
      else line :: seen rest
  end.

(** What a line is read to, and whether it cannot be read. *)
Definition parsed (line : string) : option json := json_loads P (payload line).

Definition unparsable (line : string) : bool :=
  match parsed line with Some _ => false | None => true end.

Definition reaches_sentinel (lines : list string) : bool :=
  existsb is_sentinel lines.

(** The process once the warnings for [lines] are logged. *)
Definition warned (lines : list string) (w : Process) : Process :=
  mkProcess (sent w) (screen w)
    (warnings w ++ map (fun line => "Failed to parse JSON: " +:+ line)
                       (List.filter unparsable (seen lines))).

(** How the iteration finishes when the lines run out before a sentinel. *)
Definition ending_outcome (endpoint : string) (ending : stream_end) : outcome unit :=
  match ending with
  | Exhausted => Return tt
  | ReadTimesOut => Raise (APIError ("Stream timeout for " +:+ endpoint))
  | ReadFails e => Raise (APIError ("Stream error for " +:+ endpoint +:+ ": " +:+ e))
  end.

End StreamStatements.

Section CommandLineStatements.

(** A text of white space only, and a word: a text that is not empty and
    holds no white space. *)
Definition is_blank (s : string) : bool := PyText.all PyStr.isspace s.

Definition is_word (s : string) : bool :=
  PyStr.truthy s && PyText.all (fun c => negb (PyStr.isspace c)) s.

(** A line written as words, each followed by its separator. *)
Fixpoint spaced (l : list (string * string)) : string :=
  match l with
  | [] => EmptyString
  | (w, sep) :: rest => w +:+ sep +:+ spaced rest
  end.

(** Each word of the line is a word, and each separator is white space and
    not empty. *)
Definition well_spaced (l : list (string * string)) : bool :=
  forallb (fun p => is_word (fst p) && is_blank (snd p) && PyStr.truthy (snd p)) l.

End CommandLineStatements.

Section CommandStatements.
Import Models Client Tui Renderers.
Variable P : Platform.

(** What a command has put on the terminal. *)
Definition shown_since (self self' : SelfLayerCLI) (added : list printed) : Prop :=
  screen (process self') = screen (process self) ++ added.

(** A listing command returns, keeps the client and the running flag, and
    either replaces the cache and its index and shows the new list, or
    leaves the state as it was and ends with an error panel. *)
Definition refreshes_or_reports {A} (list_cmd : M SelfLayerCLI unit)
    (set : list A -> gmap Z string -> AppState -> AppState) (id_of : A -> string)
    (shows_list : list A -> printed) (title : string) (self : SelfLayerCLI) : Prop :=
  let self' := snd (list_cmd self) in
  fst (list_cmd self) = Return tt
  /\ client self' = client self /\ running self' = running self
  /\ ((exists l, app_state self' = set l (index_of id_of l) (app_state self)
                 /\ shown_since self self' [shows_list l; PBlank])
      \/ (exists e before,
             app_state self' = app_state self
             /\ shown_since self self' (before ++ [error_panel P e title; PBlank]))).

(** A command that returns, sends nothing and leaves the state, the client
    and the running flag as they were. *)
Definition harmless (cmd : M SelfLayerCLI unit) (self : SelfLayerCLI) : Prop :=
  fst (cmd self) = Return tt
  /\ requests (snd (cmd self)) = requests self
  /\ app_state (snd (cmd self)) = app_state self
  /\ client (snd (cmd self)) = client self
  /\ running (snd (cmd self)) = running self.

(** A user who declines whatever is asked. *)
Definition always_no (q : string) : bool := false.

(** A confirmed deletion, from the interface [before] it to the [result] of
    the command: [gone] is the request that deletes, [relist] the one that
    lists again, [outcome] what the gateway made of the deletion.  When
    the deletion returned, exactly these two requests went out; when it
    raised, only the first, the state is as before and the last thing
    shown is the error. *)
Definition deletes_then_relists (result : outcome unit * SelfLayerCLI)
    (before : SelfLayerCLI) (gone relist : Request) (outcome : outcome json) : Prop :=
  fst result = Return tt
  /\ match outcome with
     | Return _ => requests (snd result) = requests before ++ [gone; relist]
     | Raise e =>
         requests (snd result) = requests before ++ [gone]
         /\ app_state (snd result) = app_state before
         /\ exists shown,
              screen (process (snd result)) = shown ++ [error_panel P e "Delete Error"]
     end.

End CommandStatements.

Section LineStatements.
Import Models Client Renderers Tui.

(** The panels of the two usage messages. *)
Definition documents_usage : printed :=
  PPanel (render_error_panel
    "Usage: /d, /d new /path/to/file, /d 1, /d delete 1" "Invalid Arguments").

Definition notes_usage : printed :=
  PPanel (render_error_panel
    (PyStr.qq "Usage: /n, /n new 'Title' 'Content', /n 1, /n edit 1 'Content', /n delete 1")
    "Invalid Arguments").

(** The body [create_note] posts. *)
Definition note_body (title content : string) : json :=
  JObj [("title", JStr title); ("content", JStr content); ("tags", JArr []);
        ("visibility", JStr "personal")].

(** The one field [/rms] asks about, if any: an address when the query
    holds an [@]; else a company when the query is in double quotes and
    more than quotes; else the query as a name. *)
Definition persona_field (query : string) : option (string * string) :=
  let quote := String PyStr.dquote EmptyString in
  if PyStr.contains "@" query then Some ("email", query)
  else if PyStr.startswith query quote && PyText.endswith query quote then
    let company := PyStr.strip_set [PyStr.dquote] query in
    if PyStr.truthy company then Some ("company", company) else None
  else if PyStr.truthy query then Some ("name", query) else None.

(** The interface once the loop has logged and shown an exception whose
    text is [text]. *)
Definition unexpected (text : string) (self : SelfLayerCLI) : SelfLayerCLI :=
  printing (PPanel (render_error_panel ("Unexpected error: " +:+ text) "Error"))
    (with_process (log_warning "Unexpected error in command loop") self).

(** A stand-in for the record [PersonaAgentResponse]: it keeps the data. *)
Definition persona_model : Model json :=
  Build_Model json "PersonaAgentResponse" (fun d => Some (JObj d)).

Definition blank_panel : Panel := mkPanel EmptyString EmptyString EmptyString.

(** The commands that end the session with or without a client. *)
Definition quits : list string := ["/quit"; "/q"; "quit"; "exit"].

Definition automations_aliases : list string := ["/automations"; "automations"; "/auto"].

End LineStatements.

Section StartupStatements.
Import Models Tui Startup.

(** The effective key of the configuration at [now], as a value. *)
Definition effective_key (now : string) (w : Config.World) : option string :=
  match fst (Config.get_effective_api_key now w) with
  | Return k => k
  | Raise _ => None
  end.

(** A usable key: one that is there and not empty. *)
Definition usable (k : option string) : option string :=
  match k with
  | Some v => if PyStr.truthy v then Some v else None
  | None => None
  end.

Fixpoint slashes (n : nat) : string :=
  match n with
  | O => EmptyString
  | S n' => String "/" (slashes n')
  end.

(** A program that has not started: a world, no global client, and a new
    interface. *)
Definition not_started (w : Config.World) : Program :=
  mkProgram w None (mkCLI initial None true idle).

(** A world with a stored key and the given environment. *)
Definition stored_world (key : string) (env : gmap string string) : Config.World :=
  Config.mkWorld
    (Some (Config.mkConfig (Some key) "https://example.test/api" "INFO" None None))
    (Config.mkDisk Config.NoFile 384 true) env.

End StartupStatements.

Section OtherKindsStatements.
Import Models Client Renderers Tui.

(** The panels of a number that is not listed. *)
Definition notification_not_found (index : Z) : printed :=
  PPanel (render_error_panel ("Notification #" +:+ pretty index +:+ " not found.")
            "Notification Not Found").

Definition integration_not_found (index : Z) : printed :=
  PPanel (render_error_panel
            ("Integration #" +:+ pretty index +:+ " not found. Use /i to list integrations.")
            "Integration Not Found").

(** A note with the given content. *)
Definition note_of (content : string) : Note.t :=
  Note.mk "n" "u" "t" content "DONE" None "2024-01-01" "2024-01-01" [] "personal".

End OtherKindsStatements.

(** * Theorems *)

Example loads_example :
  Json.loads (PyStr.qq " {'a': [1, -2, true, null], 'b': 'x/y', 'a': 3} ")
  = Some (JObj [("a", JInt 3); ("b", JStr "x/y")]).
Proof. vm_compute. reflexivity. Qed.

Example strip_example : PyStr.strip "  sl_live_x  " = "sl_live_x".
Proof. reflexivity. Qed.

Example masked_example :
  Config.get_masked_api_key
    (Config.with_api_key (Some "sl_live_abcdefgh1234") (Config.default_config None))
  = "sl_live_...1234".
Proof. reflexivity. Qed.

(** ** Strings *)

Section PyStrFacts.

Lemma take_drop (n : nat) (s : string) :
  PyStr.take n s +:+ PyStr.drop n s = s.
Proof.
  revert s; induction n as [|n IH]; intros [|c s]; try reflexivity.
  change (String c (PyStr.take n s +:+ PyStr.drop n s) = String c s).
  f_equal. apply IH.
Qed.

Lemma length_take (n : nat) (s : string) :
  (n <= String.length s)%nat -> String.length (PyStr.take n s) = n.
Proof.
  revert s; induction n as [|n IH]; intros [|c s]; simpl; intros H;
    try reflexivity; try lia.
  rewrite IH; [reflexivity | lia].
Qed.

Lemma length_drop (n : nat) (s : string) :
  String.length (PyStr.drop n s) = (String.length s - n)%nat.
Proof.
  revert s; induction n as [|n IH]; intros [|c s];
    cbn [PyStr.drop String.length]; try lia.
  rewrite IH. lia.
Qed.

Lemma drop_drop (a b : nat) (s : string) :
  PyStr.drop a (PyStr.drop b s) = PyStr.drop (b + a) s.
Proof.
  revert s; induction b as [|b IH]; intros s; simpl; [reflexivity|].
  destruct s as [|c s]; [now destruct a | apply IH].
Qed.

Lemma drop_all (n : nat) (s : string) :
  (String.length s <= n)%nat -> PyStr.drop n s = EmptyString.
Proof.
  revert s; induction n as [|n IH]; intros [|c s]; simpl; intros H;
    try reflexivity; try lia.
  apply IH; lia.
Qed.

Lemma clamp_nonneg (i : Z) (s : string) :
  0 <= i <= PyStr.len s -> PyStr.clamp i s = Z.to_nat i.
Proof.
  intros H. unfold PyStr.clamp.
  destruct (Z.ltb_spec i 0); [lia|]. f_equal; lia.
Qed.

Lemma clamp_neg (i : Z) (s : string) :
  i < 0 -> 0 <= PyStr.len s + i -> PyStr.clamp i s = Z.to_nat (PyStr.len s + i).
Proof.
  intros H1 H2. unfold PyStr.clamp.
  destruct (Z.ltb_spec i 0); [|lia]. f_equal; lia.
Qed.

Lemma truthy_false (s : string) : PyStr.truthy s = false <-> s = EmptyString.
Proof. destruct s; simpl; split; congruence. Qed.

End PyStrFacts.

(** ** [config.py]: the masked key *)

Section MaskedKey.
Import Config.

(** C10. The masked display of the stored key is ['Not set'] when no key
    is present ([None], or the empty string, which the code treats as
    absent), ['***'] for a key of fewer than 12 characters, and otherwise
    the first 8 characters, ['...'] and the last 4 characters; for a key
    of exactly 12 characters the two shown parts are the whole key. *)
Theorem masked_api_key_display (self : SelfLayerConfig) :
  (api_key self = None \/ api_key self = Some EmptyString ->
     get_masked_api_key self = "Not set")
  /\ (forall k, api_key self = Some k -> k <> EmptyString -> PyStr.len k < 12 ->
        get_masked_api_key self = "***")
  /\ (forall k, api_key self = Some k -> 12 <= PyStr.len k ->
        exists first mid last,
          k = first +:+ mid +:+ last
          /\ String.length first = 8%nat /\ String.length last = 4%nat
          /\ get_masked_api_key self = first +:+ "..." +:+ last
          /\ (PyStr.len k = 12 -> first +:+ last = k)).
Proof.
  unfold get_masked_api_key. repeat split.
  - intros [-> | ->]; reflexivity.
  - intros k -> Hk Hlen. destruct k as [|c k]; [congruence|]. simpl negb. cbv iota.
    destruct (Z.ltb_spec (PyStr.len (String c k)) 12); [reflexivity | lia].
  - intros k -> Hlen.
    assert (Hn : (12 <= String.length k)%nat) by (unfold PyStr.len in Hlen; lia).
    destruct k as [|c k]; [simpl in Hn; lia|]. simpl negb. cbv iota.
    set (s := String c k) in *.
    destruct (Z.ltb_spec (PyStr.len s) 12); [lia|].
    unfold PyStr.slice_to, PyStr.slice_from.
    rewrite clamp_nonneg by lia. rewrite clamp_neg by lia.
    replace (Z.to_nat 8) with 8%nat by reflexivity.
    replace (Z.to_nat (PyStr.len s + -4)) with (String.length s - 4)%nat
      by (unfold PyStr.len; lia).
    exists (PyStr.take 8 s),
           (PyStr.take (String.length s - 12) (PyStr.drop 8 s)),
           (PyStr.drop (String.length s - 4) s).
    assert (Hsplit : PyStr.drop (String.length s - 4) s
                     = PyStr.drop (String.length s - 12) (PyStr.drop 8 s)).
    { rewrite drop_drop. f_equal. lia. }
    split; [|split; [|split; [|split]]].
    + rewrite Hsplit, !take_drop. reflexivity.
    + apply length_take. lia.
    + rewrite length_drop. lia.
    + reflexivity.
    + intros H12.
      replace (String.length s - 4)%nat with 8%nat by (unfold PyStr.len in H12; lia).
      apply take_drop.
Qed.

Lemma masked_api_key_display_witness :
  get_masked_api_key (default_config None) = "Not set"
  /\ get_masked_api_key (with_api_key (Some "sl_live_x") (default_config None)) = "***"
  /\ exists first mid last,
      "sl_live_1234" = first +:+ mid +:+ last
      /\ String.length first = 8%nat /\ String.length last = 4%nat
      /\ get_masked_api_key (with_api_key (Some "sl_live_1234") (default_config None))
         = first +:+ "..." +:+ last
      /\ (PyStr.len "sl_live_1234" = 12 -> first +:+ last = "sl_live_1234").
Proof.
  split; [|split].
  - apply (proj1 (masked_api_key_display (default_config None))).
    left. reflexivity.
  - apply (proj1 (proj2 (masked_api_key_display
             (with_api_key (Some "sl_live_x") (default_config None)))) "sl_live_x").
    + reflexivity.
    + discriminate.
    + vm_compute. reflexivity.
  - apply (proj2 (proj2 (masked_api_key_display
             (with_api_key (Some "sl_live_1234") (default_config None))))).
    + reflexivity.
    + vm_compute. discriminate.
Defined.

End MaskedKey.

(** ** [config.py]: setting the key *)

Section ApiKeyValidation.
Import Config.

Lemma with_config_same (c : SelfLayerConfig) (w : World) :
  _config w = Some c -> with_config (Some c) w = w.
Proof. destruct w; simpl; intros ->; reflexivity. Qed.

(** [get_config] always returns: it hands out the object the manager
    holds, loading it first when there is none, and leaves the file and
    the environment alone. *)
Lemma get_config_spec (now : string) (w : World) :
  exists c, get_config now w = (Return c, with_config (Some c) w)
            /\ (forall c0, _config w = Some c0 -> c = c0).
Proof.
  unfold get_config, load_config.
  destruct (_config w) as [c|] eqn:E.
  - exists c. rewrite with_config_same by assumption. split; congruence.
  - eexists. split; [reflexivity | discriminate].
Qed.

Lemma set_api_key_raises (key : string) (self : SelfLayerConfig) :
  PyStr.startswith (PyStr.strip key) "sl_live_" = false ->
  PyStr.startswith (PyStr.strip key) "sl_test_" = false ->
  exists msg, set_api_key key self = (Raise (ValueError msg), self).
Proof.
  intros H1 H2. unfold set_api_key.
  destruct (negb (PyStr.truthy key) || negb (PyStr.truthy (PyStr.strip key))).
  - eexists; reflexivity.
  - rewrite H1, H2. eexists; reflexivity.
Qed.

(** C5. A candidate key that, once trimmed, starts with neither
    ['sl_live_'] nor ['sl_test_'] (the empty and the blank string are
    such keys) is rejected before anything is persisted: [set_api_key]
    raises [ValueError] and leaves the configuration object as it was;
    [update_api_key] returns [False], the only trace it leaves is that the
    manager has loaded its configuration, the file is untouched and the
    stored key reads as before. *)
Theorem invalid_api_key_rejected (key : string) :
  PyStr.startswith (PyStr.strip key) "sl_live_" = false ->
  PyStr.startswith (PyStr.strip key) "sl_test_" = false ->
  (forall self, exists msg, set_api_key key self = (Raise (ValueError msg), self))
  /\ (forall now w,
        update_api_key now key w = (Return false, snd (get_config now w))
        /\ storage (snd (update_api_key now key w)) = storage w
        /\ environ (snd (update_api_key now key w)) = environ w
        /\ fst (get_api_key now (snd (update_api_key now key w)))
           = fst (get_api_key now w)
        /\ (forall c, _config w = Some c ->
              update_api_key now key w = (Return false, w))).
Proof.
  intros H1 H2. split.
  - intros self. apply set_api_key_raises; assumption.
  - intros now w.
    destruct (get_config_spec now w) as (c & Hget & Hsame).
    assert (Hupd : update_api_key now key w = (Return false, with_config (Some c) w)).
    { unfold update_api_key, try_except, bind. rewrite Hget.
      unfold on_config.
      destruct (set_api_key_raises key c H1 H2) as (msg & ->).
      unfold ret. destruct w; reflexivity. }
    rewrite Hupd, Hget. cbn [snd fst].
    repeat split.
    + unfold get_api_key, bind. rewrite Hget.
      unfold get_config at 1. reflexivity.
    + intros c0 Hc0. rewrite with_config_same; [reflexivity|].
      rewrite Hc0. f_equal. symmetry. apply Hsame, Hc0.
Qed.

Lemma invalid_api_key_rejected_witness :
  (forall self, exists msg,
      set_api_key "  my_secret_key " self = (Raise (ValueError msg), self))
  /\ update_api_key "2024-01-01T00:00:00" "  my_secret_key " sample_world
     = (Return false, snd (get_config "2024-01-01T00:00:00" sample_world))
  /\ update_api_key "2024-01-01T00:00:00" "  my_secret_key "
       (with_config (Some (default_config None)) sample_world)
     = (Return false, with_config (Some (default_config None)) sample_world).
Proof.
  destruct (invalid_api_key_rejected "  my_secret_key " eq_refl eq_refl)
    as [Hset Hupd].
  split; [exact Hset|]. split.
  - exact (proj1 (Hupd _ sample_world)).
  - destruct (Hupd "2024-01-01T00:00:00"
                (with_config (Some (default_config None)) sample_world))
      as (_ & _ & _ & _ & Hsame).
    exact (Hsame (default_config None) eq_refl).
Defined.

(** The empty string and every blank string are among the rejected keys. *)
Lemma blank_key_has_no_prefix (key : string) :
  PyStr.strip key = EmptyString ->
  PyStr.startswith (PyStr.strip key) "sl_live_" = false
  /\ PyStr.startswith (PyStr.strip key) "sl_test_" = false.
Proof. intros ->. split; reflexivity. Qed.

Example blank_key_rejected :
  PyStr.startswith (PyStr.strip "   ") "sl_live_" = false
  /\ PyStr.startswith (PyStr.strip "   ") "sl_test_" = false
  /\ PyStr.startswith (PyStr.strip EmptyString) "sl_live_" = false
  /\ PyStr.startswith (PyStr.strip EmptyString) "sl_test_" = false.
Proof. repeat split. Qed.

Example valid_key_stored :
  fst (get_api_key "t1"
        (snd (update_api_key "t0" " sl_test_abc " sample_world)))
  = Return (Some "sl_test_abc").
Proof. reflexivity. Qed.

Example stored_key_survives_rejection :
  fst (get_api_key "t1"
        (snd (update_api_key "t0" "bad" sample_world)))
  = Return (Some "sl_live_stored_key").
Proof. reflexivity. Qed.

End ApiKeyValidation.

(** ** [config.py]: environment first *)

Section EffectiveSettings.
Import Config.

(** C7. When [SELFLAYER_API_KEY] (or [SELFLAYER_BASE_URL]) is set to a
    non-empty value, the effective key (or base URL) is that value
    stripped, whatever the manager holds and whatever the file says, and
    the manager is not even consulted; when the variable is unset or
    empty, the effective value is the stored one. *)
Theorem environment_takes_precedence (now : string) (w : World) :
  (forall v, environ w !! "SELFLAYER_API_KEY" = Some v -> v <> EmptyString ->
     get_effective_api_key now w = (Return (Some (PyStr.strip v)), w))
  /\ (environ w !! "SELFLAYER_API_KEY" = None
      \/ environ w !! "SELFLAYER_API_KEY" = Some EmptyString ->
      get_effective_api_key now w = get_api_key now w
      /\ exists c, get_config now w = (Return c, with_config (Some c) w)
                   /\ fst (get_effective_api_key now w) = Return (api_key c))
  /\ (forall v, environ w !! "SELFLAYER_BASE_URL" = Some v -> v <> EmptyString ->
     get_effective_base_url now w = (Return (PyStr.strip v), w))
  /\ (environ w !! "SELFLAYER_BASE_URL" = None
      \/ environ w !! "SELFLAYER_BASE_URL" = Some EmptyString ->
      exists c, get_config now w = (Return c, with_config (Some c) w)
                /\ get_effective_base_url now w
                   = (Return (base_url c), with_config (Some c) w)).
Proof.
  split; [|split; [|split]].
  - intros v Hv Hne. unfold get_effective_api_key, bind, getenv. rewrite Hv.
    destruct v; [congruence | reflexivity].
  - intros Hv.
    assert (Heq : get_effective_api_key now w = get_api_key now w).
    { unfold get_effective_api_key, bind at 1, getenv.
      destruct Hv as [-> | ->]; reflexivity. }
    split; [exact Heq|].
    destruct (get_config_spec now w) as (c & Hget & _).
    exists c. split; [exact Hget|].
    rewrite Heq. unfold get_api_key, bind. rewrite Hget. reflexivity.
  - intros v Hv Hne. unfold get_effective_base_url, bind, getenv. rewrite Hv.
    destruct v; [congruence | reflexivity].
  - intros Hv.
    destruct (get_config_spec now w) as (c & Hget & _).
    exists c. split; [exact Hget|].
    unfold get_effective_base_url, bind at 1, getenv.
    destruct Hv as [-> | ->]; cbn [PyStr.truthy];
      unfold bind; rewrite Hget; reflexivity.
Qed.

Lemma environment_takes_precedence_witness :
  get_effective_api_key "t0" sample_env_world
    = (Return (Some "sl_live_from_env"), sample_env_world)
  /\ get_effective_base_url "t0" sample_env_world
    = (Return "http://localhost:9000/api/v1", sample_env_world)
  /\ fst (get_effective_api_key "t0" sample_world)
    = Return (Some "sl_live_stored_key")
  /\ fst (get_effective_base_url "t0" sample_world)
    = Return "https://api.selflayer.com/api/v1".
Proof.
  destruct (environment_takes_precedence "t0" sample_env_world)
    as (Hk & _ & Hu & _).
  destruct (environment_takes_precedence "t0" sample_world)
    as (_ & Hs & _ & Hb).
  split; [|split; [|split]].
  - apply (Hk " sl_live_from_env "); [reflexivity | discriminate].
  - apply (Hu "http://localhost:9000/api/v1 "); [reflexivity | discriminate].
  - destruct (Hs (or_introl eq_refl)) as (Heq & c & Hget & Hfst).
    rewrite Hfst. injection Hget as <- _. reflexivity.
  - destruct (Hb (or_introl eq_refl)) as (c & Hget & ->).
    injection Hget as <- _. reflexivity.
Defined.

End EffectiveSettings.

Example int_examples :
  PyStr.int "12" = Some 12 /\ PyStr.int " -3 " = Some (-3) /\ PyStr.int "1_0" = Some 10
  /\ PyStr.int "abc" = None /\ PyStr.int "1__0" = None /\ PyStr.int "+" = None
  /\ PyStr.int "007" = Some 7 /\ pretty (-12) = "-12" /\ pretty 404 = "404"
  /\ PyStr.before_last_dot "a.b.pdf" = Some "a.b" /\ PyStr.before_last_dot "abc" = None
  /\ PyStr.contains "not" "is not found" = true.
Proof. vm_compute. repeat split. Qed.

(** ** [models.py]: the index of a listing *)

Section IndexFacts.
Import Models.
Context {A : Type} (id_of : A -> string).

Let store (m : gmap Z string) (ix : Z * A) : gmap Z string :=
  <[fst ix + 1 := id_of (snd ix)]> m.

Lemma index_fold_lookup (items : list A) (start : Z) (m : gmap Z string) (k : Z) :
  fold_left store (enumerate_from start items) m !! k
  = if decide (start + 1 <= k <= start + Z.of_nat (length items))
    then id_of <$> items !! Z.to_nat (k - start - 1)
    else m !! k.
Proof.
  revert start m; induction items as [|x rest IH]; intros start m.
  - simpl. case_decide; [lia | reflexivity].
  - cbn [enumerate_from fold_left]. rewrite IH. unfold store. cbn [fst snd].
    cbn [length]. destruct (decide (k = start + 1)) as [->|Hne].
    + rewrite decide_False by lia. rewrite lookup_insert_eq.
      rewrite decide_True by lia.
      replace (Z.to_nat (start + 1 - start - 1)) with 0%nat by lia. reflexivity.
    + rewrite lookup_insert_ne by congruence.
      repeat case_decide; try lia; try reflexivity.
      replace (Z.to_nat (k - start - 1)) with (S (Z.to_nat (k - (start + 1) - 1)))
        by lia.
      reflexivity.
Qed.

Lemma index_fold_size (items : list A) (start : Z) (m : gmap Z string) :
  (forall k, start < k -> m !! k = None) ->
  size (fold_left store (enumerate_from start items) m)
  = (size m + length items)%nat.
Proof.
  revert start m; induction items as [|x rest IH]; intros start m Hfree.
  - simpl. lia.
  - cbn [enumerate_from fold_left]. rewrite IH.
    + unfold store. cbn [fst snd length].
      rewrite map_size_insert_None by (apply Hfree; lia). lia.
    + intros k Hk. unfold store. cbn [fst snd].
      rewrite lookup_insert_ne by lia. apply Hfree. lia.
Qed.

(** The index built from a list holds, under each of [1 .. length], the
    identifier of the item at that place, and nothing else. *)
Lemma index_of_lookup (items : list A) (k : Z) :
  index_of id_of items !! k
  = if decide (1 <= k <= Z.of_nat (length items))
    then id_of <$> items !! Z.to_nat (k - 1)
    else None.
Proof.
  unfold index_of. fold store. rewrite index_fold_lookup.
  rewrite lookup_empty. replace (k - 0 - 1) with (k - 1) by lia.
  repeat case_decide; try lia; reflexivity.
Qed.

Lemma index_of_size (items : list A) :
  size (index_of id_of items) = length items.
Proof.
  unfold index_of. fold store. rewrite index_fold_size.
  - rewrite map_size_empty. lia.
  - intros k _. apply lookup_empty.
Qed.

Lemma index_of_at (items : list A) (i : nat) (a : A) :
  items !! i = Some a -> index_of id_of items !! (Z.of_nat i + 1) = Some (id_of a).
Proof.
  intros Hi. rewrite index_of_lookup.
  pose proof (lookup_lt_Some _ _ _ Hi) as Hlt.
  rewrite decide_True by lia.
  replace (Z.to_nat (Z.of_nat i + 1 - 1)) with i by lia.
  rewrite Hi. reflexivity.
Qed.

Lemma index_of_keys (items : list A) (k : Z) :
  is_Some (index_of id_of items !! k) <-> 1 <= k <= Z.of_nat (length items).
Proof.
  rewrite index_of_lookup. case_decide as Hk.
  - split; [intros _; exact Hk | intros _].
    destruct (items !! Z.to_nat (k - 1)) eqn:E; [eexists; reflexivity|].
    apply lookup_ge_None in E. lia.
  - split; [intros [? ?]; discriminate | intros; contradiction].
Qed.

End IndexFacts.

Section Listing.
Import Models.

Lemma construct_cases {S A} `{Model A} (doc : json) :
  (exists a, forall (T : Type) (t : T), construct doc t = (Return a, t))
  \/ (exists e, forall (s : S), construct doc s = (Raise e, s)).
Proof.
  unfold construct. destruct doc; try (right; eexists; reflexivity).
  destruct (model_validate members).
  - left. eexists. reflexivity.
  - right. eexists. reflexivity.
Qed.

(** A comprehension that completes has built one model per item, in
    order, and has not touched the state. *)
Lemma construct_all_spec {S A} `{Model A} (items : list json) (s s' : S)
    (built : list A) :
  construct_all items s = (Return built, s') ->
  s' = s /\ length built = length items
  /\ forall (i : nat) doc, items !! i = Some doc ->
       exists a, built !! i = Some a
                 /\ forall (T : Type) (t : T), construct doc t = (Return a, t).
Proof.
  revert built; induction items as [|doc rest IH]; intros built.
  - cbn. intros [= <- <-]. repeat split. intros i doc Hi. destruct i; discriminate.
  - cbn [construct_all]. unfold bind at 1.
    destruct (@construct_cases S A _ doc) as [(a & Ha) | (e & He)].
    + rewrite Ha. unfold bind at 1.
      destruct (construct_all rest s) as [[l|e] s1] eqn:E; [|discriminate].
      unfold ret. intros [= <- <-].
      destruct (IH l eq_refl) as (-> & Hlen & Hitems).
      split; [reflexivity|]. split; [simpl; lia|].
      intros [|i] d Hi.
      * injection Hi as <-. exists a. split; [reflexivity | exact Ha].
      * apply (Hitems i d Hi).
    + rewrite He. discriminate.
Qed.

Lemma rebuilt_generic {S A} `{Model A} (id_of : A -> string)
    (items : list json) (s s' : S) (built : list A) :
  construct_all items s = (Return built, s') ->
  s' = s /\ index_rebuilt_from id_of items built (index_of id_of built).
Proof.
  intros Hc. destruct (construct_all_spec items s s' built Hc) as (-> & Hlen & Hitems).
  split; [reflexivity|]. unfold index_rebuilt_from.
  split; [exact Hlen|]. split; [rewrite index_of_size; exact Hlen|].
  split; [intros k; rewrite <- Hlen; apply index_of_keys|].
  intros i doc Hi. destruct (Hitems i doc Hi) as (a & Ha & Hcons).
  exists a. split; [exact Hcons|]. split; [exact Ha|].
  apply index_of_at, Ha.
Qed.

Context `{MD : Model Document.t, MN : Model Note.t, MF : Model Notification.t,
          MI : Model Integration.t, MA : Model Automation.t}.

Lemma construct_all_total {S A} `{Model A} (items : list json) :
  accepted A items ->
  exists built, forall s : S, construct_all items s = (Return built, s).
Proof.
  induction 1 as [|doc rest (kwargs & -> & a & Ha) _ (built & Hb)].
  - exists []. reflexivity.
  - exists (a :: built). intros s. cbn [construct_all construct]. rewrite Ha.
    unfold bind, ret. rewrite Hb. reflexivity.
Qed.

Ltac refresh_tac update id_of :=
  let E := fresh "E" in
  split;
  [ intros Hacc;
    destruct (construct_all_total (S:=AppState) _ Hacc) as [built Hb];
    eexists; unfold update, bind; cbn [iterate ret]; rewrite Hb; reflexivity
  | intros st' Hu; unfold update, bind in Hu; cbn [iterate ret] in Hu;
    match type of Hu with
    | context [construct_all ?items ?st] =>
        destruct (construct_all items st) as [[built|e] s1] eqn:E; [|discriminate];
        destruct (rebuilt_generic id_of _ _ _ _ E) as [-> Hr];
        unfold get_self, put_self in Hu; injection Hu as <-; exact (Hr)
    end ].

(** C3. Listing [N] items rebuilds the index of their kind: the update
    returns (when each item is a record the model accepts), and the index
    then has exactly [N] entries, its keys are [1 .. N], key [i] maps to
    the identifier of the [i]-th item of the response, the cache holds the
    [N] items in the same order, and nothing of the previous index is left.
    This holds for documents, notes, notifications, integrations and
    automations alike. *)
Theorem listing_rebuilds_index (items : list json) (st : AppState) :
  refreshes update_documents Document.id documents document_index items st
  /\ refreshes update_notes Note.id notes note_index items st
  /\ refreshes update_notifications Notification.id notifications notification_index
       items st
  /\ refreshes update_integrations Integration.id integrations integration_index
       items st
  /\ refreshes update_automations Automation.id automations automation_index items st.
Proof.
  split; [|split; [|split; [|split]]].
  - refresh_tac (@update_documents) Document.id.
  - refresh_tac (@update_notes) Note.id.
  - refresh_tac (@update_notifications) Notification.id.
  - refresh_tac (@update_integrations) Integration.id.
  - refresh_tac (@update_automations) Automation.id.
Qed.

End Listing.

Section ListingWitness.
Import Models.

#[local] Existing Instances Strict.document_model Strict.note_model
  Strict.notification_model Strict.integration_model Strict.automation_model.

Ltac accept_all :=
  repeat constructor; eexists; (split; [reflexivity | vm_compute; eexists; reflexivity]).

Lemma listing_rebuilds_index_witness :
  ((exists st', update_documents (JArr sample_documents) stale_state = (Return tt, st'))
   /\ let st' := snd (update_documents (JArr sample_documents) stale_state) in
      index_rebuilt_from Document.id sample_documents (documents st') (document_index st'))
  /\ ((exists st', update_notes (JArr sample_notes) stale_state = (Return tt, st'))
   /\ let st' := snd (update_notes (JArr sample_notes) stale_state) in
      index_rebuilt_from Note.id sample_notes (notes st') (note_index st'))
  /\ ((exists st',
         update_notifications (JArr sample_notifications) stale_state = (Return tt, st'))
   /\ let st' := snd (update_notifications (JArr sample_notifications) stale_state) in
      index_rebuilt_from Notification.id sample_notifications (notifications st')
        (notification_index st'))
  /\ ((exists st',
         update_integrations (JArr sample_integrations) stale_state = (Return tt, st'))
   /\ let st' := snd (update_integrations (JArr sample_integrations) stale_state) in
      index_rebuilt_from Integration.id sample_integrations (integrations st')
        (integration_index st'))
  /\ ((exists st',
         update_automations (JArr sample_automations) stale_state = (Return tt, st'))
   /\ let st' := snd (update_automations (JArr sample_automations) stale_state) in
      index_rebuilt_from Automation.id sample_automations (automations st')
        (automation_index st')).
Proof.
  destruct (@listing_rebuilds_index _ _ _ _ _ sample_documents stale_state)
    as ([D1 D2] & _).
  destruct (@listing_rebuilds_index _ _ _ _ _ sample_notes stale_state)
    as (_ & [N1 N2] & _).
  destruct (@listing_rebuilds_index _ _ _ _ _ sample_notifications stale_state)
    as (_ & _ & [F1 F2] & _).
  destruct (@listing_rebuilds_index _ _ _ _ _ sample_integrations stale_state)
    as (_ & _ & _ & [I1 I2] & _).
  destruct (@listing_rebuilds_index _ _ _ _ _ sample_automations stale_state)
    as (_ & _ & _ & _ & [A1 A2]).
  split; [|split; [|split; [|split]]].
  - split; [apply D1; accept_all | intros st'; apply D2; reflexivity].
  - split; [apply N1; accept_all | intros st'; apply N2; reflexivity].
  - split; [apply F1; accept_all | intros st'; apply F2; reflexivity].
  - split; [apply I1; accept_all | intros st'; apply I2; reflexivity].
  - split; [apply A1; accept_all | intros st'; apply A2; reflexivity].
Defined.

Example stale_entry_gone :
  document_index (snd (update_documents (JArr sample_documents) stale_state)) !! 7
  = None
  /\ document_index (snd (update_documents (JArr sample_documents) stale_state)) !! 2
  = Some "doc-b".
Proof. vm_compute. split; reflexivity. Qed.

End ListingWitness.

(** ** [tui.py]: commands without a credential *)

Section Dispatch.
Import Tui Renderers.

(** Without a client, a command outside the guard's list gets the
    credential panel and no handler. *)
Lemma other_commands_refused (self : SelfLayerCLI) (command : string)
    (args : list string) :
  among command no_client_needed = false ->
  _execute_command (without_client self) command args = Printed credential_required.
Proof. intros H. unfold _execute_command. rewrite H. reflexivity. Qed.

(** Without a client, the thirteen commands of the guard's list reach the
    help, key, clear or quit handler. *)
Lemma listed_commands_dispatched (self : SelfLayerCLI) (command : string)
    (args : list string) :
  among command no_client_needed = true ->
  _execute_command (without_client self) command args
    ∈ [Awaits cmd_help; Awaits (cmd_key args); Awaits cmd_clear; Awaits cmd_quit].
Proof.
  unfold among, no_client_needed. cbn [existsb].
  repeat match goal with
         | |- context [String.eqb command ?x] =>
             destruct (String.eqb_spec command x) as [-> | _];
             [intros _; vm_compute; repeat constructor |]
         end.
  cbn. discriminate.
Qed.

(** C6, at the alias [/exit]: the routing table sends [/exit] to the quit
    handler, but the guard's list has [exit] and not [/exit], so without
    a credential [/exit] gets the credential panel instead of quitting;
    with a client it quits. *)
Theorem slash_exit_needs_credential (self : SelfLayerCLI) (args : list string) :
  _execute_command (without_client self) "/exit" args = Printed credential_required
  /\ _execute_command (without_client self) "exit" args = Awaits cmd_quit
  /\ _execute_command (without_client self) "/quit" args = Awaits cmd_quit
  /\ forall c,
       _execute_command (mkCLI (app_state self) (Some c) (running self) (process self))
         "/exit" args = Awaits cmd_quit.
Proof. repeat split. Qed.

End Dispatch.

(** ** [client.py]: the streaming reader *)

Section StreamReader.
Import Client.
Variable P : Platform.
Variable remote : Remote.

(** The loop touches nothing but the warnings. *)
Lemma read_lines_process (lines : list string) (w : Process) :
  sent (snd (read_lines P lines w)) = sent w
  /\ screen (snd (read_lines P lines w)) = screen w.
Proof.
  revert w; induction lines as [|line rest IH]; intros w; [split; reflexivity|].
  cbn [read_lines].
  destruct (PyStr.truthy (PyStr.strip line)); [|apply IH].
  destruct (PyStr.startswith line "data: ").
  - destruct (String.eqb _ "[DONE]"); [split; reflexivity|].
    destruct (json_loads P _).
    + specialize (IH w). destruct (read_lines P rest w) as [[chunks broke] w'].
      exact IH.
    + apply (IH (log_warning _ w)).
  - destruct (json_loads P line).
    + specialize (IH w). destruct (read_lines P rest w) as [[chunks broke] w'].
      exact IH.
    + apply (IH (log_warning _ w)).
Qed.

(** What the loop yields does not depend on the process it runs in. *)
Lemma read_lines_yield (lines : list string) (w w' : Process) :
  fst (read_lines P lines w) = fst (read_lines P lines w').
Proof.
  revert w w'; induction lines as [|line rest IH]; intros w w'; [reflexivity|].
  cbn [read_lines].
  destruct (PyStr.truthy (PyStr.strip line)); [|apply IH].
  destruct (PyStr.startswith line "data: ").
  - destruct (String.eqb _ "[DONE]"); [reflexivity|].
    destruct (json_loads P _); [|apply IH].
    specialize (IH w w').
    destruct (read_lines P rest w) as [[c b] w1], (read_lines P rest w') as [[c' b'] w1'].
    cbn in *. congruence.
  - destruct (json_loads P line); [|apply IH].
    specialize (IH w w').
    destruct (read_lines P rest w) as [[c b] w1], (read_lines P rest w') as [[c' b'] w1'].
    cbn in *. congruence.
Qed.

(** C2. Given the lines [data: {"content":"a"}], [data: {"content":"b"}]
    and [data: [DONE]], the reader yields the two parsed objects, in that
    order, and stops: the sentinel is not yielded, whatever follows it is
    not read, nothing is logged, and the generator finishes without an
    error however the transport would have ended. *)
Theorem stream_yields_two_then_stops
    (self : SelfLayerAPIClient) (endpoint : string) (json_data : Json.dict)
    (w : Process) (status : Z) (body : option string) (more : list string)
    (ending : stream_end) :
  json_loads P (PyStr.qq "{'content':'a'}") = Some object_a ->
  json_loads P (PyStr.qq "{'content':'b'}") = Some object_b ->
  (forall w0, read_lines P (line_a :: line_b :: line_done :: more) w0
              = (([object_a; object_b], true), w0))
  /\ (200 <= status <= 299 ->
      stream_server remote (sent w)
        (mkRequest "POST" (endpoint_url self endpoint) None
           (Some (JObj (dict_set "stream" (JBool true) json_data))) None
           (client_headers self) None)
      = Streams status body (line_a :: line_b :: line_done :: more) ending ->
      fst (stream P remote self endpoint json_data w)
        = ([object_a; object_b], Return tt)
      /\ warnings (snd (stream P remote self endpoint json_data w)) = warnings w
      /\ screen (snd (stream P remote self endpoint json_data w)) = screen w).
Proof.
  intros Ha Hb.
  assert (Hloop : forall w0, read_lines P (line_a :: line_b :: line_done :: more) w0
                             = (([object_a; object_b], true), w0)).
  { intros w0. cbn [read_lines].
    change (PyStr.truthy (PyStr.strip line_a)) with true.
    change (PyStr.startswith line_a "data: ") with true.
    change (PyStr.slice_from 6 line_a) with (PyStr.qq "{'content':'a'}").
    change (String.eqb (PyStr.strip (PyStr.qq "{'content':'a'}")) "[DONE]") with false.
    change (PyStr.truthy (PyStr.strip line_b)) with true.
    change (PyStr.startswith line_b "data: ") with true.
    change (PyStr.slice_from 6 line_b) with (PyStr.qq "{'content':'b'}").
    change (String.eqb (PyStr.strip (PyStr.qq "{'content':'b'}")) "[DONE]") with false.
    change (PyStr.truthy (PyStr.strip line_done)) with true.
    change (PyStr.startswith line_done "data: ") with true.
    change (String.eqb (PyStr.strip (PyStr.slice_from 6 line_done)) "[DONE]") with true.
    cbv iota. rewrite Ha, Hb. reflexivity. }
  split; [exact Hloop|].
  intros Hstatus Hreply. unfold stream, send_stream. rewrite Hreply.
  unfold is_success. cbn [status_code].
  replace (200 <=? status) with true by (symmetry; apply Z.leb_le; lia).
  replace (status <=? 299) with true by (symmetry; apply Z.leb_le; lia).
  cbn [andb negb]. rewrite Hloop. repeat split.
Qed.


End StreamReader.

Section StreamReaderWitnesses.
Import Client.

Lemma stream_yields_two_then_stops_witness :
  fst (stream reference_platform
         (streaming (Streams 200 None
            [line_a; line_b; line_done; "data: {never read"] ReadTimesOut))
         sample_client "exocortex/ask" [("query", JStr "hi")] idle)
  = ([object_a; object_b], Return tt).
Proof.
  apply (stream_yields_two_then_stops reference_platform
           (streaming (Streams 200 None
              [line_a; line_b; line_done; "data: {never read"] ReadTimesOut))
           sample_client "exocortex/ask" [("query", JStr "hi")] idle
           200 None ["data: {never read"] ReadTimesOut).
  - reflexivity.
  - reflexivity.
  - lia.
  - reflexivity.
Defined.



Example stream_run_with_noise :
  stream reference_platform
    (streaming (Streams 200 None
       [EmptyString; line_a; "   "; "oops"; PyStr.qq "{'plain': 1}"; "data: {bad"; line_b]
       Exhausted))
    sample_client "/exocortex/ask" [] idle
  = (([object_a; JObj [("plain", JInt 1)]; object_b], Return tt),
     mkProcess
       [mkRequest "POST" "http://localhost:8001/api/v1/exocortex/ask" None
          (Some (JObj [("stream", JBool true)])) None
          (client_headers sample_client) None]
       []
       ["Failed to parse JSON: oops"; "Failed to parse JSON: data: {bad"]).
Proof. vm_compute. reflexivity. Qed.

End StreamReaderWitnesses.

(** ** [client.py]: the request methods *)

Lemma prefix_app (x b : string) : String.prefix x (x +:+ b) = true.
Proof.
  induction x as [|a x IH]; [destruct b; reflexivity|].
  change (String a x +:+ b) with (String a (x +:+ b)).
  cbn [String.prefix]. destruct (ascii_dec a a); [exact IH | congruence].
Qed.

Lemma contains_here (x b : string) : PyStr.contains x (x +:+ b) = true.
Proof.
  pose proof (prefix_app x b) as H.
  destruct (x +:+ b); cbn [PyStr.contains]; rewrite H; reflexivity.
Qed.

Lemma contains_later (x a s : string) :
  PyStr.contains x s = true -> PyStr.contains x (a +:+ s) = true.
Proof.
  intros H. induction a as [|c a IH]; [exact H|].
  change (String c a +:+ s) with (String c (a +:+ s)).
  cbn [PyStr.contains]. rewrite IH. apply orb_true_r.
Qed.

Lemma contains_infix (x a b : string) : PyStr.contains x (a +:+ x +:+ b) = true.
Proof. apply contains_later, contains_here. Qed.

Section RequestMethods.
Import Client.
Variable P : Platform.
Variable remote : Remote.

(** Every method starts by sending its request. *)
Lemma run_sends (self : SelfLayerAPIClient) (c : request_call) (w : Process) :
  run P remote self c w
  = bind (send remote (request_of self c))
      (fun r =>
         match r with
         | Responds status text =>
             let response := mkResponse status (Some text) in
             if negb (is_success response) then fail_request P response
             else if is_delete c && (status =? 204) then ret JNull
             else response_json P response
         | TimesOut => raise (APIError ("Request timeout for " +:+ endpoint_of c))
         | Fails e =>
             raise (APIError ("Request error for " +:+ endpoint_of c +:+ ": " +:+ e))
         end) w.
Proof.
  destruct c as [e p | e j [f|] | e j | e j | e]; cbn [run request_of endpoint_of is_delete];
    unfold get, post, put, patch, delete, bind, send;
    cbn [andb List.filter client_headers fst String.eqb negb];
    try reflexivity.
Qed.

Lemma is_success_spec (status : Z) (body : option string) :
  is_success (mkResponse status body) = true <-> 200 <= status <= 299.
Proof.
  unfold is_success. cbn [status_code]. rewrite andb_true_iff, !Z.leb_le. tauto.
Qed.

(** With the body at hand, [_handle_error] returns a panel; the panel
    shows a string [detail] of the error body. *)
Lemma handle_error_panel (status : Z) (text : string) :
  exists panel,
    (forall w, _handle_error P (mkResponse status (Some text)) w = (Return panel, w))
    /\ (forall d detail,
          json_loads P text = Some (JObj d) -> dict_get "detail" d = Some (JStr detail) ->
          PyStr.contains detail (renderable panel) = true).
Proof.
  unfold _handle_error. cbn [content status_code].
  set (msg := match json_loads P text with
              | Some (JObj error_data) => _
              | _ => _
              end).
  assert (Hmsg : forall d detail,
             json_loads P text = Some (JObj d) -> dict_get "detail" d = Some (JStr detail) ->
             msg = detail).
  { intros d detail Hd Hdet. subst msg. rewrite Hd, Hdet. reflexivity. }
  clearbody msg.
  repeat match goal with
         | |- context [if ?b then _ else _] => destruct b
         end;
    eexists; (split; [intros w; reflexivity|]);
    intros d detail Hd Hdet; rewrite (Hmsg d detail Hd Hdet); cbn [renderable];
    apply contains_infix.
Qed.


(** The texts of the three failures never coincide, and the text of a
    refused request determines the status. *)
Lemma failure_texts_distinct (status status' : Z) (endpoint e : string) :
  "API request failed: " +:+ pretty status <> "Request timeout for " +:+ endpoint
  /\ "API request failed: " +:+ pretty status
     <> "Request error for " +:+ endpoint +:+ ": " +:+ e
  /\ "Request timeout for " +:+ endpoint
     <> "Request error for " +:+ endpoint +:+ ": " +:+ e
  /\ ("API request failed: " +:+ pretty status
      = "API request failed: " +:+ pretty status' -> status = status').
Proof.
  repeat split; try (cbn; discriminate).
  intros H. apply (inj (String.app "API request failed: ")) in H.
  apply (inj pretty) in H. exact H.
Qed.


End RequestMethods.

Section RequestMethodsWitnesses.
Import Client.



(** The panel of the 404 of the example is where the server's message is. *)
Example not_found_panel :
  run reference_platform (answering (Responds 404 not_found_body)) sample_client
    (Get "/documents/zzz" None) idle
  = (Raise (APIError "API request failed: 404"),
     mkProcess
       [mkRequest "GET" "http://localhost:8001/api/v1/documents/zzz" None None None
          (client_headers sample_client) None]
       [PPanel (mkPanel "[yellow]Document not found[/yellow]"
                  "[yellow]Not Found[/yellow]" "yellow")]
       []).
Proof. vm_compute. reflexivity. Qed.

(** A refused stream whose body has not been read does not get as far as
    [APIError]: reading the body for the panel fails first. *)
Example refused_stream_unread :
  fst (stream reference_platform (streaming (Streams 500 None [] Exhausted))
         sample_client "exocortex/ask" [] idle)
  = ([], Raise ResponseNotRead).
Proof. vm_compute. reflexivity. Qed.



End RequestMethodsWitnesses.

(** ** Requests only ever accumulate *)

Section Appends.
Context {S : Type} (proj : S -> list Request).

Lemma appends_ret {A} (a : A) : appends proj (ret a).
Proof. intros s. exists []. cbn. symmetry. apply app_nil_r. Qed.

Lemma appends_raise {A} (e : exn) : appends proj (@raise S A e).
Proof. intros s. exists []. cbn. symmetry. apply app_nil_r. Qed.

Lemma appends_get_self : appends proj (@get_self S).
Proof. intros s. exists []. cbn. symmetry. apply app_nil_r. Qed.

Lemma appends_bind {A B} (m : M S A) (k : A -> M S B) :
  appends proj m -> (forall a, appends proj (k a)) -> appends proj (bind m k).
Proof.
  intros Hm Hk s. unfold appends_at, bind.
  destruct (Hm s) as [t1 H1]. destruct (m s) as [[a|e] s1]; cbn [snd] in H1.
  - destruct (Hk a s1) as [t2 H2]. exists (t1 ++ t2).
    rewrite H2, H1. symmetry. apply app_assoc.
  - exists t1. exact H1.
Qed.

Lemma appends_try {A} (m : M S A) (h : exn -> M S A) :
  appends proj m -> (forall e, appends proj (h e)) -> appends proj (try_except m h).
Proof.
  intros Hm Hh s. unfold appends_at, try_except.
  destruct (Hm s) as [t1 H1]. destruct (m s) as [[a|e] s1]; cbn [snd] in H1.
  - exists t1. exact H1.
  - destruct (Hh e s1) as [t2 H2]. exists (t1 ++ t2).
    rewrite H2, H1. symmetry. apply app_assoc.
Qed.

Lemma starts_appends {A} (req : Request) (m : M S A) (s : S) :
  starts_at proj req m s -> appends_at proj m s.
Proof. intros [tail H]. exists (req :: tail). exact H. Qed.

Lemma starts_bind {A B} (req : Request) (m : M S A) (k : A -> M S B) (s : S) :
  starts_at proj req m s -> (forall a, appends proj (k a)) -> starts_at proj req (bind m k) s.
Proof.
  intros [t1 H1] Hk. unfold starts_at, bind.
  destruct (m s) as [[a|e] s1]; cbn [snd] in H1.
  - destruct (Hk a s1) as [t2 H2]. exists (t1 ++ t2).
    rewrite H2, H1. rewrite <- app_assoc. reflexivity.
  - exists t1. exact H1.
Qed.

Lemma starts_try {A} (req : Request) (m : M S A) (h : exn -> M S A) (s : S) :
  starts_at proj req m s -> (forall e, appends proj (h e)) -> starts_at proj req (try_except m h) s.
Proof.
  intros [t1 H1] Hh. unfold starts_at, try_except.
  destruct (m s) as [[a|e] s1]; cbn [snd] in H1.
  - exists t1. exact H1.
  - destruct (Hh e s1) as [t2 H2]. exists (t1 ++ t2).
    rewrite H2, H1. rewrite <- app_assoc. reflexivity.
Qed.

End Appends.

Section GatewayAppends.
Import Client.
Variable P : Platform.
Variable remote : Remote.

Lemma send_starts (req : Request) (w : Process) :
  starts_at sent req (send remote req) w.
Proof. exists []. reflexivity. Qed.

Lemma appends_console_print (x : printed) : appends sent (console_print x).
Proof. intros w. exists []. cbn. symmetry. apply app_nil_r. Qed.

Lemma appends_handle_error (response : Response) :
  appends sent (_handle_error P response).
Proof.
  unfold _handle_error. destruct (content response); [|apply appends_raise].
  repeat match goal with
         | |- context [if ?b then _ else _] => destruct b
         end; apply appends_ret.
Qed.

Lemma appends_fail_request (response : Response) :
  appends sent (fail_request P response).
Proof.
  unfold fail_request. apply appends_bind; [apply appends_handle_error|].
  intros panel. apply appends_bind; [apply appends_console_print|].
  intros _. apply appends_raise.
Qed.

Lemma appends_response_json (response : Response) :
  appends sent (response_json P response).
Proof.
  unfold response_json. destruct (content response); [|apply appends_raise].
  destruct (json_loads P s); [apply appends_ret | apply appends_raise].
Qed.

(** Each request method sends its request first and nothing before it. *)
Lemma run_starts (self : SelfLayerAPIClient) (c : request_call) (w : Process) :
  starts_at sent (request_of self c) (run P remote self c) w.
Proof.
  unfold starts_at. rewrite run_sends.
  apply (starts_bind sent); [apply send_starts|].
  intros [status text| |e]; try apply appends_raise.
  cbv zeta. destruct (negb _); [apply appends_fail_request|].
  destruct (is_delete c && _); [apply appends_ret | apply appends_response_json].
Qed.

Lemma appends_run (self : SelfLayerAPIClient) (c : request_call) :
  appends sent (run P remote self c).
Proof. intros w. eapply starts_appends, run_starts. Qed.

Lemma appends_list_or_member (key : string) (response : json) :
  appends sent (list_or_member key response).
Proof.
  unfold list_or_member.
  destruct response; try apply appends_raise; apply appends_ret.
Qed.

Lemma appends_list_documents (self : SelfLayerAPIClient) :
  appends sent (list_documents P remote self).
Proof.
  unfold list_documents. apply appends_bind.
  - apply (appends_run self (Get "documents/" None)).
  - intros r. apply appends_list_or_member.
Qed.

Lemma appends_list_notes (self : SelfLayerAPIClient) :
  appends sent (list_notes P remote self).
Proof.
  unfold list_notes. apply appends_bind.
  - apply (appends_run self (Get "notes/" None)).
  - intros r. apply appends_list_or_member.
Qed.

End GatewayAppends.

(** ** [models.py] and [tui.py]: items by index *)

Section ByIndex.
Import Models.
Context {A : Type} (id_of : A -> string).

(** Looking up an index of a rebuilt listing: inside [1 .. N] it gives the
    first cached item that bears the recorded identifier, provided that
    identifier is not empty; outside it gives nothing. *)
Lemma by_index_rebuilt (items : list A) :
  (forall (i : nat) a, items !! i = Some a -> id_of a <> EmptyString ->
     exists d, by_index id_of (index_of id_of items) items (Z.of_nat i + 1) = Some d
               /\ id_of d = id_of a /\ In d items)
  /\ (forall k, ~ 1 <= k <= Z.of_nat (length items) ->
     by_index id_of (index_of id_of items) items k = None).
Proof.
  split.
  - intros i a Hi Hne. unfold by_index. rewrite (index_of_at id_of items i a Hi).
    destruct (id_of a) as [|c r] eqn:E; [congruence|]. cbn [PyStr.truthy].
    destruct (List.find (fun x => String.eqb (id_of x) (String c r)) items) as [d|] eqn:F.
    + exists d. apply find_some in F. destruct F as [Hin Heq].
      apply String.eqb_eq in Heq. auto.
    + exfalso.
      assert (Hin : In a items) by (apply list_elem_of_In, list_elem_of_lookup; eauto).
      pose proof (find_none _ _ F a Hin) as Hf. cbn beta in Hf.
      rewrite E, String.eqb_refl in Hf. discriminate Hf.
  - intros k Hk. unfold by_index. rewrite index_of_lookup.
    rewrite decide_False by exact Hk. reflexivity.
Qed.

(** An empty identifier is never found, listed or not. *)
Lemma by_index_empty_id (index : gmap Z string) (items : list A) (k : Z) :
  index !! k = Some EmptyString -> by_index id_of index items k = None.
Proof. intros H. unfold by_index. rewrite H. reflexivity. Qed.

End ByIndex.

Section IndexCommands.
Import Models Client Tui Renderers.
Variable P : Platform.
Variable remote : Remote.
Variable answer : string -> bool.
Context `{MD : Model Document.t, MN : Model Note.t}.

Lemma appends_say (x : printed) : appends requests (say x).
Proof. intros self. exists []. cbn. symmetry. apply app_nil_r. Qed.

Lemma appends_in_state {A} (m : M AppState A) : appends requests (in_state m).
Proof.
  intros self. exists []. unfold in_state, requests.
  destruct (m (app_state self)). cbn. symmetry. apply app_nil_r.
Qed.

Lemma appends_in_process {A} (m : M Process A) :
  appends sent m -> appends requests (in_process m).
Proof.
  intros Hm self. destruct (Hm (process self)) as [tail H]. exists tail.
  unfold in_process, requests. destruct (m (process self)). exact H.
Qed.

Lemma starts_in_process {A} (req : Request) (m : M Process A) (self : SelfLayerCLI) :
  starts_at sent req m (process self) -> starts_at requests req (in_process m) self.
Proof.
  intros [tail H]. exists tail.
  unfold in_process, requests. destruct (m (process self)). exact H.
Qed.

Lemma appends_on_client {A} (name : string) (m : SelfLayerAPIClient -> M Process A) :
  (forall c, appends sent (m c)) -> appends requests (on_client name m).
Proof.
  intros Hm. unfold on_client. apply appends_bind; [apply appends_get_self|].
  intros self. destruct (client self); [apply appends_in_process, Hm | apply appends_raise].
Qed.

Lemma starts_on_client {A} (req : Request) (name : string)
    (m : SelfLayerAPIClient -> M Process A) (self : SelfLayerCLI) (c : SelfLayerAPIClient) :
  client self = Some c ->
  starts_at sent req (m c) (process self) ->
  starts_at requests req (on_client name m) self.
Proof.
  intros Hc Hm. unfold on_client, starts_at, bind, get_self. rewrite Hc.
  apply starts_in_process, Hm.
Qed.

Lemma appends_list_documents_cmd : appends requests (_list_documents P remote).
Proof.
  unfold _list_documents. apply appends_bind; [|intros _; apply appends_say].
  apply appends_try; [|intros e; apply appends_say].
  apply appends_bind.
  - apply appends_on_client. intros c. apply appends_list_documents.
  - intros data. apply appends_bind; [apply appends_in_state|].
    intros _. apply appends_bind; [apply appends_get_self|].
    intros self. apply appends_say.
Qed.

Lemma appends_list_notes_cmd : appends requests (_list_notes P remote).
Proof.
  unfold _list_notes. apply appends_bind; [|intros _; apply appends_say].
  apply appends_try; [|intros e; apply appends_say].
  apply appends_bind.
  - apply appends_on_client. intros c. apply appends_list_notes.
  - intros data. apply appends_bind; [apply appends_in_state|].
    intros _. apply appends_bind; [apply appends_get_self|].
    intros self. apply appends_say.
Qed.

(** A refresh leaves the cache and the index built from it. *)
Lemma refreshed_documents (data : json) (st st' : AppState) :
  update_documents data st = (Return tt, st') ->
  document_index st' = index_of Document.id (documents st').
Proof.
  unfold update_documents, bind. destruct (iterate data st) as [[items|e] s0]; [|discriminate].
  destruct (construct_all items s0) as [[docs|e] s1]; [|discriminate].
  unfold get_self, put_self. intros [= <-]. reflexivity.
Qed.

Lemma refreshed_notes (data : json) (st st' : AppState) :
  update_notes data st = (Return tt, st') ->
  note_index st' = index_of Note.id (notes st').
Proof.
  unfold update_notes, bind. destruct (iterate data st) as [[items|e] s0]; [|discriminate].
  destruct (construct_all items s0) as [[l|e] s1]; [|discriminate].
  unfold get_self, put_self. intros [= <-]. reflexivity.
Qed.

(** The commands on a document whose lookup succeeds. *)
Lemma document_commands_found (self : SelfLayerCLI) (k : Z) (d : Document.t) :
  get_document_by_index (app_state self) k = Some d ->
  _view_document k self
  = (Return tt, printing PBlank (printing (PDocumentCard d (Some k)) self))
  /\ (forall c index_str,
        client self = Some c -> PyStr.int index_str = Some k ->
        (forall q, answer q = true) ->
        starts_at requests (request_of c (Delete ("documents/" +:+ Document.id d)))
          (_delete_document P remote answer index_str) self).
Proof.
  intros Hd. split.
  - unfold _view_document, bind, get_self. rewrite Hd. reflexivity.
  - intros c index_str Hc Hint Hyes.
    unfold _delete_document. rewrite Hint.
    unfold starts_at, bind at 1, get_self. rewrite Hd.
    unfold bind at 1, confirm, bind at 1, say, print, ret. rewrite Hyes. cbn [negb].
    match goal with
    | |- context [try_except ?m ?h ?s1] =>
        destruct (starts_try requests
                    (request_of c (Delete ("documents/" +:+ Document.id d))) m h s1)
          as [tail Ht]
    end.
    + apply starts_bind.
      * apply (starts_on_client _ _ _ _ c); [exact Hc|].
        apply (run_starts P remote c (Delete ("documents/" +:+ Document.id d))).
      * intros _. apply appends_bind; [apply appends_say|].
        intros _. apply appends_list_documents_cmd.
    + intros e. apply appends_say.
    + exists tail. rewrite Ht. reflexivity.
Qed.

(** The commands on a document whose lookup fails. *)
Lemma document_commands_missing (self : SelfLayerCLI) (k : Z) :
  get_document_by_index (app_state self) k = None ->
  _view_document k self
  = (Return tt, printing (not_found "Document" k "Use /d to list documents.") self)
  /\ (forall index_str, PyStr.int index_str = Some k ->
        _delete_document P remote answer index_str self
        = (Return tt, printing (not_found "Document" k "Use /d to list documents.") self)).
Proof.
  intros Hd. split.
  - unfold _view_document, bind, get_self. rewrite Hd. reflexivity.
  - intros index_str Hint. unfold _delete_document. rewrite Hint.
    unfold bind, get_self. rewrite Hd. reflexivity.
Qed.

Lemma note_commands_found (self : SelfLayerCLI) (k : Z) (n : Note.t) :
  get_note_by_index (app_state self) k = Some n ->
  _view_note k self
  = (Return tt, printing PBlank (printing (PNoteCard n (Some k)) self))
  /\ (forall c index_str new_content,
        client self = Some c -> PyStr.int index_str = Some k ->
        starts_at requests
          (request_of c (Put ("notes/" +:+ Note.id n) (Some (content_body new_content))))
          (_edit_note P remote index_str new_content) self)
  /\ (forall c index_str,
        client self = Some c -> PyStr.int index_str = Some k ->
        (forall q, answer q = true) ->
        starts_at requests (request_of c (Delete ("notes/" +:+ Note.id n)))
          (_delete_note P remote answer index_str) self).
Proof.
  intros Hn. split; [|split].
  - unfold _view_note, bind, get_self. rewrite Hn. reflexivity.
  - intros c index_str new_content Hc Hint.
    unfold _edit_note. rewrite Hint.
    unfold starts_at, bind at 1, get_self. rewrite Hn. cbv zeta.
    apply starts_try; [|intros e; apply appends_say].
    apply starts_bind.
    + apply (starts_on_client _ _ _ _ c); [exact Hc|].
      assert (Heq : update_note P remote c (Note.id n) None
                      (Some (PyStr.strip_set quotes new_content))
                    = run P remote c
                        (Put ("notes/" +:+ Note.id n) (Some (content_body new_content)))).
      { unfold update_note, content_body. cbn [run].
        destruct (PyStr.truthy (PyStr.strip_set quotes new_content)); reflexivity. }
      rewrite Heq. apply run_starts.
    + intros _. apply appends_bind; [apply appends_say|].
      intros _. apply appends_list_notes_cmd.
  - intros c index_str Hc Hint Hyes.
    unfold _delete_note. rewrite Hint.
    unfold starts_at, bind at 1, get_self. rewrite Hn.
    unfold bind at 1, confirm, bind at 1, say, print, ret. rewrite Hyes. cbn [negb].
    match goal with
    | |- context [try_except ?m ?h ?s1] =>
        destruct (starts_try requests
                    (request_of c (Delete ("notes/" +:+ Note.id n))) m h s1)
          as [tail Ht]
    end.
    + apply starts_bind.
      * apply (starts_on_client _ _ _ _ c); [exact Hc|].
        apply (run_starts P remote c (Delete ("notes/" +:+ Note.id n))).
      * intros _. apply appends_bind; [apply appends_say|].
        intros _. apply appends_list_notes_cmd.
    + intros e. apply appends_say.
    + exists tail. rewrite Ht. reflexivity.
Qed.

Lemma note_commands_missing (self : SelfLayerCLI) (k : Z) :
  get_note_by_index (app_state self) k = None ->
  _view_note k self
  = (Return tt, printing (not_found "Note" k "Use /n to list notes.") self)
  /\ (forall index_str new_content, PyStr.int index_str = Some k ->
        _edit_note P remote index_str new_content self
        = (Return tt, printing (not_found "Note" k "Use /n to list notes.") self))
  /\ (forall index_str, PyStr.int index_str = Some k ->
        _delete_note P remote answer index_str self
        = (Return tt, printing (not_found "Note" k "Use /n to list notes.") self)).
Proof.
  intros Hn. split; [|split].
  - unfold _view_note, bind, get_self. rewrite Hn. reflexivity.
  - intros index_str new_content Hint. unfold _edit_note. rewrite Hint.
    unfold bind, get_self. rewrite Hn. reflexivity.
  - intros index_str Hint. unfold _delete_note. rewrite Hint.
    unfold bind, get_self. rewrite Hn. reflexivity.
Qed.


End IndexCommands.

Section IndexCommandsWitnesses.
Import Models Client Tui.
#[local] Existing Instances Strict.document_model Strict.note_model.



Example delete_after_listing :
  screen (process (snd (_delete_document reference_platform no_content always_yes "1"
                          documents_listed)))
  = [PConfirm "Delete document 'Plan Q3'?";
     PPanel (Renderers.render_success_panel
               "Document 'Plan Q3' deleted successfully." "Deleted");
     PDocumentsList [];
     PBlank]
  /\ map url (requests (snd (_delete_document reference_platform no_content always_yes
                               "1" documents_listed)))
  = ["http://localhost:8001/api/v1/documents/doc-a";
     "http://localhost:8001/api/v1/documents/"].
Proof. vm_compute. split; reflexivity. Qed.

End IndexCommandsWitnesses.

(** * Further properties *)

(** ** Trimming *)

Section StripFacts.

Lemma rev_app_chars (s1 s2 : string) :
  list_ascii_of_string (String.rev_app s1 s2)
  = List.rev (list_ascii_of_string s1) ++ list_ascii_of_string s2.
Proof.
  revert s2; induction s1 as [|a s1 IH]; intros s2; [reflexivity|].
  cbn [String.rev_app list_ascii_of_string List.rev]. rewrite IH.
  cbn [list_ascii_of_string]. rewrite <- app_assoc. reflexivity.
Qed.

Lemma rev_chars (s : string) :
  list_ascii_of_string (String.rev s) = List.rev (list_ascii_of_string s).
Proof. unfold String.rev. rewrite rev_app_chars. apply app_nil_r. Qed.

Lemma lstrip_chars (s : string) :
  list_ascii_of_string (PyStr.lstrip s) = lskip (list_ascii_of_string s).
Proof.
  induction s as [|c s IH]; [reflexivity|].
  cbn [PyStr.lstrip list_ascii_of_string lskip].
  destruct (PyStr.isspace c); [exact IH | reflexivity].
Qed.

Lemma chars_inj (s t : string) :
  list_ascii_of_string s = list_ascii_of_string t -> s = t.
Proof.
  intros H. rewrite <- (string_of_list_ascii_of_string s),
    <- (string_of_list_ascii_of_string t), H. reflexivity.
Qed.

Lemma strip_chars (s : string) :
  list_ascii_of_string (PyStr.strip s)
  = List.rev (lskip (List.rev (lskip (list_ascii_of_string s)))).
Proof.
  unfold PyStr.strip, PyStr.rstrip.
  rewrite rev_chars, lstrip_chars, rev_chars, lstrip_chars. reflexivity.
Qed.

Lemma lskip_head (l : list ascii) (c : ascii) (r : list ascii) :
  lskip l = c :: r -> PyStr.isspace c = false.
Proof.
  induction l as [|a l IH]; [discriminate|]. cbn [lskip].
  destruct (PyStr.isspace a) eqn:E; [exact IH|]. intros [= <- _]. exact E.
Qed.

Lemma lskip_fixed (c : ascii) (r : list ascii) :
  PyStr.isspace c = false -> lskip (c :: r) = c :: r.
Proof. intros H. cbn [lskip]. rewrite H. reflexivity. Qed.

Lemma lskip_suffix (l : list ascii) :
  exists blanks, l = blanks ++ lskip l /\ forallb PyStr.isspace blanks = true.
Proof.
  induction l as [|a l (b & Hb & Hs)]; [exists []; split; reflexivity|].
  cbn [lskip]. destruct (PyStr.isspace a) eqn:E.
  - exists (a :: b). split; [cbn; f_equal; exact Hb | cbn; rewrite E; exact Hs].
  - exists []. split; reflexivity.
Qed.

Lemma lskip_idem (l : list ascii) : lskip (lskip l) = lskip l.
Proof.
  destruct (lskip l) as [|c r] eqn:E; [reflexivity|].
  apply lskip_fixed. exact (lskip_head l c r E).
Qed.

(** Trimming the end of a text that does not start with a blank leaves a
    text that does not start with a blank. *)
Lemma rskip_keeps_head (t : list ascii) :
  lskip t = t -> lskip (List.rev (lskip (List.rev t))) = List.rev (lskip (List.rev t)).
Proof.
  intros Ht. destruct (lskip_suffix (List.rev t)) as (b & Hb & _).
  assert (Hdec : t = List.rev (lskip (List.rev t)) ++ List.rev b).
  { rewrite <- rev_app_distr, <- Hb. symmetry. apply rev_involutive. }
  destruct (List.rev (lskip (List.rev t))) as [|c r] eqn:E; [reflexivity|].
  apply lskip_fixed. rewrite Hdec in Ht. cbn [app] in Ht.
  exact (lskip_head _ _ _ Ht).
Qed.

(** [strip] is idempotent. *)
Lemma strip_idem (s : string) : PyStr.strip (PyStr.strip s) = PyStr.strip s.
Proof.
  apply chars_inj. rewrite (strip_chars (PyStr.strip s)), strip_chars.
  set (t := lskip (list_ascii_of_string s)).
  assert (Ht : lskip t = t) by apply lskip_idem.
  rewrite (rskip_keeps_head t Ht). rewrite rev_involutive, lskip_idem. reflexivity.
Qed.

(** A trimmed text has no blank at either end. *)
Lemma strip_ends (s : string) (c : ascii) (r : list ascii) :
  (list_ascii_of_string (PyStr.strip s) = c :: r -> PyStr.isspace c = false)
  /\ (list_ascii_of_string (PyStr.strip s) = r ++ [c] -> PyStr.isspace c = false).
Proof.
  set (t := lskip (list_ascii_of_string s)).
  assert (Ht : lskip t = t) by apply lskip_idem.
  split; intros H.
  - pose proof (rskip_keeps_head t Ht) as Hk.
    rewrite strip_chars in H. fold t in H. rewrite H in Hk.
    exact (lskip_head _ _ _ Hk).
  - rewrite strip_chars in H. fold t in H.
    apply (f_equal (@List.rev ascii)) in H.
    rewrite rev_involutive, rev_app_distr in H. cbn [List.rev app] in H.
    exact (lskip_head _ _ _ H).
Qed.

End StripFacts.

(** ** [config.py]: saving, loading and the key *)

Section ConfigProperties.
Import Config.

Lemma strip_empty : PyStr.strip EmptyString = EmptyString.
Proof. reflexivity. Qed.

Lemma accepted_key_truthy (key : string) :
  key_accepted key = true ->
  PyStr.truthy key = true /\ PyStr.truthy (PyStr.strip key) = true.
Proof.
  unfold key_accepted. intros H.
  assert (Hs : PyStr.truthy (PyStr.strip key) = true).
  { destruct (PyStr.strip key); [discriminate H | reflexivity]. }
  split; [|exact Hs]. destruct key; [discriminate Hs | reflexivity].
Qed.

Lemma set_api_key_accepts (key : string) (self : SelfLayerConfig) :
  key_accepted key = true ->
  set_api_key key self = (Return tt, with_api_key (Some (PyStr.strip key)) self).
Proof.
  intros H. destruct (accepted_key_truthy key H) as [H1 H2].
  unfold set_api_key. rewrite H1, H2. cbn [negb orb].
  unfold key_accepted in H. rewrite H. reflexivity.
Qed.

(** What [model_dump] writes, the validator reads back. *)
Lemma validate_model_dump (c : SelfLayerConfig) :
  exists d, model_dump c = JObj d /\ validate d = Some c
            /\ dict_contains "created_at" d = true
            /\ dict_contains "gemini_api_key" d = false.
Proof.
  destruct c as [[k|] u l [cr|] [up|]]; eexists; repeat split; reflexivity.
Qed.

Lemma read_saved (now : string) (c : SelfLayerConfig) :
  read_config now (Holds (model_dump c)) = Some c.
Proof.
  destruct (validate_model_dump c) as (d & -> & Hv & Hc & Hg).
  unfold read_config. rewrite Hc. cbn [negb]. rewrite Hg. cbn [andb]. exact Hv.
Qed.

Lemma load_saved (now : string) (c : SelfLayerConfig) (env : gmap string string) :
  get_config now (mkWorld None (saved c) env) = (Return c, mkWorld (Some c) (saved c) env).
Proof.
  unfold get_config, load_config. cbn [_config storage file saved].
  rewrite read_saved. reflexivity.
Qed.

(** X1. A successful save survives a restart: with a configuration in
    memory and a writable file, [save_config] returns [True], stamps
    [updated_at], and a new manager that loads the file gets back exactly
    the configuration that was saved, whenever it loads it. *)
Theorem saved_config_survives_restart (now later : string) (w : World)
    (c : SelfLayerConfig) :
  _config w = Some c ->
  writable (storage w) = true ->
  let c' := with_updated_at (Some now) c in
  save_config now None w = (Return true, mkWorld (Some c') (saved c') (environ w))
  /\ get_config later (restarted (snd (save_config now None w)))
     = (Return c', mkWorld (Some c') (saved c') (environ w)).
Proof.
  intros Hc Hw c'.
  assert (Hs : save_config now None w
               = (Return true, mkWorld (Some c') (saved c') (environ w))).
  { unfold save_config. rewrite Hc. cbn [with_config storage _config]. rewrite Hw.
    reflexivity. }
  split; [exact Hs|]. rewrite Hs. apply load_saved.
Qed.

Lemma saved_config_survives_restart_witness :
  fst (save_config "2024-05-01T10:00:00" None loaded_world) = Return true
  /\ fst (get_config "2024-06-01T00:00:00"
            (restarted (snd (save_config "2024-05-01T10:00:00" None loaded_world))))
     = Return (mkConfig (Some "sl_live_old_key") "https://api.selflayer.com/api/v1"
                 "DEBUG" (Some "2023-12-31T00:00:00") (Some "2024-05-01T10:00:00")).
Proof.
  destruct (saved_config_survives_restart "2024-05-01T10:00:00" "2024-06-01T00:00:00"
              loaded_world _ eq_refl eq_refl) as [Hs Hl].
  cbv zeta in Hs, Hl. rewrite Hl, Hs. split; reflexivity.
Defined.

End ConfigProperties.

Section ConfigProperties2.
Import Config.

Lemma dict_get_set_eq (k : string) (v : json) (d : Json.dict) :
  dict_get k (dict_set k v d) = Some v.
Proof.
  induction d as [|[k' v'] d IH]; cbn [dict_set dict_get].
  - rewrite String.eqb_refl. reflexivity.
  - destruct (String.eqb k k') eqn:E; cbn [dict_get].
    + rewrite String.eqb_refl. reflexivity.
    + rewrite E. exact IH.
Qed.

Lemma dict_get_set_ne (k k' : string) (v : json) (d : Json.dict) :
  k <> k' -> dict_get k (dict_set k' v d) = dict_get k d.
Proof.
  intros Hne. induction d as [|[k0 v0] d IH]; cbn [dict_set dict_get].
  - destruct (String.eqb_spec k k'); [contradiction | reflexivity].
  - destruct (String.eqb_spec k' k0) as [->|Hk0]; cbn [dict_get].
    + destruct (String.eqb_spec k k0); [contradiction | reflexivity].
    + destruct (String.eqb k k0); [reflexivity | exact IH].
Qed.

Lemma dict_get_remove_ne (k k' : string) (d : Json.dict) :
  k <> k' -> dict_get k (dict_remove k' d) = dict_get k d.
Proof.
  intros Hne. induction d as [|[k0 v0] d IH]; cbn [dict_remove dict_get]; [reflexivity|].
  destruct (String.eqb_spec k' k0) as [->|Hk0]; cbn [dict_get].
  - destruct (String.eqb_spec k k0); [contradiction | reflexivity].
  - destruct (String.eqb k k0); [reflexivity | exact IH].
Qed.

(** The validator looks at nothing but the five fields. *)
Lemma validate_ext (d d' : Json.dict) :
  (forall k, k ∈ ["api_key"; "base_url"; "log_level"; "created_at"; "updated_at"] ->
             dict_get k d = dict_get k d') ->
  validate d = validate d'.
Proof.
  intros H. unfold validate, opt_str_field, str_field.
  rewrite !(H _) by (repeat constructor). reflexivity.
Qed.

Lemma accepted_key_update (now key : string) (w : World) :
  key_accepted key = true ->
  exists c,
    get_config now w = (Return c, with_config (Some c) w)
    /\ (forall c0, _config w = Some c0 -> c = c0)
    /\ let c' := with_updated_at (Some now) (with_api_key (Some (PyStr.strip key)) c) in
       update_api_key now key w
       = if writable (storage w)
         then (Return true, mkWorld (Some c') (saved c') (environ w))
         else (Return false, mkWorld (Some c') (storage w) (environ w)).
Proof.
  intros Hk. destruct (get_config_spec now w) as (c & Hget & Hsame).
  exists c. split; [exact Hget|]. split; [exact Hsame|]. cbv zeta.
  unfold update_api_key, try_except, bind. rewrite Hget.
  unfold on_config. rewrite (set_api_key_accepts key c Hk). cbn [snd].
  unfold save_config. cbn [with_config storage _config environ].
  destruct (writable (storage w)); reflexivity.
Qed.

Lemma stripped_key_present (key : string) :
  key_accepted key = true ->
  (0 <? PyStr.len (PyStr.strip (PyStr.strip key))) = true.
Proof.
  intros Hk. destruct (accepted_key_truthy key Hk) as [_ Ht].
  rewrite strip_idem. destruct (PyStr.strip key); [discriminate Ht | reflexivity].
Qed.

(** X2. An accepted key is stored trimmed and persisted: on a writable
    file [update_api_key] returns [True], the manager then holds the
    trimmed key, [has_api_key] is true, and after a restart the stored and
    (with no environment override) the effective key are that key. *)
Theorem accepted_key_is_persisted (now later key : string) (w : World) :
  key_accepted key = true ->
  writable (storage w) = true ->
  fst (update_api_key now key w) = Return true
  /\ fst (get_api_key later (snd (update_api_key now key w)))
     = Return (Some (PyStr.strip key))
  /\ fst (manager_has_api_key later (snd (update_api_key now key w))) = Return true
  /\ fst (get_api_key later (restarted (snd (update_api_key now key w))))
     = Return (Some (PyStr.strip key))
  /\ (environ w !! "SELFLAYER_API_KEY" = None ->
      fst (get_effective_api_key later (restarted (snd (update_api_key now key w))))
      = Return (Some (PyStr.strip key))).
Proof.
  intros Hk Hw. destruct (accepted_key_update now key w Hk) as (c & _ & _ & Hu).
  cbv zeta in Hu. rewrite Hw in Hu. rewrite Hu. cbn [fst snd].
  split; [reflexivity|]. split; [reflexivity|]. split.
  - unfold manager_has_api_key, bind, get_config. cbn [_config ret fst].
    unfold has_api_key. cbn [api_key with_updated_at with_api_key].
    rewrite (stripped_key_present key Hk). reflexivity.
  - assert (Hre : get_api_key later
                    (restarted (mkWorld (Some (with_updated_at (Some now)
                                  (with_api_key (Some (PyStr.strip key)) c)))
                       (saved (with_updated_at (Some now)
                                  (with_api_key (Some (PyStr.strip key)) c)))
                       (environ w)))
                  = (Return (Some (PyStr.strip key)),
                     mkWorld (Some (with_updated_at (Some now)
                                  (with_api_key (Some (PyStr.strip key)) c)))
                       (saved (with_updated_at (Some now)
                                  (with_api_key (Some (PyStr.strip key)) c)))
                       (environ w))).
    { unfold get_api_key, bind, restarted, with_config. cbn [storage environ].
      rewrite load_saved. reflexivity. }
    split; [rewrite Hre; reflexivity|].
    intros Henv. unfold get_effective_api_key, bind at 1, getenv.
    cbn [restarted with_config environ]. rewrite Henv.
    fold (restarted (mkWorld (Some (with_updated_at (Some now)
                                  (with_api_key (Some (PyStr.strip key)) c)))
                       (saved (with_updated_at (Some now)
                                  (with_api_key (Some (PyStr.strip key)) c)))
                       (environ w))).
    unfold restarted, with_config. cbn [storage environ].
    unfold get_api_key, bind. rewrite load_saved. reflexivity.
Qed.

Lemma accepted_key_is_persisted_witness :
  fst (update_api_key "t0" "  sl_test_new " loaded_world) = Return true
  /\ fst (get_effective_api_key "t1"
            (restarted (snd (update_api_key "t0" "  sl_test_new " loaded_world))))
     = Return (Some "sl_test_new").
Proof.
  destruct (accepted_key_is_persisted "t0" "t1" "  sl_test_new " loaded_world
              eq_refl eq_refl) as (H1 & _ & _ & _ & H5).
  split; [exact H1 | exact (H5 eq_refl)].
Defined.

(** X3. When the file cannot be written, an accepted key is kept in memory
    only: [update_api_key] returns [False] and leaves the file as it was,
    yet the running manager now holds the new key, while a restarted one
    still reads what the file held. *)
Theorem unsaved_key_stays_in_memory (now later key : string) (w : World) :
  key_accepted key = true ->
  writable (storage w) = false ->
  fst (update_api_key now key w) = Return false
  /\ storage (snd (update_api_key now key w)) = storage w
  /\ fst (get_api_key later (snd (update_api_key now key w)))
     = Return (Some (PyStr.strip key))
  /\ get_api_key later (restarted (snd (update_api_key now key w)))
     = get_api_key later (restarted w).
Proof.
  intros Hk Hw. destruct (accepted_key_update now key w Hk) as (c & _ & _ & Hu).
  cbv zeta in Hu. rewrite Hw in Hu. rewrite Hu. cbn [fst snd storage].
  repeat split.
Qed.

Lemma unsaved_key_stays_in_memory_witness :
  fst (update_api_key "t0" "sl_live_new_key" read_only_world) = Return false
  /\ fst (get_api_key "t1" (snd (update_api_key "t0" "sl_live_new_key" read_only_world)))
     = Return (Some "sl_live_new_key")
  /\ fst (get_api_key "t1"
            (restarted (snd (update_api_key "t0" "sl_live_new_key" read_only_world))))
     = Return (Some "sl_live_old_key").
Proof.
  destruct (unsaved_key_stays_in_memory "t0" "t1" "sl_live_new_key" read_only_world
              eq_refl eq_refl) as (H1 & _ & H3 & H4).
  split; [exact H1|]. split; [exact H3|]. rewrite H4. reflexivity.
Defined.

End ConfigProperties2.

Section ConfigProperties3.
Import Config.

Lemma clear_update (now : string) (w : World) :
  exists c,
    get_config now w = (Return c, with_config (Some c) w)
    /\ let c' := with_updated_at (Some now) (with_api_key None c) in
       manager_clear_api_key now w
       = if writable (storage w)
         then (Return true, mkWorld (Some c') (saved c') (environ w))
         else (Return false, mkWorld (Some c') (storage w) (environ w)).
Proof.
  destruct (get_config_spec now w) as (c & Hget & _).
  exists c. split; [exact Hget|]. cbv zeta.
  unfold manager_clear_api_key, try_except, bind. rewrite Hget.
  unfold on_config, clear_api_key, bind, get_self, put_self. cbn [snd].
  unfold save_config. cbn [with_config storage _config environ].
  destruct (writable (storage w)); reflexivity.
Qed.

(** X4. Clearing the key on a writable file returns [True] and removes the
    key for good: the manager holds none, [has_api_key] is false, a
    restarted manager reads none, and the other settings are kept; an
    environment key, when set, is still the effective one. *)
Theorem cleared_key_is_gone (now later : string) (w : World) :
  writable (storage w) = true ->
  fst (manager_clear_api_key now w) = Return true
  /\ fst (get_api_key later (snd (manager_clear_api_key now w))) = Return None
  /\ fst (manager_has_api_key later (snd (manager_clear_api_key now w))) = Return false
  /\ fst (get_api_key later (restarted (snd (manager_clear_api_key now w))))
     = Return None
  /\ (exists c,
        fst (get_config now w) = Return c
        /\ fst (get_config later (restarted (snd (manager_clear_api_key now w))))
           = Return (mkConfig None (base_url c) (log_level c) (created_at c) (Some now)))
  /\ (forall v, environ w !! "SELFLAYER_API_KEY" = Some v -> v <> EmptyString ->
        fst (get_effective_api_key later (snd (manager_clear_api_key now w)))
        = Return (Some (PyStr.strip v))).
Proof.
  intros Hw. destruct (clear_update now w) as (c & Hget & Hc).
  cbv zeta in Hc. rewrite Hw in Hc. rewrite Hc. cbn [fst snd].
  split; [reflexivity|]. split; [reflexivity|]. split; [reflexivity|].
  assert (Hre : forall A (f : SelfLayerConfig -> A),
            fst (bind (get_config later) (fun x => ret (f x))
                   (restarted (mkWorld
                      (Some (with_updated_at (Some now) (with_api_key None c)))
                      (saved (with_updated_at (Some now) (with_api_key None c)))
                      (environ w))))
            = Return (f (with_updated_at (Some now) (with_api_key None c)))).
  { intros A f. unfold bind, restarted, with_config. cbn [storage environ].
    rewrite load_saved. reflexivity. }
  split; [exact (Hre _ api_key)|]. split.
  - exists c. rewrite Hget. split; [reflexivity|].
    unfold restarted, with_config. cbn [storage environ]. rewrite load_saved.
    reflexivity.
  - intros v Hv Hne. unfold get_effective_api_key, bind, getenv. cbn [environ].
    rewrite Hv. destruct v; [congruence | reflexivity].
Qed.

Lemma cleared_key_is_gone_witness :
  fst (manager_clear_api_key "t0" loaded_world) = Return true
  /\ fst (get_config "t1" (restarted (snd (manager_clear_api_key "t0" loaded_world))))
     = Return (mkConfig None "https://api.selflayer.com/api/v1" "DEBUG"
                 (Some "2023-12-31T00:00:00") (Some "t0"))
  /\ fst (get_effective_api_key "t1"
            (snd (manager_clear_api_key "t0" sample_env_world)))
     = Return (Some "sl_live_from_env").
Proof.
  destruct (cleared_key_is_gone "t0" "t1" loaded_world eq_refl)
    as (H1 & _ & _ & _ & (c & Hc & Hr) & _).
  destruct (cleared_key_is_gone "t0" "t1" sample_env_world eq_refl)
    as (_ & _ & _ & _ & _ & He).
  split; [exact H1|]. split.
  - rewrite Hr. injection Hc as <-. reflexivity.
  - exact (He " sl_live_from_env " eq_refl ltac:(discriminate)).
Defined.

Lemma validate_bad_str (k : string) (v : json) (d : Json.dict) :
  k = "base_url" \/ k = "log_level" ->
  dict_get k d = Some v -> (forall s, v <> JStr s) ->
  validate d = None.
Proof.
  intros Hk Hv Hbad. unfold validate.
  destruct (opt_str_field "api_key" d); [|reflexivity]. cbn.
  assert (Hf : forall default, str_field k default d = None).
  { intros default. unfold str_field. rewrite Hv.
    destruct v; try reflexivity. exfalso. exact (Hbad _ eq_refl). }
  destruct Hk as [-> | ->].
  - rewrite Hf. reflexivity.
  - destruct (str_field "base_url" _ d); [|reflexivity]. cbn. rewrite Hf. reflexivity.
Qed.

(** The fields of a file as [load_config] hands them to the validator. *)
Lemma adjusted_fields (now : string) (d : Json.dict) :
  exists d',
    read_config now (Holds (JObj d)) = validate d'
    /\ (forall k, k <> "created_at" -> k <> "api_key" -> k <> "gemini_api_key" ->
          dict_get k d' = dict_get k d)
    /\ dict_get "created_at" d'
       = match dict_get "created_at" d with
         | Some v => Some v
         | None => Some (JStr now)
         end
    /\ dict_get "api_key" d'
       = match dict_get "api_key" d with
         | Some v => Some v
         | None => dict_get "gemini_api_key" d
         end.
Proof.
  unfold read_config.
  set (d1 := if negb (dict_contains "created_at" d)
             then dict_set "created_at" (JStr now) d else d).
  assert (H1 : (forall k, k <> "created_at" -> dict_get k d1 = dict_get k d)
               /\ dict_get "created_at" d1
                  = match dict_get "created_at" d with
                    | Some v => Some v
                    | None => Some (JStr now)
                    end).
  { subst d1. unfold dict_contains.
    destruct (dict_get "created_at" d) eqn:E; cbn [negb].
    - split; [reflexivity | exact E].
    - split; [intros k Hk; apply dict_get_set_ne; exact Hk | apply dict_get_set_eq]. }
  destruct H1 as [H1 H1c]. clearbody d1.
  cbv zeta. unfold dict_contains.
  rewrite !(H1 "gemini_api_key") by discriminate.
  rewrite !(H1 "api_key") by discriminate.
  destruct (dict_get "gemini_api_key" d) as [g|] eqn:Eg.
  - destruct (dict_get "api_key" d) as [a|] eqn:Ea; cbn [negb andb]; cbv iota.
    + exists d1. split; [reflexivity|]. split; [intros k Hc _ _; apply H1, Hc|].
      split; [exact H1c|]. rewrite (H1 "api_key") by discriminate. exact Ea.
    + exists (dict_set "api_key" g (dict_remove "gemini_api_key" d1)).
      split; [reflexivity|]. split; [|split].
      * intros k Hc Ha Hg. rewrite dict_get_set_ne by exact Ha.
        rewrite dict_get_remove_ne by exact Hg. apply H1, Hc.
      * rewrite dict_get_set_ne by discriminate.
        rewrite dict_get_remove_ne by discriminate. exact H1c.
      * apply dict_get_set_eq.
  - cbn [andb]. cbv iota. exists d1. split; [reflexivity|].
    split; [intros k Hc _ _; apply H1, Hc|]. split; [exact H1c|].
    rewrite (H1 "api_key") by discriminate. destruct (dict_get "api_key" d); reflexivity.
Qed.

(** X5. A file that cannot be used is replaced by the defaults, silently:
    when the file is not JSON, is JSON but not an object, or has a
    [base_url] or [log_level] that is not a string, loading gives the
    default configuration (so no key, whatever key the file held), and the
    next save on a writable file overwrites the file with it. *)
Theorem unusable_file_loads_defaults (now later : string) (w : World) :
  _config w = None ->
  file (storage w) = Unreadable
  \/ (exists v, file (storage w) = Holds v /\ forall d, v <> JObj d)
  \/ (exists d k v,
        file (storage w) = Holds (JObj d)
        /\ (k = "base_url" \/ k = "log_level")
        /\ dict_get k d = Some v /\ forall s, v <> JStr s) ->
  get_config now w
  = (Return (default_config (Some now)), with_config (Some (default_config (Some now))) w)
  /\ fst (get_api_key now w) = Return None
  /\ (writable (storage w) = true ->
      storage (snd (save_config later None (snd (get_config now w))))
      = saved (with_updated_at (Some later) (default_config (Some now)))).
Proof.
  intros Hc Hfile.
  assert (Hread : read_config now (file (storage w)) = None).
  { destruct Hfile as [-> | [(v & -> & Hv) | (d & k & v & -> & Hk & Hd & Hbad)]].
    - reflexivity.
    - destruct v; try reflexivity. exfalso. exact (Hv _ eq_refl).
    - destruct (adjusted_fields now d) as (d' & -> & Hsame & _).
      apply (validate_bad_str k v); [exact Hk | | exact Hbad].
      rewrite Hsame; [exact Hd | | |]; destruct Hk as [-> | ->]; discriminate. }
  assert (Hget : get_config now w
                 = (Return (default_config (Some now)),
                    with_config (Some (default_config (Some now))) w)).
  { unfold get_config, load_config. rewrite Hc, Hread. reflexivity. }
  split; [exact Hget|]. split.
  - unfold get_api_key, bind. rewrite Hget. reflexivity.
  - intros Hw. rewrite Hget. cbn [snd]. unfold save_config.
    cbn [with_config _config storage]. rewrite Hw. reflexivity.
Qed.

Lemma unusable_file_loads_defaults_witness :
  fst (get_api_key "t0" damaged_world) = Return None
  /\ file (storage (snd (save_config "t1" None (snd (get_config "t0" damaged_world)))))
     = Holds (JObj [("api_key", JNull);
                    ("base_url", JStr "https://api.selflayer.com/api/v1");
                    ("log_level", JStr "INFO");
                    ("created_at", JStr "t0");
                    ("updated_at", JStr "t1")]).
Proof.
  assert (Hbad : file (storage damaged_world) = Unreadable
            \/ (exists v, file (storage damaged_world) = Holds v /\ forall d, v <> JObj d)
            \/ (exists d k v,
                  file (storage damaged_world) = Holds (JObj d)
                  /\ (k = "base_url" \/ k = "log_level")
                  /\ dict_get k d = Some v /\ forall s, v <> JStr s)).
  { right. right. eexists. exists "base_url", (JInt 8001).
    split; [reflexivity|]. split; [left; reflexivity|].
    split; [reflexivity | discriminate]. }
  destruct (unusable_file_loads_defaults "t0" "t1" damaged_world eq_refl Hbad)
    as (_ & Hk & Hs).
  split; [exact Hk|]. rewrite (Hs eq_refl). reflexivity.
Defined.

Lemma validate_fields (d : Json.dict) (a c t : option string) (u l : string) :
  opt_str_field "api_key" d = Some a ->
  str_field "base_url" "https://api.selflayer.com/api/v1" d = Some u ->
  str_field "log_level" "INFO" d = Some l ->
  opt_str_field "created_at" d = Some c ->
  opt_str_field "updated_at" d = Some t ->
  validate d = Some (mkConfig a u l c t).
Proof. intros Ha Hu Hl Hc Ht. unfold validate. rewrite Ha, Hu, Hl, Hc, Ht. reflexivity. Qed.

(** A file whose other fields are typed loads, with the key that the
    adjusted fields hold. *)
Lemma typed_file_loads (now : string) (d : Json.dict) (key : string) :
  other_fields_typed d ->
  (dict_get "api_key" d = Some (JStr key)
   \/ (dict_get "api_key" d = None /\ dict_get "gemini_api_key" d = Some (JStr key))) ->
  exists c, read_config now (Holds (JObj d)) = Some c /\ api_key c = Some key.
Proof.
  intros (Hu & Hl & Hc & Ht) Hkey.
  destruct (adjusted_fields now d) as (d' & -> & Hsame & Hcr & Hak).
  destruct Hu as [u Hu], Hl as [l Hl], Ht as [t Ht].
  assert (Hc' : is_Some (opt_str_field "created_at" d')).
  { unfold opt_str_field in *. rewrite Hcr.
    destruct (dict_get "created_at" d); [exact Hc | eexists; reflexivity]. }
  destruct Hc' as [c Hc'].
  exists (mkConfig (Some key) u l c t). split; [|reflexivity].
  apply validate_fields.
  - unfold opt_str_field. rewrite Hak.
    destruct Hkey as [-> | [-> ->]]; reflexivity.
  - unfold str_field in *. rewrite Hsame by discriminate. exact Hu.
  - unfold str_field in *. rewrite Hsame by discriminate. exact Hl.
  - exact Hc'.
  - unfold opt_str_field in *. rewrite Hsame by discriminate. exact Ht.
Qed.

(** X6. The legacy key field is adopted, and only as a fallback: a file
    with [gemini_api_key] and no [api_key] loads with that key as its API
    key; a file that has an [api_key] loads with it, whatever
    [gemini_api_key] it also carries.  (The other fields are absent or of
    their declared type.) *)
Theorem legacy_key_is_adopted (now : string) (d : Json.dict) (key : string) :
  other_fields_typed d ->
  (dict_get "gemini_api_key" d = Some (JStr key) -> dict_get "api_key" d = None ->
     exists c, read_config now (Holds (JObj d)) = Some c /\ api_key c = Some key)
  /\ (dict_get "api_key" d = Some (JStr key) ->
     exists c, read_config now (Holds (JObj d)) = Some c /\ api_key c = Some key).
Proof.
  intros Ht. split.
  - intros Hg Ha. apply typed_file_loads; [exact Ht | right; split; assumption].
  - intros Ha. apply typed_file_loads; [exact Ht | left; exact Ha].
Qed.

Lemma legacy_key_is_adopted_witness :
  fst (get_api_key "t0" legacy_world) = Return (Some "sl_live_legacy")
  /\ exists c,
       read_config "t0" (Holds (JObj [("gemini_api_key", JStr "sl_live_legacy");
                                      ("api_key", JStr "sl_live_current")])) = Some c
       /\ api_key c = Some "sl_live_current".
Proof.
  split.
  - destruct (proj1 (legacy_key_is_adopted "t0"
                       [("gemini_api_key", JStr "sl_live_legacy");
                        ("log_level", JStr "DEBUG")] "sl_live_legacy"
                       ltac:(repeat split; eexists; reflexivity))
                eq_refl eq_refl) as (c & Hc & Hk).
    unfold get_api_key, bind, get_config, load_config.
    cbn [_config legacy_world storage file]. rewrite Hc. cbn. rewrite Hk. reflexivity.
  - apply (proj2 (legacy_key_is_adopted "t0"
                    [("gemini_api_key", JStr "sl_live_legacy");
                     ("api_key", JStr "sl_live_current")] "sl_live_current"
                    ltac:(repeat split; eexists; reflexivity))).
    reflexivity.
Defined.

(** X7. Once loaded, the configuration is never read again: whatever the
    file becomes behind the manager's back, [get_config] keeps returning
    the object it holds, and the next save on a writable file overwrites
    the file with it. *)
Theorem loaded_config_is_not_reread (now later : string) (w : World) (d : disk) :
  exists c,
    fst (get_config now w) = Return c
    /\ get_config later (with_storage d (snd (get_config now w)))
       = (Return c, with_storage d (snd (get_config now w)))
    /\ (writable d = true ->
        storage (snd (save_config later None (with_storage d (snd (get_config now w)))))
        = saved (with_updated_at (Some later) c)).
Proof.
  destruct (get_config_spec now w) as (c & Hget & _).
  exists c. rewrite Hget. cbn [fst snd].
  split; [reflexivity|]. split; [reflexivity|].
  intros Hd. unfold save_config. cbn [with_storage with_config _config storage].
  rewrite Hd. reflexivity.
Qed.

Lemma loaded_config_is_not_reread_witness :
  fst (get_api_key "t1"
         (with_storage (mkDisk (Holds (JObj [("api_key", JStr "sl_live_edited")])) 384 true)
            (snd (get_config "t0" sample_world))))
  = Return (Some "sl_live_stored_key")
  /\ file (storage (snd (save_config "t1" None
        (with_storage (mkDisk (Holds (JObj [("api_key", JStr "sl_live_edited")])) 384 true)
           (snd (get_config "t0" sample_world))))))
  = Holds (JObj [("api_key", JStr "sl_live_stored_key");
                 ("base_url", JStr "https://api.selflayer.com/api/v1");
                 ("log_level", JStr "INFO");
                 ("created_at", JStr "t0");
                 ("updated_at", JStr "t1")]).
Proof.
  destruct (loaded_config_is_not_reread "t0" "t1" sample_world
              (mkDisk (Holds (JObj [("api_key", JStr "sl_live_edited")])) 384 true))
    as (c & Hc & Hg & Hs).
  injection Hc as <-. split.
  - unfold get_api_key, bind. rewrite Hg. reflexivity.
  - rewrite (Hs eq_refl). reflexivity.
Defined.



End ConfigProperties3.

(** ** [models.py]: the state as a whole *)

Section StateProperties.
Import Models.

Lemma construct_all_cases {S A} `{Model A} (items : list json) (s : S) :
  (exists built, construct_all items s = (Return built, s) /\ accepted A items)
  \/ (exists e, construct_all items s = (Raise e, s) /\ ~ accepted A items).
Proof.
  induction items as [|doc rest IH].
  - left. exists []. split; [reflexivity | constructor].
  - cbn [construct_all]. unfold bind, construct, ret, raise.
    destruct doc as [| | | | |l|kwargs];
      try (right; eexists; split; [reflexivity|];
           intros Hacc; inversion Hacc as [|? ? (k & Hk & _) _]; discriminate Hk).
    destruct (model_validate kwargs) as [a|] eqn:Ev.
    + destruct IH as [(built & E & Hacc) | (e & E & Hacc)]; rewrite E.
      * left. exists (a :: built). split; [reflexivity|].
        constructor; [|exact Hacc]. exists kwargs. split; [reflexivity|].
        rewrite Ev. eexists; reflexivity.
      * right. exists e. split; [reflexivity|].
        intros H'. inversion H'. contradiction.
    + right. eexists. split; [reflexivity|].
      intros Hacc. inversion Hacc as [|? ? (k & Hk & Hv) _].
      injection Hk as <-. rewrite Ev in Hv. destruct Hv; discriminate.
Qed.

Lemma iterate_pure {S} (data : json) (s : S) :
  (exists items, iterate data s = (Return items, s))
  \/ (exists e, iterate data s = (Raise e, s)).
Proof. destruct data; cbn; eauto. Qed.

Lemma update_all_or_nothing {A} `{Model A} (id_of : A -> string)
    (cache : AppState -> list A) (index : AppState -> gmap Z string)
    (set : list A -> gmap Z string -> AppState -> AppState) :
  (forall l i s, cache (set l i s) = l) ->
  (forall l i s, index (set l i s) = i) ->
  all_or_nothing
    (fun data => items <- iterate data ;;
                 l <- construct_all items ;;
                 self <- get_self ;;
                 put_self (set l (index_of id_of l) self))
    cache index set.
Proof.
  intros Hc Hi. split; [|split].
  - intros data st e st'. unfold bind at 1.
    destruct (iterate_pure data st) as [(items & ->) | (e0 & ->)];
      [|intros [= _ <-]; reflexivity].
    unfold bind at 1.
    destruct (construct_all_cases (A:=A) items st) as [(b & -> & _) | (e1 & -> & _)];
      [discriminate | intros [= _ <-]; reflexivity].
  - intros items st Hbad. unfold bind at 1. cbn [iterate ret]. unfold bind at 1.
    destruct (construct_all_cases (A:=A) items st) as [(b & _ & Hacc) | (e1 & -> & _)];
      [contradiction | exists e1; reflexivity].
  - intros data st st'. unfold bind at 1.
    destruct (iterate_pure data st) as [(items & ->) | (e0 & ->)]; [|discriminate].
    unfold bind at 1.
    destruct (construct_all_cases (A:=A) items st) as [(b & -> & _) | (e1 & -> & _)];
      [|discriminate].
    unfold bind, get_self, put_self. intros [= <-]. rewrite Hc, Hi. reflexivity.
Qed.

Context `{MD : Model Document.t, MN : Model Note.t, MF : Model Notification.t,
          MI : Model Integration.t, MA : Model Automation.t}.

(** X9. Every listing update is all or nothing, and local.  If it raises
    (the data cannot be iterated, or an item is not a record the model
    accepts), the state is exactly what it was: the previous cache and
    index stay in use.  One unacceptable item anywhere in the listing makes
    it raise.  If it returns, nothing but the cache and the index of its
    own kind has changed. *)
Theorem updates_are_all_or_nothing :
  all_or_nothing update_documents documents document_index set_documents
  /\ all_or_nothing update_notes notes note_index set_notes
  /\ all_or_nothing update_notifications notifications notification_index
       set_notifications
  /\ all_or_nothing update_integrations integrations integration_index
       set_integrations
  /\ all_or_nothing update_automations automations automation_index set_automations.
Proof.
  split; [|split; [|split; [|split]]].
  - exact (update_all_or_nothing Document.id documents document_index
             set_documents (fun _ _ _ => eq_refl) (fun _ _ _ => eq_refl)).
  - exact (update_all_or_nothing Note.id notes note_index
             set_notes (fun _ _ _ => eq_refl) (fun _ _ _ => eq_refl)).
  - exact (update_all_or_nothing Notification.id notifications notification_index
             set_notifications (fun _ _ _ => eq_refl) (fun _ _ _ => eq_refl)).
  - exact (update_all_or_nothing Integration.id integrations integration_index
             set_integrations (fun _ _ _ => eq_refl) (fun _ _ _ => eq_refl)).
  - exact (update_all_or_nothing Automation.id automations automation_index
             set_automations (fun _ _ _ => eq_refl) (fun _ _ _ => eq_refl)).
Qed.

End StateProperties.

Section StatePropertiesWitness.
Import Models.
#[local] Existing Instances Strict.document_model Strict.note_model
  Strict.notification_model Strict.integration_model Strict.automation_model.

Lemma updates_are_all_or_nothing_witness :
  (exists e, update_documents (JArr broken_documents) stale_state = (Raise e, stale_state))
  /\ snd (update_documents JNull stale_state) = stale_state
  /\ (let st := snd (update_notes (JArr sample_notes) stale_state) in
      let st' := snd (update_documents (JArr sample_documents) st) in
      st' = set_documents (documents st') (document_index st') st).
Proof.
  destruct (@updates_are_all_or_nothing Strict.document_model Strict.note_model
              Strict.notification_model Strict.integration_model
              Strict.automation_model) as ((Hfail & Hbad & Hlocal) & _).
  split; [|split].
  - apply Hbad. intros Hacc. inversion Hacc as [|? ? _ Hrest].
    inversion Hrest as [|? ? (k & Hk & Hv) _]. injection Hk as <-.
    destruct Hv as [a Ha]. vm_compute in Ha. discriminate Ha.
  - apply (Hfail JNull stale_state (NotIterable "NoneType")). reflexivity.
  - cbv zeta. apply (Hlocal (JArr sample_documents)). vm_compute. reflexivity.
Defined.

End StatePropertiesWitness.

(** ** [models.py]: the indexes in every reachable state *)

Section ReachableStates.
Import Models.

Lemma update_outcome {A} `{Model A} (id_of : A -> string)
    (set : list A -> gmap Z string -> AppState -> AppState) (data : json)
    (st : AppState) :
  let update := fun data => items <- iterate data ;;
                            l <- construct_all items ;;
                            self <- get_self ;;
                            put_self (set l (index_of id_of l) self) in
  (exists e, update data st = (Raise e, st))
  \/ (exists l, update data st = (Return tt, set l (index_of id_of l) st)).
Proof.
  cbv zeta.
  destruct (iterate_pure data st) as [(items & Ei) | (e0 & Ei)];
    [|left; exists e0; unfold bind; rewrite Ei; reflexivity].
  destruct (construct_all_cases (A:=A) items st) as [(b & Ec & _) | (e1 & Ec & _)].
  - right. exists b. unfold bind. rewrite Ei, Ec. reflexivity.
  - left. exists e1. unfold bind. rewrite Ei, Ec. reflexivity.
Qed.

Lemma find_first {A} (p : A -> bool) (l : list A) (i : nat) (a : A) :
  l !! i = Some a -> p a = true ->
  exists (j : nat) d,
    (j <= i)%nat /\ l !! j = Some d /\ p d = true /\ List.find p l = Some d
    /\ forall (j' : nat) x, (j' < j)%nat -> l !! j' = Some x -> p x = false.
Proof.
  revert i. induction l as [|x l IH]; intros i Hi Hp; [discriminate Hi|].
  cbn [List.find]. destruct (p x) eqn:Hx.
  - exists 0%nat, x. repeat split; [lia | assumption |]. intros j' y Hj. lia.
  - destruct i as [|i]; [cbn in Hi; injection Hi as ->; congruence|].
    cbn in Hi. destruct (IH i Hi Hp) as (j & d & Hj & Hd & Hpd & Hf & Hmin).
    exists (S j), d. repeat split; [lia | exact Hd | exact Hpd | exact Hf |].
    intros [|j'] y Hlt Hy; cbn in Hy; [injection Hy as <-; exact Hx|].
    apply (Hmin j' y); [lia | exact Hy].
Qed.

Section Generic.
Context {A : Type} (id_of : A -> string).

Lemma by_index_sound (items : list A) (k : Z) (d : A) :
  by_index id_of (index_of id_of items) items k = Some d ->
  1 <= k <= Z.of_nat (length items)
  /\ In d items
  /\ id_of d <> EmptyString
  /\ exists a, items !! Z.to_nat (k - 1) = Some a /\ id_of a = id_of d.
Proof.
  unfold by_index. rewrite index_of_lookup.
  destruct (decide (1 <= k <= Z.of_nat (length items))) as [Hk|Hk]; [|discriminate].
  destruct (items !! Z.to_nat (k - 1)) as [a|] eqn:Ha; [|discriminate].
  cbn [fmap option_fmap option_map].
  destruct (PyStr.truthy (id_of a)) eqn:Ht; [|discriminate].
  intros F. apply find_some in F. destruct F as [Hin Heq].
  apply String.eqb_eq in Heq.
  repeat split; [lia | lia | exact Hin | | exists a; split; [reflexivity | congruence]].
  rewrite Heq. intros E. rewrite E in Ht. discriminate Ht.
Qed.

Lemma by_index_exact (items : list A) (i : nat) (a : A) :
  items !! i = Some a -> id_of a <> EmptyString ->
  (exists (j : nat) d,
      (j <= i)%nat /\ items !! j = Some d /\ id_of d = id_of a
      /\ by_index id_of (index_of id_of items) items (Z.of_nat i + 1) = Some d
      /\ forall (j' : nat) x, (j' < j)%nat -> items !! j' = Some x ->
           id_of x <> id_of a)
  /\ (NoDup (map id_of items) ->
      by_index id_of (index_of id_of items) items (Z.of_nat i + 1) = Some a).
Proof.
  intros Hi Hne.
  assert (Hb : by_index id_of (index_of id_of items) items (Z.of_nat i + 1)
               = List.find (fun x => String.eqb (id_of x) (id_of a)) items).
  { unfold by_index. rewrite (index_of_at id_of items i a Hi).
    destruct (id_of a); [congruence | reflexivity]. }
  destruct (find_first (fun x => String.eqb (id_of x) (id_of a)) items i a Hi
              (String.eqb_refl _)) as (j & d & Hj & Hd & Hpd & Hf & Hmin).
  apply String.eqb_eq in Hpd. split.
  - exists j, d. repeat split; [exact Hj | exact Hd | exact Hpd | congruence |].
    intros j' x Hlt Hx E. specialize (Hmin j' x Hlt Hx). cbn beta in Hmin.
    rewrite E, String.eqb_refl in Hmin. discriminate Hmin.
  - intros Hnd. rewrite Hb, Hf. f_equal.
    assert (Hij : j = i).
    { apply (NoDup_lookup (map id_of items) j i (id_of a)); [exact Hnd | |].
      - rewrite list_lookup_fmap, Hd. cbn. congruence.
      - rewrite list_lookup_fmap, Hi. reflexivity. }
    subst j. congruence.
Qed.

End Generic.

Context `{MD : Model Document.t, MN : Model Note.t, MF : Model Notification.t,
          MI : Model Integration.t, MA : Model Automation.t}.

Lemma consistent_initial : consistent initial.
Proof. repeat split. Qed.

Lemma consistent_step (op : state_op) (st : AppState) :
  consistent st -> consistent (snd (apply_op op st)).
Proof.
  intros (Hd & Hn & Hf & Hi & Ha).
  destruct op as [data|data|data|data|data| |error]; cbn [apply_op].
  - destruct (update_outcome Document.id set_documents data st) as [(e & E)|(l & E)];
      unfold update_documents; rewrite E; repeat split; assumption.
  - destruct (update_outcome Note.id set_notes data st) as [(e & E)|(l & E)];
      unfold update_notes; rewrite E; repeat split; assumption.
  - destruct (update_outcome Notification.id set_notifications data st)
      as [(e & E)|(l & E)];
      unfold update_notifications; rewrite E; repeat split;
      assumption.
  - destruct (update_outcome Integration.id set_integrations data st)
      as [(e & E)|(l & E)];
      unfold update_integrations; rewrite E; repeat split;
      assumption.
  - destruct (update_outcome Automation.id set_automations data st)
      as [(e & E)|(l & E)];
      unfold update_automations; rewrite E; repeat split;
      assumption.
  - repeat split.
  - repeat split; assumption.
Qed.

Lemma consistent_after (ops : list state_op) (st : AppState) :
  consistent st -> consistent (after_ops ops st).
Proof.
  revert st. induction ops as [|op ops IH]; intros st Hc; [exact Hc|].
  cbn [after_ops]. apply IH, consistent_step, Hc.
Qed.

(** X10. The indexes never drift from the caches.  In every state reached
    from the initial one by the operations of the state (listing updates
    that returned or raised, [clear_all_data], [set_error]), each of the
    five indexes is the one built from its cache.  Hence a by-index lookup
    that returns an item returns an item of the current cache, bearing the
    non-empty identifier of the item listed at that number, and only for a
    number between 1 and the length of the cache. *)
Theorem indexes_never_drift (ops : list state_op) :
  let st := after_ops ops initial in
  consistent st
  /\ sound_lookup Document.id documents get_document_by_index st
  /\ sound_lookup Note.id notes get_note_by_index st
  /\ sound_lookup Notification.id notifications get_notification_by_index st
  /\ sound_lookup Integration.id integrations get_integration_by_index st
  /\ sound_lookup Automation.id automations get_automation_by_index st.
Proof.
  cbv zeta.
  pose proof (consistent_after ops initial consistent_initial) as Hc.
  split; [exact Hc|]. destruct Hc as (Hd & Hn & Hf & Hi & Ha).
  split; [|split; [|split; [|split]]]; intros k d;
    unfold get_document_by_index, get_note_by_index, get_notification_by_index,
      get_integration_by_index, get_automation_by_index.
  - rewrite Hd. apply by_index_sound.
  - rewrite Hn. apply by_index_sound.
  - rewrite Hf. apply by_index_sound.
  - rewrite Hi. apply by_index_sound.
  - rewrite Ha. apply by_index_sound.
Qed.

(** X11. The number shown beside an item finds that item.  In every
    reachable state, the number [i + 1] of the [i]-th cached item, when the
    item has an identifier, resolves to the first cached item bearing that
    identifier; when the identifiers of the cache are distinct, that is the
    [i]-th item itself.  With a duplicated identifier the later bearer is
    never returned. *)
Theorem listed_number_finds_item (ops : list state_op) :
  let st := after_ops ops initial in
  exact_lookup Document.id documents get_document_by_index st
  /\ exact_lookup Note.id notes get_note_by_index st
  /\ exact_lookup Notification.id notifications get_notification_by_index st
  /\ exact_lookup Integration.id integrations get_integration_by_index st
  /\ exact_lookup Automation.id automations get_automation_by_index st.
Proof.
  cbv zeta.
  destruct (consistent_after ops initial consistent_initial) as (Hd & Hn & Hf & Hi & Ha).
  split; [|split; [|split; [|split]]]; intros i a;
    unfold get_document_by_index, get_note_by_index, get_notification_by_index,
      get_integration_by_index, get_automation_by_index.
  - rewrite Hd. apply by_index_exact.
  - rewrite Hn. apply by_index_exact.
  - rewrite Hf. apply by_index_exact.
  - rewrite Hi. apply by_index_exact.
  - rewrite Ha. apply by_index_exact.
Qed.

End ReachableStates.

Section ReachableStatesWitness.
Import Models.
#[local] Existing Instances Strict.document_model Strict.note_model
  Strict.notification_model Strict.integration_model Strict.automation_model.

Lemma indexes_never_drift_witness :
  let st := after_ops [UpdateDocuments (JArr sample_documents); SetError "x";
                       UpdateDocuments (JArr broken_documents);
                       UpdateNotes (JArr sample_notes)] initial in
  consistent st /\ length (documents st) = 2%nat
  /\ get_document_by_index st 3 = None.
Proof.
  cbv zeta.
  destruct (@indexes_never_drift Strict.document_model Strict.note_model
              Strict.notification_model Strict.integration_model
              Strict.automation_model
              [UpdateDocuments (JArr sample_documents); SetError "x";
               UpdateDocuments (JArr broken_documents);
               UpdateNotes (JArr sample_notes)]) as (Hc & Hs & _).
  split; [exact Hc|]. split; [vm_compute; reflexivity|].
  match goal with |- ?l = None => destruct l as [d|] eqn:E end; [|reflexivity].
  apply Hs in E. destruct E as ((_ & Hle) & _). vm_compute in Hle.
  exfalso. apply Hle. reflexivity.
Defined.

Lemma listed_number_finds_item_witness :
  let st := after_ops [UpdateNotes (JArr twin_notes)] initial in
  exists older newer,
    notes st = [older; newer]
    /\ Note.title older = "Older" /\ Note.title newer = "Newer"
    /\ get_note_by_index st 2 = Some older.
Proof.
  cbv zeta.
  destruct (@listed_number_finds_item Strict.document_model Strict.note_model
              Strict.notification_model Strict.integration_model
              Strict.automation_model [UpdateNotes (JArr twin_notes)])
    as (_ & Hn & _).
  eexists. eexists. split; [vm_compute; reflexivity|].
  split; [reflexivity|]. split; [reflexivity|].
  destruct (Hn 1%nat (Note.mk "twin" "u1" "Newer" "second" "DONE" None
                        "2024-01-03" "2024-01-04" [] "personal"))
    as ((j & d & Hj & Hd & _ & Hl & Hmin) & _).
  - vm_compute. reflexivity.
  - discriminate.
  - change (Z.of_nat 1 + 1) with 2 in Hl. rewrite Hl. f_equal.
    destruct j as [|j].
    + vm_compute in Hd. injection Hd as <-. reflexivity.
    + exfalso.
      apply (Hmin 0%nat (Note.mk "twin" "u1" "Older" "first" "DONE" None
                           "2024-01-01" "2024-01-02" [] "personal"));
        [lia | vm_compute; reflexivity | reflexivity].
Defined.

End ReachableStatesWitness.

(** ** [client.py]: the loop of [stream], as a whole *)

Section BlankTexts.

Lemma lskip_nil (l : list ascii) :
  lskip l = [] <-> forallb PyStr.isspace l = true.
Proof.
  induction l as [|c l IH]; [split; reflexivity|].
  cbn [lskip forallb]. destruct (PyStr.isspace c); cbn [andb]; [exact IH|].
  split; discriminate.
Qed.

Lemma forallb_rev {A} (p : A -> bool) (l : list A) :
  forallb p (List.rev l) = forallb p l.
Proof.
  induction l as [|x l IH]; [reflexivity|].
  cbn [List.rev forallb]. rewrite forallb_app, IH. cbn [forallb].
  rewrite andb_true_r. apply andb_comm.
Qed.

(** A text is blank, that is trimmed to nothing, exactly when it holds
    nothing but white space. *)
Lemma strip_blank (s : string) :
  PyStr.truthy (PyStr.strip s) = false
  <-> forallb PyStr.isspace (list_ascii_of_string s) = true.
Proof.
  assert (Ht : forall t, PyStr.truthy t = false <-> list_ascii_of_string t = [])
    by (intros [|c t]; split; (reflexivity || discriminate)).
  rewrite Ht, strip_chars.
  set (l := list_ascii_of_string s).
  split.
  - intros H. apply (f_equal (@List.rev ascii)) in H.
    rewrite List.rev_involutive in H. cbn [List.rev] in H.
    apply lskip_nil in H. rewrite forallb_rev in H.
    destruct (lskip l) as [|c r] eqn:E; [apply lskip_nil, E|].
    cbn [forallb] in H. rewrite (lskip_head l c r E) in H. discriminate H.
  - intros H. apply lskip_nil in H. rewrite H. reflexivity.
Qed.

Lemma sentinel_not_blank (line : string) :
  is_sentinel line = true -> PyStr.truthy (PyStr.strip line) = true.
Proof.
  intros Hs. destruct (PyStr.truthy (PyStr.strip line)) eqn:E; [reflexivity|].
  apply strip_blank in E. unfold is_sentinel in Hs.
  apply andb_true_iff in Hs. destruct Hs as [Hp _].
  unfold PyStr.startswith in Hp.
  destruct line as [|c line]; [discriminate Hp|].
  cbn [String.prefix] in Hp.
  destruct (Ascii.ascii_dec "d" c) as [<-|]; [|discriminate Hp].
  cbn in E. discriminate E.
Qed.

End BlankTexts.

Section StreamLoop.
Import Client.
Variable P : Platform.
Variable remote : Remote.

Lemma seen_sentinel (line : string) (rest : list string) :
  is_sentinel line = true -> seen (line :: rest) = [].
Proof.
  intros Hs. cbn [seen]. rewrite (sentinel_not_blank line Hs), Hs. reflexivity.
Qed.

Lemma seen_other (line : string) (rest : list string) :
  PyStr.truthy (PyStr.strip line) = true -> is_sentinel line = false ->
  seen (line :: rest) = line :: seen rest.
Proof. intros Hb Hs. cbn [seen]. rewrite Hb, Hs. reflexivity. Qed.

Lemma seen_blank (line : string) (rest : list string) :
  PyStr.truthy (PyStr.strip line) = false -> seen (line :: rest) = seen rest.
Proof. intros Hb. cbn [seen]. rewrite Hb. reflexivity. Qed.

Lemma read_lines_seen (lines : list string) (w : Process) :
  read_lines P lines w
  = ((omap (parsed P) (seen lines), reaches_sentinel lines), warned P lines w).
Proof.
  revert w. induction lines as [|line rest IH]; intros w.
  - unfold warned. cbn. rewrite app_nil_r. destruct w; reflexivity.
  - unfold reaches_sentinel. cbn [existsb]. fold (reaches_sentinel rest).
    destruct (PyStr.truthy (PyStr.strip line)) eqn:Hb.
    2:{ cbn [read_lines]. rewrite Hb, IH.
        destruct (is_sentinel line) eqn:Hs;
          [apply sentinel_not_blank in Hs; congruence|].
        cbn [orb]. unfold warned. rewrite (seen_blank line rest Hb). reflexivity. }
    destruct (is_sentinel line) eqn:Hs.
    + unfold warned. rewrite (seen_sentinel line rest Hs).
      cbn [read_lines]. rewrite Hb.
      unfold is_sentinel in Hs. apply andb_true_iff in Hs. destruct Hs as [Hp He].
      rewrite Hp, He. cbn. rewrite app_nil_r. destruct w; reflexivity.
    + assert (Hstep : read_lines P (line :: rest) w
        = match json_loads P (payload line) with
          | Some chunk =>
              let '(chunks, broke, w') := read_lines P rest w in
              (chunk :: chunks, broke, w')
          | None =>
              read_lines P rest (log_warning ("Failed to parse JSON: " +:+ line) w)
          end).
      { cbn [read_lines]. rewrite Hb. unfold is_sentinel in Hs. unfold payload.
        destruct (PyStr.startswith line "data: "); [|reflexivity].
        cbn [andb] in Hs. rewrite Hs. reflexivity. }
      rewrite Hstep. cbn [orb]. unfold warned.
      rewrite (seen_other line rest Hb Hs). cbn [List.filter omap list_omap].
      unfold unparsable, parsed.
      destruct (json_loads P (payload line)) as [chunk|] eqn:Ej.
      * rewrite IH. reflexivity.
      * rewrite IH. unfold warned, log_warning. cbn [sent screen warnings map].
        rewrite <- app_assoc. reflexivity.
Qed.


End StreamLoop.

Section StreamLoopWitness.
Import Client.


End StreamLoopWitness.

(** ** [client.py]: a success status with a body that cannot be used *)

Section UnusableBody.
Import Client.
Variable P : Platform.
Variable remote : Remote.


End UnusableBody.

Section UnusableBodyWitness.
Import Client.


End UnusableBodyWitness.

(** ** [tui.py]: the command line *)

Section CommandLineProperties.
Import PyText CommandLine.

Lemma append_cons (c : ascii) (a b : string) :
  String c a +:+ b = String c (a +:+ b).
Proof. reflexivity. Qed.

Lemma append_nil_l (b : string) : EmptyString +:+ b = b.
Proof. reflexivity. Qed.

Lemma append_nil_r (s : string) : s +:+ EmptyString = s.
Proof.
  induction s as [|c s IH]; [reflexivity|].
  rewrite append_cons. f_equal. exact IH.
Qed.

Lemma append_assoc (a b c : string) : (a +:+ b) +:+ c = a +:+ (b +:+ c).
Proof.
  induction a as [|x a IH]; [reflexivity|].
  rewrite !append_cons. f_equal. exact IH.
Qed.

Lemma all_app (p : ascii -> bool) (a b : string) :
  all p (a +:+ b) = all p a && all p b.
Proof.
  induction a as [|x a IH]; [reflexivity|].
  rewrite append_cons. cbn [all]. rewrite IH. apply andb_assoc.
Qed.

Lemma all_chars (p : ascii -> bool) (s : string) :
  all p s = forallb p (list_ascii_of_string s).
Proof. induction s as [|c s IH]; [reflexivity|]. cbn. rewrite IH. reflexivity. Qed.

Definition flush (cur : option string) : list string :=
  match cur with Some w => [w] | None => [] end.

Lemma split_from_blank (cur : option string) (b s : string) :
  is_blank b = true -> PyStr.truthy b = true ->
  split_from cur (b +:+ s) = flush cur ++ split_from None s.
Proof.
  unfold is_blank. revert cur. induction b as [|c b IH]; intros cur Hb Ht;
    [discriminate Ht|].
  cbn [all] in Hb. apply andb_true_iff in Hb. destruct Hb as [Hc Hb].
  rewrite append_cons. cbn [split_from]. rewrite Hc.
  destruct b as [|c' b].
  - rewrite append_nil_l. destruct cur; reflexivity.
  - rewrite (IH None Hb eq_refl). destruct cur; reflexivity.
Qed.

Lemma split_from_lead (b s : string) :
  is_blank b = true -> split_from None (b +:+ s) = split_from None s.
Proof.
  intros Hb. destruct b as [|c b]; [reflexivity|].
  rewrite (split_from_blank None _ s Hb eq_refl). reflexivity.
Qed.

Lemma split_from_trail (cur : option string) (b : string) :
  is_blank b = true -> split_from cur b = flush cur.
Proof.
  intros Hb. destruct b as [|c b]; [destruct cur; reflexivity|].
  rewrite <- (append_nil_r (String c b)).
  rewrite (split_from_blank cur _ EmptyString Hb eq_refl).
  cbn [split_from]. apply app_nil_r.
Qed.

Definition grown (cur : option string) (w : string) : string :=
  match cur with Some v => v +:+ w | None => w end.

Lemma split_from_word (cur : option string) (w s : string) :
  is_word w = true -> split_from cur (w +:+ s) = split_from (Some (grown cur w)) s.
Proof.
  unfold is_word. intros Hw. apply andb_true_iff in Hw. destruct Hw as [Ht Hw].
  revert cur Ht Hw. induction w as [|c w IH]; intros cur Ht Hw; [discriminate Ht|].
  cbn [all] in Hw. apply andb_true_iff in Hw. destruct Hw as [Hc Hw].
  apply negb_true_iff in Hc.
  rewrite append_cons. cbn [split_from]. rewrite Hc.
  destruct w as [|c' w].
  - rewrite append_nil_l. destruct cur; reflexivity.
  - rewrite (IH _ eq_refl Hw). f_equal. f_equal.
    destruct cur as [v|]; cbn [grown]; [|reflexivity].
    rewrite append_assoc. reflexivity.
Qed.

Lemma split_spaced (l : list (string * string)) (w trail : string) :
  well_spaced l = true -> is_word w = true -> is_blank trail = true ->
  split_from None (spaced l +:+ w +:+ trail) = map fst l ++ [w].
Proof.
  intros Hl Hw Ht. induction l as [|[v sep] l IH].
  - cbn [spaced map app]. rewrite append_nil_l.
    rewrite (split_from_word None w trail Hw). cbn [grown].
    apply (split_from_trail (Some w) trail Ht).
  - cbn [well_spaced forallb fst snd] in Hl.
    apply andb_true_iff in Hl. destruct Hl as [Hv Hl].
    apply andb_true_iff in Hv. destruct Hv as [Hv Hst].
    apply andb_true_iff in Hv. destruct Hv as [Hv Hs].
    cbn [spaced map fst app]. rewrite !append_assoc.
    rewrite (split_from_word None v _ Hv). cbn [grown].
    rewrite (split_from_blank (Some v) sep _ Hs Hst). cbn [flush app].
    f_equal. apply IH. exact Hl.
Qed.

Lemma word_grows (w : string) (c : ascii) :
  PyStr.isspace c = false ->
  all (fun c => negb (PyStr.isspace c)) w = true ->
  is_word (w +:+ String c EmptyString) = true.
Proof.
  intros Hc Hw. unfold is_word. rewrite all_app, Hw. cbn [all]. rewrite Hc.
  destruct w; reflexivity.
Qed.

Lemma split_from_words (cur : option string) (s : string) :
  (forall w, cur = Some w -> is_word w = true) ->
  Forall (fun w => is_word w = true) (split_from cur s).
Proof.
  revert cur. induction s as [|c s IH]; intros cur Hcur.
  - destruct cur as [w|]; cbn; [|constructor].
    constructor; [apply Hcur; reflexivity | constructor].
  - cbn [split_from]. destruct (PyStr.isspace c) eqn:Hc.
    + destruct cur as [w|].
      * constructor; [apply Hcur; reflexivity|]. apply IH. discriminate.
      * apply IH. discriminate.
    + apply IH. intros w [= <-]. destruct cur as [v|].
      * apply word_grows; [exact Hc|].
        pose proof (Hcur v eq_refl) as Hv. unfold is_word in Hv.
        apply andb_true_iff in Hv. apply Hv.
      * unfold is_word. cbn. rewrite Hc. reflexivity.
Qed.

Lemma chars_app (a b : string) :
  list_ascii_of_string (a +:+ b) = list_ascii_of_string a ++ list_ascii_of_string b.
Proof.
  induction a as [|c a IH]; [reflexivity|].
  rewrite append_cons. cbn [list_ascii_of_string]. rewrite IH. reflexivity.
Qed.

Lemma chars_string (l : list ascii) :
  list_ascii_of_string (string_of_list_ascii l) = l.
Proof. apply list_ascii_of_string_of_list_ascii. Qed.

(** A text is its trimmed text between two texts of white space. *)
Lemma strip_between (s : string) :
  exists lead trail,
    s = lead +:+ PyStr.strip s +:+ trail
    /\ is_blank lead = true /\ is_blank trail = true.
Proof.
  destruct (lskip_suffix (list_ascii_of_string s)) as (b1 & E1 & Hb1).
  destruct (lskip_suffix (List.rev (lskip (list_ascii_of_string s))))
    as (b2 & E2 & Hb2).
  exists (string_of_list_ascii b1), (string_of_list_ascii (List.rev b2)).
  split; [|split].
  - apply chars_inj. rewrite !chars_app, !chars_string, strip_chars.
    rewrite <- List.rev_app_distr, <- E2, List.rev_involutive. exact E1.
  - unfold is_blank. rewrite all_chars, chars_string. exact Hb1.
  - unfold is_blank. rewrite all_chars, chars_string, forallb_rev. exact Hb2.
Qed.

Lemma split_strip (s : string) : split (PyStr.strip s) = split s.
Proof.
  destruct (strip_between s) as (lead & trail & E & Hl & Ht).
  unfold split. rewrite E at 2. rewrite (split_from_lead lead _ Hl).
  generalize (PyStr.strip s). intros t. clear E.
  assert (H : forall cur, split_from cur (t +:+ trail) = split_from cur t).
  { induction t as [|c t IH]; intros cur.
    - rewrite append_nil_l. rewrite (split_from_trail cur trail Ht).
      destruct cur; reflexivity.
    - rewrite append_cons. cbn [split_from].
      destruct (PyStr.isspace c); [destruct cur|]; rewrite IH; reflexivity. }
  symmetry. apply H.
Qed.

Lemma lower_char_idem (c : ascii) : lower_char (lower_char c) = lower_char c.
Proof.
  destruct c as [[] [] [] [] [] [] [] []]; reflexivity.
Qed.

Lemma lower_idem (s : string) : lower (lower s) = lower s.
Proof.
  induction s as [|c s IH]; [reflexivity|].
  cbn [lower]. rewrite lower_char_idem, IH. reflexivity.
Qed.

Lemma lower_char_space (c : ascii) : PyStr.isspace (lower_char c) = PyStr.isspace c.
Proof.
  destruct c as [[] [] [] [] [] [] [] []]; reflexivity.
Qed.

Lemma lower_word (w : string) : is_word (lower w) = is_word w.
Proof.
  unfold is_word. f_equal; [destruct w; reflexivity|].
  induction w as [|c w IH]; [reflexivity|].
  cbn [lower all]. rewrite lower_char_space, IH. reflexivity.
Qed.

(** X14. What [parse_command] makes of a line.  A line of white space
    only gives the empty command and no arguments.  A line written as
    words separated, preceded and followed by any white space gives its
    first word in lower case as the command and the other words, as typed,
    as the arguments: the amount and kind of white space and the case of
    the command do not matter, the case of the arguments does.  Whatever
    the line, the command is a word already in lower case or is empty, and
    every argument is a word: no argument is empty or holds white space. *)
Theorem parse_command_reads_words :
  (forall raw, is_blank raw = true -> parse_command raw = (EmptyString, []))
  /\ (forall lead l w trail,
        is_blank lead = true -> well_spaced l = true ->
        is_word w = true -> is_blank trail = true ->
        parse_command (lead +:+ spaced l +:+ w +:+ trail)
        = match map fst l ++ [w] with
          | command :: args => (lower command, args)
          | [] => (EmptyString, [])
          end)
  /\ (forall raw,
        (fst (parse_command raw) = EmptyString \/ is_word (fst (parse_command raw)) = true)
        /\ lower (fst (parse_command raw)) = fst (parse_command raw)
        /\ Forall (fun a => is_word a = true) (snd (parse_command raw))).
Proof.
  split; [|split].
  - intros raw Hb. unfold parse_command. rewrite split_strip. unfold split.
    rewrite (split_from_trail None raw Hb). reflexivity.
  - intros lead l w trail Hlead Hl Hw Ht.
    unfold parse_command. rewrite split_strip. unfold split.
    rewrite (split_from_lead lead _ Hlead), (split_spaced l w trail Hl Hw Ht).
    reflexivity.
  - intros raw. unfold parse_command.
    pose proof (split_from_words None (PyStr.strip raw)
                  ltac:(discriminate)) as Hall.
    fold (split (PyStr.strip raw)) in Hall.
    destruct (split (PyStr.strip raw)) as [|command args].
    + cbn. split; [left; reflexivity | split; [reflexivity | constructor]].
    + inversion Hall as [|? ? Hc Ha]. subst. cbn [fst snd].
      split; [right; rewrite lower_word; exact Hc|].
      split; [apply lower_idem | exact Ha].
Qed.

Lemma parse_command_reads_words_witness :
  parse_command (String (ascii_of_N 9) "  /D   Delete 2 ")
  = ("/d", ["Delete"; "2"]).
Proof.
  destruct parse_command_reads_words as (_ & H & _).
  apply (H (String (ascii_of_N 9) "  ") [("/D", "   "); ("Delete", " ")] "2" " ");
    reflexivity.
Defined.

End CommandLineProperties.

(** ** [tui.py]: what the commands on documents and notes leave behind *)

Section GatewayOutcome.
Import Client.
Variable P : Platform.
Variable remote : Remote.

(** Whatever the service does, a request method sends its one request and
    logs nothing; it prints only on its way to raising. *)
Lemma run_outcome (self : SelfLayerAPIClient) (c : request_call) (w : Process) :
  exists shown,
    snd (run P remote self c w)
    = mkProcess (sent w ++ [request_of self c]) (screen w ++ shown) (warnings w)
    /\ (forall v, fst (run P remote self c w) = Return v -> shown = []).
Proof.
  rewrite run_sends. unfold bind, send.
  destruct (server remote (sent w) (request_of self c)) as [status text| |e].
  - destruct (is_success (mkResponse status (Some text))); cbn [negb].
    + exists []. rewrite app_nil_r. split; [|reflexivity].
      destruct (is_delete c && (status =? 204)); [reflexivity|].
      unfold response_json. cbn [content].
      destruct (json_loads P text); reflexivity.
    + destruct (handle_error_panel P status text) as (panel & Hp & _).
      exists [PPanel panel]. unfold fail_request, bind. rewrite Hp.
      split; [reflexivity | discriminate].
  - exists []. rewrite app_nil_r. split; reflexivity.
  - exists []. rewrite app_nil_r. split; reflexivity.
Qed.

Lemma list_or_member_pure (key : string) (v : json) (w : Process) :
  snd (list_or_member key v w) = w.
Proof. destruct v; reflexivity. Qed.

Lemma listing_outcome (self : SelfLayerAPIClient) (endpoint key : string) (w : Process) :
  exists shown,
    snd ((response <- get P remote self endpoint None ;; list_or_member key response) w)
    = mkProcess (sent w ++ [request_of self (Get endpoint None)]) (screen w ++ shown)
        (warnings w)
    /\ (forall v,
          fst ((response <- get P remote self endpoint None ;;
                list_or_member key response) w) = Return v -> shown = []).
Proof.
  destruct (run_outcome self (Get endpoint None) w) as (shown & Hs & Hq).
  exists shown. unfold bind. cbn [run] in Hs, Hq.
  destruct (get P remote self endpoint None w) as [[v|e] w1]; cbn [fst snd] in *.
  - rewrite list_or_member_pure. split; [exact Hs|]. intros _ _. apply (Hq v eq_refl).
  - split; [exact Hs | discriminate].
Qed.

End GatewayOutcome.

Section CommandOutcome.
Import Models Client Tui Renderers.
Variable P : Platform.
Variable remote : Remote.

(** The shape the listing commands share. *)
Lemma listing_command {A} (name : string)
    (list_call : SelfLayerAPIClient -> M Process json)
    (update : json -> M AppState unit)
    (cache : AppState -> list A)
    (set : list A -> gmap Z string -> AppState -> AppState) (id_of : A -> string)
    (shows_list : list A -> printed) (title : string) (req : SelfLayerAPIClient -> Request) :
  (forall c w, exists shown,
      snd (list_call c w) = mkProcess (sent w ++ [req c]) (screen w ++ shown) (warnings w)
      /\ (forall v, fst (list_call c w) = Return v -> shown = [])) ->
  (forall data st,
      (exists e, update data st = (Raise e, st))
      \/ (exists l, update data st = (Return tt, set l (index_of id_of l) st))) ->
  (forall l i st, cache (set l i st) = l) ->
  let cmd :=
    try_except
      (data <- on_client name list_call ;;
       in_state (update data) ;;;
       self <- get_self ;;
       say (shows_list (cache (app_state self))))
      (fun e => say (error_panel P e title)) ;;;
    say PBlank in
  forall self,
    refreshes_or_reports P cmd set id_of shows_list title self
    /\ (forall c, client self = Some c -> requests (snd (cmd self)) = requests self ++ [req c])
    /\ (client self = None -> requests (snd (cmd self)) = requests self).
Proof.
  intros Hcall Hupdate Hcache cmd self.
  unfold refreshes_or_reports, shown_since, requests. cbv zeta.
  destruct (cmd self) as [r self'] eqn:Er. cbn [fst snd].
  subst cmd.
  unfold on_client, try_except, in_process, in_state, say, print, get_self, bind in Er.
  destruct (client self) as [c|] eqn:Hc.
  - destruct (Hcall c (process self)) as (shown & Hs & Hq).
    destruct (list_call c (process self)) as [[data|e] p1]; cbn [fst snd] in Hs, Hq.
    + rewrite (Hq data eq_refl), app_nil_r in Hs. subst p1.
      cbn [app_state client running process] in Er.
      destruct (Hupdate data (app_state self)) as [(e & Eu)|(l & Eu)]; rewrite Eu in Er.
      * injection Er as <- <-. cbn. rewrite ?Hc.
        split; [split; [reflexivity | split; [reflexivity | split; [reflexivity|]]]
               | split].
        -- right. exists e, []. split; [reflexivity|]. rewrite <- app_assoc. reflexivity.
        -- intros c' [= <-]. reflexivity.
        -- discriminate.
      * injection Er as <- <-. cbn. rewrite Hcache, ?Hc.
        split; [split; [reflexivity | split; [reflexivity | split; [reflexivity|]]]
               | split].
        -- left. exists l. split; [reflexivity|]. rewrite <- app_assoc. reflexivity.
        -- intros c' [= <-]. reflexivity.
        -- discriminate.
    + subst p1. injection Er as <- <-. cbn. rewrite ?Hc.
      split; [split; [reflexivity | split; [reflexivity | split; [reflexivity|]]]
             | split].
      * right. exists e, shown. split; [reflexivity|].
        rewrite <- !app_assoc. reflexivity.
      * intros c' [= <-]. reflexivity.
      * discriminate.
  - injection Er as <- <-. cbn. rewrite ?Hc.
    split; [split; [reflexivity | split; [reflexivity | split; [reflexivity|]]]
           | split].
    + right. exists (AttributeError "NoneType" name), [].
      split; [reflexivity|]. rewrite <- app_assoc. reflexivity.
    + discriminate.
    + reflexivity.
Qed.

Context `{MD : Model Document.t, MN : Model Note.t}.

Lemma list_documents_command (self : SelfLayerCLI) :
  refreshes_or_reports P (_list_documents P remote) set_documents Document.id
    PDocumentsList "Documents Error" self
  /\ (forall c, client self = Some c ->
        requests (snd (_list_documents P remote self))
        = requests self ++ [request_of c (Get "documents/" None)])
  /\ (client self = None ->
        requests (snd (_list_documents P remote self)) = requests self).
Proof.
  exact (listing_command "list_documents" (list_documents P remote) update_documents
           documents set_documents Document.id PDocumentsList "Documents Error"
           (fun c => request_of c (Get "documents/" None))
           (fun c w => listing_outcome P remote c "documents/" "documents" w)
           (update_outcome Document.id set_documents)
           (fun _ _ _ => eq_refl) self).
Qed.

Lemma list_notes_command (self : SelfLayerCLI) :
  refreshes_or_reports P (_list_notes P remote) set_notes Note.id
    PNotesList "Notes Error" self
  /\ (forall c, client self = Some c ->
        requests (snd (_list_notes P remote self))
        = requests self ++ [request_of c (Get "notes/" None)])
  /\ (client self = None ->
        requests (snd (_list_notes P remote self)) = requests self).
Proof.
  exact (listing_command "list_notes" (list_notes P remote) update_notes
           notes set_notes Note.id PNotesList "Notes Error"
           (fun c => request_of c (Get "notes/" None))
           (fun c w => listing_outcome P remote c "notes/" "notes" w)
           (update_outcome Note.id set_notes)
           (fun _ _ _ => eq_refl) self).
Qed.



(** What a request method returns or raises depends on the requests sent
    so far only. *)
Lemma run_result (self : SelfLayerAPIClient) (c : request_call) (w w' : Process) :
  sent w = sent w' ->
  fst (run P remote self c w) = fst (run P remote self c w').
Proof.
  intros Hs. rewrite !run_sends. unfold bind, send. rewrite Hs.
  destruct (server remote (sent w') (request_of self c)) as [status text| |e];
    [|reflexivity|reflexivity].
  destruct (is_success (mkResponse status (Some text))); cbn [negb].
  - destruct (is_delete c && (status =? 204)); [reflexivity|].
    unfold response_json. cbn [content]. destruct (json_loads P text); reflexivity.
  - destruct (handle_error_panel P status text) as (panel & Hp & _).
    unfold fail_request, bind. rewrite !Hp. reflexivity.
Qed.

(** The shape the two confirmed deletions share, once the item is found
    and the confirmation given. *)
Lemma confirmed_deletion (name : string) (endpoint : string) (message : string)
    (relist_cmd : M SelfLayerCLI unit) (relist : SelfLayerAPIClient -> Request)
    (c : SelfLayerAPIClient) (asked : SelfLayerCLI) :
  client asked = Some c ->
  (forall s, fst (relist_cmd s) = Return tt) ->
  (forall s, client s = Some c -> requests (snd (relist_cmd s)) = requests s ++ [relist c]) ->
  deletes_then_relists P
    (try_except
       (on_client name (fun c => delete P remote c endpoint) ;;;
        say (PPanel (render_success_panel message "Deleted")) ;;;
        relist_cmd)
       (fun e => say (error_panel P e "Delete Error")) asked)
    asked (request_of c (Delete endpoint)) (relist c)
    (fst (delete P remote c endpoint (process asked))).
Proof.
  intros Hc Hret Hreq. unfold deletes_then_relists.
  match goal with |- context [try_except ?m ?h asked] =>
    destruct (try_except m h asked) as [r s'] eqn:Er
  end.
  cbn [fst snd].
  unfold on_client, try_except, in_process, say, print, get_self, bind in Er.
  rewrite Hc in Er.
  destruct (run_outcome P remote c (Delete endpoint) (process asked))
    as (shown & Hs & _). cbn [run] in Hs.
  destruct (delete P remote c endpoint (process asked)) as [[v|e] p1];
    cbn [fst snd] in Hs |- *; subst p1.
  - match type of Er with
    | context [relist_cmd ?s] =>
        pose proof (Hret s) as Hr; pose proof (Hreq s Hc) as Hq;
        destruct (relist_cmd s) as [r1 s1]
    end.
    cbn [fst snd] in Hr, Hq. subst r1. injection Er as <- <-.
    split; [reflexivity|]. rewrite Hq. unfold requests. cbn.
    rewrite <- app_assoc. reflexivity.
  - injection Er as <- <-. unfold requests. cbn.
    split; [reflexivity|]. split; [reflexivity|]. split; [reflexivity|].
    eexists. reflexivity.
Qed.


End CommandOutcome.

Section CommandOutcomeWitness.
Import Models Client Tui Renderers.
#[local] Existing Instances Strict.document_model Strict.note_model.




End CommandOutcomeWitness.

(** ** [tui.py]: the subcommands, the loop *)

Section Subcommands.
Import Models Client Renderers Tui Endpoints CommandLine.
Variable P : Platform.
Variable remote : Remote.
Variable answer : string -> bool.
Context `{MD : Model Document.t, MN : Model Note.t}.
Variable _upload_document : string -> M SelfLayerCLI unit.

Local Abbreviation cmd_documents :=
  (Commands.cmd_documents P remote answer _upload_document).
Local Abbreviation cmd_notes := (Commands.cmd_notes P remote answer).

Lemma digits_not (word first : string) :
  PyText.isdigit word = false -> PyText.isdigit first = true ->
  String.eqb first word = false.
Proof.
  intros Hw Hf. destruct (String.eqb_spec first word) as [->|]; [congruence|reflexivity].
Qed.


End Subcommands.

Section SubcommandsWitness.
Import Models Client Renderers Tui Endpoints CommandLine.
#[local] Existing Instances Strict.document_model Strict.note_model.


End SubcommandsWitness.

Section NoteFromLine.
Import Models Client Renderers Tui Endpoints CommandLine.
Variable P : Platform.
Variable remote : Remote.
Variable answer : string -> bool.
Context `{MD : Model Document.t, MN : Model Note.t}.

Local Abbreviation cmd_notes := (Commands.cmd_notes P remote answer).

Lemma all_lstrip_set (p : ascii -> bool) (chars : list ascii) (s : string) :
  PyText.all p s = true -> PyText.all p (PyStr.lstrip_set chars s) = true.
Proof.
  induction s as [|c s IH]; [reflexivity|].
  cbn [PyText.all PyStr.lstrip_set]. intros H.
  destruct (existsb (Ascii.eqb c) chars); [|exact H].
  apply andb_true_iff in H. apply IH, H.
Qed.

Lemma all_rev (p : ascii -> bool) (s : string) :
  PyText.all p (String.rev s) = PyText.all p s.
Proof. rewrite !all_chars, rev_chars. apply forallb_rev. Qed.

Lemma all_strip_set (p : ascii -> bool) (chars : list ascii) (s : string) :
  PyText.all p s = true -> PyText.all p (PyStr.strip_set chars s) = true.
Proof.
  intros H. unfold PyStr.strip_set. rewrite all_rev.
  apply all_lstrip_set. rewrite all_rev. apply all_lstrip_set, H.
Qed.


End NoteFromLine.

Section NoteFromLineWitness.
Import Models Client Renderers Tui Endpoints CommandLine.
#[local] Existing Instances Strict.document_model Strict.note_model.


End NoteFromLineWitness.

Section PersonaQuery.
Import Models Client Renderers Tui Endpoints CommandLine.
Variable P : Platform.
Variable remote : Remote.
Context {Persona : Type} `{MP : Model Persona}.
Variable render_persona_briefing : Persona -> string -> Panel.

Local Abbreviation cmd_rms := (Commands.cmd_rms P remote render_persona_briefing).

(** What follows the gateway call of [/rms]. *)
Lemma rms_after_call (call : SelfLayerAPIClient -> M Process json) (req : Request)
    (query : string) (cl : SelfLayerAPIClient) (self : SelfLayerCLI) :
  client self = Some cl ->
  (forall w, sent (snd (call cl w)) = sent w ++ [req]) ->
  let cmd :=
    try_except
      (persona_data <- on_client "get_persona_briefing" call ;;
       persona_response <- construct (A:=Persona) persona_data ;;
       say (PPanel (render_persona_briefing persona_response query)))
      (fun e => say (error_panel P e "RMS Error")) ;;;
    say PBlank in
  fst (cmd self) = Return tt /\ requests (snd (cmd self)) = requests self ++ [req].
Proof.
  intros Hc Hsent cmd. destruct (cmd self) as [r s'] eqn:Er. subst cmd. cbn [fst snd].
  unfold on_client, try_except, in_process, say, print, get_self, bind in Er.
  rewrite Hc in Er.
  pose proof (Hsent (process self)) as Hs.
  destruct (call cl (process self)) as [[v|e] p1]; cbn [snd] in Hs.
  - destruct v as [| | | | |l|kwargs]; cbn [construct] in Er;
      try (injection Er as <- <-; unfold requests; cbn; split; [reflexivity | exact Hs]).
    destruct (model_validate kwargs);
      injection Er as <- <-; unfold requests; cbn; split; (reflexivity || exact Hs).
  - injection Er as <- <-. unfold requests. cbn. split; [reflexivity | exact Hs].
Qed.

Lemma post_sent (cl : SelfLayerAPIClient) (endpoint : string) (body : option json)
    (w : Process) :
  sent (snd (post P remote cl endpoint body None w))
  = sent w ++ [request_of cl (Post endpoint body None)].
Proof.
  destruct (run_outcome P remote cl (Post endpoint body None) w) as (shown & Hs & _).
  cbn [run] in Hs. rewrite Hs. reflexivity.
Qed.


End PersonaQuery.

Section PersonaQueryWitness.
Import Models Client Renderers Tui Endpoints CommandLine.


End PersonaQueryWitness.

(** ** [tui.py]: the loop *)

Section Loop.
Import Models Client Renderers Tui Endpoints CommandLine.
Variable P : Platform.
Variable remote : Remote.
Variable answer : string -> bool.
Context `{MD : Model Document.t, MN : Model Note.t, MF : Model Notification.t,
          MI : Model Integration.t}.
Context {Persona : Type} `{MP : Model Persona}.
Variable render_persona_briefing : Persona -> string -> Panel.
Variable render_notifications_list : list Notification.t -> Panel.
Variable render_integrations_list : list Integration.t -> Panel.
Variable render_help : Panel.
Variable _upload_document : string -> M SelfLayerCLI unit.
Variable _connect_integration : string -> M SelfLayerCLI unit.
Variable cmd_key : list string -> M SelfLayerCLI unit.
Variable cmd_ask : list string -> M SelfLayerCLI unit.
Variable cmd_search : list string -> M SelfLayerCLI unit.
Variable cmd_clear : M SelfLayerCLI unit.

Local Abbreviation execute :=
  (Commands.execute P remote answer render_persona_briefing render_notifications_list
     render_integrations_list render_help _upload_document _connect_integration
     cmd_key cmd_ask cmd_search cmd_clear).
Local Abbreviation turn :=
  (Commands.turn P remote answer render_persona_briefing render_notifications_list
     render_integrations_list render_help _upload_document _connect_integration
     cmd_key cmd_ask cmd_search cmd_clear).
Local Abbreviation command_loop :=
  (Commands.command_loop P remote answer render_persona_briefing
     render_notifications_list render_integrations_list render_help _upload_document
     _connect_integration cmd_key cmd_ask cmd_search cmd_clear).

Lemma turn_returns (line : string) (self : SelfLayerCLI) :
  fst (turn line self) = Return tt.
Proof.
  unfold Commands.turn, try_except.
  match goal with |- context [(if ?b then ?x else ?y) self] =>
    destruct ((if b then x else y) self) as [[[]|e] s1]
  end; reflexivity.
Qed.

Lemma loop_stopped (inputs : list string) (self : SelfLayerCLI) :
  running self = false -> command_loop inputs self = (Return tt, self).
Proof.
  intros Hr. destruct inputs as [|x rest]; [reflexivity|].
  cbn [Commands.command_loop]. unfold bind, get_self. rewrite Hr. reflexivity.
Qed.

Lemma loop_step (x : string) (rest : list string) (self : SelfLayerCLI) :
  running self = true ->
  command_loop (x :: rest) self = command_loop rest (snd (turn x self)).
Proof.
  intros Hr. cbn [Commands.command_loop]. unfold bind at 1, get_self. rewrite Hr.
  unfold bind. pose proof (turn_returns x self) as Ht.
  destruct (turn x self) as [[[]|e] s1]; [reflexivity | discriminate Ht].
Qed.

Lemma loop_returns (inputs : list string) (self : SelfLayerCLI) :
  fst (command_loop inputs self) = Return tt.
Proof.
  revert self. induction inputs as [|x rest IH]; intros self; [reflexivity|].
  destruct (running self) eqn:Hr.
  - rewrite (loop_step x rest self Hr). apply IH.
  - rewrite (loop_stopped _ self Hr). reflexivity.
Qed.

Lemma command_not_blank (line : string) :
  fst (parse_command line) <> EmptyString ->
  PyStr.truthy (PyStr.strip line) = true.
Proof.
  unfold parse_command. destruct (PyStr.strip line); [|reflexivity].
  cbn. congruence.
Qed.

Lemma turn_executes (line : string) (self : SelfLayerCLI) :
  fst (parse_command line) <> EmptyString ->
  turn line self
  = try_except
      (execute (fst (parse_command line)) (snd (parse_command line)))
      (fun e =>
         (fun self => (Return tt,
                       with_process (log_warning "Unexpected error in command loop") self)) ;;;
         say (PPanel (render_error_panel ("Unexpected error: " +:+ str_exn P e) "Error")))
      self.
Proof.
  intros Hne. unfold Commands.turn. rewrite (command_not_blank line Hne). cbn [negb].
  destruct (parse_command line) as [command args]. reflexivity.
Qed.

Lemma quit_turn (line : string) (self : SelfLayerCLI) :
  In (fst (parse_command line)) quits ->
  running (snd (turn line self)) = false.
Proof.
  intros Hin.
  assert (Hne : fst (parse_command line) <> EmptyString).
  { intros E. rewrite E in Hin. cbn in Hin. intuition discriminate. }
  rewrite (turn_executes line self Hne).
  destruct (parse_command line) as [command args]. cbn [fst snd] in *.
  unfold quits in Hin. cbn [In] in Hin.
  destruct Hin as [<-|[<-|[<-|[<-|[]]]]]; reflexivity.
Qed.


(** X22. The automations command has no handler.  The dispatcher routes
    [/automations], [automations] and [/auto] to [cmd_automations], which
    the class does not define.  With a client, a turn of the loop on such
    a line, whatever its arguments, sends nothing and changes no state: it
    logs the exception and shows the [Unexpected error] panel with the
    text of the [AttributeError].  Without a client the line gets the
    panel that asks for an API key, like any command that needs one. *)
Theorem automations_command_has_no_handler (line : string) (self : SelfLayerCLI) :
  In (fst (parse_command line)) automations_aliases ->
  (forall cl, client self = Some cl ->
     turn line self
     = (Return tt,
        unexpected "'SelfLayerCLI' object has no attribute 'cmd_automations'" self))
  /\ (client self = None ->
      turn line self = (Return tt, printing (PPanel credential_required) self)).
Proof.
  intros Hin.
  assert (Hne : fst (parse_command line) <> EmptyString).
  { intros E. rewrite E in Hin. cbn in Hin. intuition discriminate. }
  rewrite (turn_executes line self Hne).
  destruct (parse_command line) as [command args]. cbn [fst snd] in *.
  unfold automations_aliases in Hin. cbn [In] in Hin.
  split.
  - intros cl Hc.
    destruct Hin as [<-|[<-|[<-|[]]]];
      unfold Commands.execute, try_except, bind, get_self, _execute_command;
      rewrite Hc; reflexivity.
  - intros Hc.
    destruct Hin as [<-|[<-|[<-|[]]]];
      unfold Commands.execute, try_except, bind, get_self, _execute_command;
      rewrite Hc; reflexivity.
Qed.

End Loop.

Section LoopWitness.
Import Models Client Renderers Tui Endpoints CommandLine.
#[local] Existing Instances Strict.document_model Strict.note_model
  Strict.notification_model Strict.integration_model.


Lemma automations_command_has_no_handler_witness :
  Commands.turn reference_platform no_content always_yes (MP:=persona_model)
    (fun _ _ => blank_panel) (fun _ => blank_panel) (fun _ => blank_panel) blank_panel
    (fun _ => ret tt) (fun _ => ret tt) (fun _ => ret tt) (fun _ => ret tt)
    (fun _ => ret tt) (ret tt)
    "/Auto run 1" documents_listed
  = (Return tt,
     unexpected "'SelfLayerCLI' object has no attribute 'cmd_automations'"
       documents_listed).
Proof.
  destruct (@automations_command_has_no_handler reference_platform no_content always_yes
              Strict.document_model Strict.note_model Strict.notification_model
              Strict.integration_model json persona_model
              (fun _ _ => blank_panel) (fun _ => blank_panel) (fun _ => blank_panel)
              blank_panel (fun _ => ret tt) (fun _ => ret tt) (fun _ => ret tt)
              (fun _ => ret tt) (fun _ => ret tt) (ret tt)
              "/Auto run 1" documents_listed
              ltac:(right; right; left; reflexivity)) as (H & _).
  apply (H sample_client). reflexivity.
Defined.

End LoopWitness.

(** ** [client.py] and [tui.py]: starting up *)

Section StartupProperties.
Import Models Tui Startup.

Lemma rev_rev (s : string) : String.rev (String.rev s) = s.
Proof. apply chars_inj. rewrite !rev_chars. apply List.rev_involutive. Qed.

Lemma lstrip_char_head (c : ascii) (s : string) :
  PyStr.startswith (PyStr.lstrip_char c s) (String c EmptyString) = false.
Proof.
  unfold PyStr.startswith. induction s as [|x s IH]; [reflexivity|].
  cbn [PyStr.lstrip_char]. destruct (Ascii.eqb_spec c x) as [<-|Hne]; [exact IH|].
  cbn [String.prefix]. destruct (Ascii.ascii_dec c x); [contradiction | reflexivity].
Qed.

Lemma rstrip_char_end (c : ascii) (s : string) :
  PyText.endswith (PyStr.rstrip_char c s) (String c EmptyString) = false.
Proof.
  unfold PyText.endswith, PyStr.rstrip_char. rewrite rev_rev.
  apply (lstrip_char_head c (String.rev s)).
Qed.

Lemma lstrip_char_cut (s : string) :
  exists n, s = slashes n +:+ PyStr.lstrip_char "/" s.
Proof.
  induction s as [|x s IH]; [exists 0%nat; reflexivity|].
  cbn [PyStr.lstrip_char]. destruct (Ascii.eqb_spec "/"%char x) as [<-|Hne].
  - destruct IH as [n IH]. exists (S n). cbn [slashes]. rewrite append_cons.
    f_equal. exact IH.
  - exists 0%nat. reflexivity.
Qed.

Lemma rev_slashes (n : nat) : String.rev (slashes n) = slashes n.
Proof.
  apply chars_inj. rewrite rev_chars.
  assert (H : forall m, list_ascii_of_string (slashes m) = repeat "/"%char m).
  { induction m as [|m IH]; [reflexivity|]. cbn. rewrite IH. reflexivity. }
  rewrite H. induction n as [|n IH]; [reflexivity|].
  cbn [repeat List.rev]. rewrite IH. symmetry. apply repeat_cons.
Qed.

Lemma rev_append (a b : string) :
  String.rev (a +:+ b) = String.rev b +:+ String.rev a.
Proof.
  apply chars_inj. rewrite rev_chars, !chars_app, !rev_chars.
  apply List.rev_app_distr.
Qed.

Lemma rstrip_char_cut (s : string) :
  exists n, s = PyStr.rstrip_char "/" s +:+ slashes n.
Proof.
  destruct (lstrip_char_cut (String.rev s)) as [n Hn]. exists n.
  unfold PyStr.rstrip_char.
  rewrite <- (rev_rev s) at 1. rewrite Hn at 1.
  rewrite rev_append, rev_slashes. reflexivity.
Qed.

Lemma get_api_key_spec (now : string) (w : Config.World) :
  exists c, Config.get_api_key now w
            = (Return (Config.api_key c), Config.with_config (Some c) w)
            /\ forall later,
                 Config.get_api_key later (Config.with_config (Some c) w)
                 = (Return (Config.api_key c), Config.with_config (Some c) w).
Proof.
  destruct (get_config_spec now w) as (c & E & _). exists c.
  unfold Config.get_api_key, bind. rewrite E. split; reflexivity.
Qed.

(** Reading the effective key again gives the same key and changes
    nothing more. *)
Lemma effective_key_again (now later : string) (w : Config.World) :
  Config.get_effective_api_key later (snd (Config.get_effective_api_key now w))
  = Config.get_effective_api_key now w.
Proof.
  unfold Config.get_effective_api_key, bind, Config.getenv.
  destruct (get_api_key_spec now w) as (c & E & Hagain).
  destruct (Config.environ w !! "SELFLAYER_API_KEY") as [v|] eqn:Ev.
  - destruct (PyStr.truthy v) eqn:Ht.
    + cbn [ret snd]. rewrite Ev, Ht. reflexivity.
    + rewrite E. cbn [snd Config.environ Config.with_config].
      rewrite Ev, Ht. apply Hagain.
  - rewrite E. cbn [snd Config.environ Config.with_config].
    rewrite Ev. apply Hagain.
Qed.

Lemma effective_key_returns (now : string) (w : Config.World) :
  Config.get_effective_api_key now w
  = (Return (effective_key now w), snd (Config.get_effective_api_key now w)).
Proof.
  unfold effective_key.
  unfold Config.get_effective_api_key, bind, Config.getenv, Config.get_api_key.
  destruct (get_config_spec now w) as (c & E & _).
  destruct (Config.environ w !! "SELFLAYER_API_KEY") as [v|];
    [destruct (PyStr.truthy v)|]; unfold bind; rewrite ?E; reflexivity.
Qed.

(** What [new_client] does without a key of its own. *)
Lemma new_client_effective (now : string) (given : option string) (url : string)
    (w : Config.World) :
  usable given = None ->
  new_client now given url w
  = (match usable (effective_key now w) with
     | Some k => Return (Client.mkClient k (PyStr.rstrip_char "/" url))
     | None => Raise key_required
     end, snd (Config.get_effective_api_key now w)).
Proof.
  intros Hg. unfold new_client.
  assert (Hk : match given with
               | Some k => if PyStr.truthy k then ret (Some k)
                           else Config.get_effective_api_key now
               | None => Config.get_effective_api_key now
               end = Config.get_effective_api_key now).
  { destruct given as [k|]; [|reflexivity]. cbn in Hg.
    destruct (PyStr.truthy k); [discriminate Hg | reflexivity]. }
  rewrite Hk. unfold bind. rewrite (effective_key_returns now w). cbn [snd fst].
  destruct (effective_key now w) as [k|]; cbn [usable]; [|reflexivity].
  destruct (PyStr.truthy k); reflexivity.
Qed.





End StartupProperties.

(** ** [tui.py]: notifications and integrations *)

Section OtherKinds.
Import Models Client Renderers Tui Endpoints CommandLine.
Variable P : Platform.
Variable remote : Remote.
Variable answer : string -> bool.
Context `{MF : Model Notification.t, MI : Model Integration.t}.
Variable render_notifications_list : list Notification.t -> Panel.
Variable render_integrations_list : list Integration.t -> Panel.

Local Abbreviation _list_notifications :=
  (Commands._list_notifications P remote render_notifications_list).
Local Abbreviation _list_integrations :=
  (Commands._list_integrations P remote render_integrations_list).
Local Abbreviation _mark_notification_read :=
  (Commands._mark_notification_read P remote render_notifications_list).
Local Abbreviation _disconnect_integration :=
  (Commands._disconnect_integration P remote answer render_integrations_list).

Lemma appends_listing (name : string)
    (list_call : SelfLayerAPIClient -> M Process json)
    (update : json -> M AppState unit) (shows : SelfLayerCLI -> printed) (title : string) :
  (forall c, appends sent (list_call c)) ->
  appends requests
    (try_except
       (data <- on_client name list_call ;;
        in_state (update data) ;;;
        self <- get_self ;;
        say (shows self))
       (fun e => say (error_panel P e title)) ;;;
     say PBlank).
Proof.
  intros Hcall. apply appends_bind; [|intros _; apply appends_say].
  apply appends_try; [|intros e; apply appends_say].
  apply appends_bind.
  - apply appends_on_client. exact Hcall.
  - intros data. apply appends_bind; [apply appends_in_state|].
    intros _. apply appends_bind; [apply appends_get_self|].
    intros self. apply appends_say.
Qed.

Lemma appends_listing_call (endpoint key : string) (c : SelfLayerAPIClient) :
  appends sent (response <- get P remote c endpoint None ;; list_or_member key response).
Proof.
  intros w. destruct (listing_outcome P remote c endpoint key w) as (shown & Hs & _).
  exists [request_of c (Get endpoint None)]. rewrite Hs. reflexivity.
Qed.


End OtherKinds.

Section OtherKindsWitness.
Import Models Client Renderers Tui Endpoints CommandLine.
#[local] Existing Instances Strict.notification_model Strict.integration_model.


End OtherKindsWitness.

(** ** [models.py]: the preview of a note *)

Section Preview.
Import NoteDisplay.

Lemma length_append (a b : string) :
  String.length (a +:+ b) = (String.length a + String.length b)%nat.
Proof.
  induction a as [|c a IH]; [reflexivity|].
  rewrite append_cons. cbn [String.length]. rewrite IH. reflexivity.
Qed.



End Preview.
